(** * Space Exploration Chatbot: response cache, history and query pipeline

    A shallow embedding of [SpaceExplorationllama3/space_chatbot.py] and
    [SpaceExplorationGroqAi/space_chatbot.py].

    Modelling conventions.
    - The chatbot is modelled on ASCII text: a Python [str] is a Rocq
      [string], [lower] maps [A-Z] to [a-z], [isspace] is Python's
      whitespace test on the ASCII range (0x09-0x0D, 0x1C-0x1F, 0x20) and
      [encode] is the identity on code points below 128. Module [Unicode]
      has the same functions on arbitrary text, as sequences of code
      points; the two agree on ASCII text.
    - [hashlib.md5(...).hexdigest()] is implemented (RFC 1321) so that cache
      keys can be evaluated.
    - A Python [dict] is an association list in insertion order: iteration
      order, and therefore the entry dropped by [ResponseCache.set], depends
      on it.
    - A call that may raise returns a [result]; only subclasses of
      [Exception] are modelled (they are what [except Exception] catches).
    - [self.chain.invoke] is an external service: [chat] receives the
      outcome the service would produce and records every invocation in the
      ghost field [chain_log]. *)

From Stdlib Require Import String Ascii List ZArith Lia Bool Arith.
From Stdlib Require Import DecimalString.
Import ListNotations.

Local Open Scope string_scope.
Local Open Scope list_scope.

(** ** Python exceptions and fallible calls *)

Inductive ExcClass : Type :=
| FileNotFoundError
| ValueError
| TypeError
| KeyError
| StopIteration
| OtherException (name : string).

(** An instance of a subclass of [Exception]; [exc_str] is [str(e)]. *)
Record PyException : Type := mkExc {
  exc_class : ExcClass;
  exc_str : string
}.

Inductive result (A : Type) : Type :=
| Return (a : A)
| Raise (e : PyException).

Arguments Return {A} a.
Arguments Raise {A} e.

Definition bind {A B : Type} (r : result A) (k : A -> result B) : result B :=
  match r with
  | Return a => k a
  | Raise e => Raise e
  end.

Notation "x <- r ;; k" := (bind r (fun x => k))
  (at level 61, r at next level, right associativity).

(** ** Python string operations *)

Module PyStr.

Local Open Scope nat_scope.

Definition newline : string := String (ascii_of_nat 10) EmptyString.

(** [str.isspace] on one character of the ASCII range; [Unicode.isspace]
    is the test on any code point. *)
Definition isspace (c : ascii) : bool :=
  let n := nat_of_ascii c in
  ((9 <=? n) && (n <=? 13)) || ((28 <=? n) && (n <=? 32)).

Definition isupper (c : ascii) : bool :=
  let n := nat_of_ascii c in (65 <=? n) && (n <=? 90).

Definition lower_char (c : ascii) : ascii :=
  if isupper c then ascii_of_nat (nat_of_ascii c + 32) else c.

(** [s.lower()] on ASCII text; [Unicode.lower] is the function on any
    text. *)
Fixpoint lower (s : string) : string :=
  match s with
  | EmptyString => EmptyString
  | String c s' => String (lower_char c) (lower s')
  end.

(** [s.lstrip()] *)
Fixpoint lstrip (s : string) : string :=
  match s with
  | EmptyString => EmptyString
  | String c s' => if isspace c then lstrip s' else s
  end.

(** [s.rstrip()] *)
Fixpoint rstrip (s : string) : string :=
  match s with
  | EmptyString => EmptyString
  | String c s' =>
      match rstrip s' with
      | EmptyString => if isspace c then EmptyString else String c EmptyString
      | r => String c r
      end
  end.

(** [s.strip()] *)
Definition strip (s : string) : string := rstrip (lstrip s).

(** Truthiness of a [str]: the empty string is falsy. *)
Definition truthy (s : string) : bool :=
  match s with
  | EmptyString => false
  | String _ _ => true
  end.

(** [s.encode()]: the UTF-8 bytes, one per ASCII character. *)
Fixpoint encode (s : string) : list Z :=
  match s with
  | EmptyString => []
  | String c s' => Z.of_nat (nat_of_ascii c) :: encode s'
  end.

(** [str(n)] for a non-negative [int]. *)
Definition str_of_nat (n : nat) : string :=
  NilEmpty.string_of_uint (Nat.to_uint n).

(** ["-" * n] *)
Fixpoint dashes (n : nat) : string :=
  match n with
  | O => EmptyString
  | S n' => String "-" (dashes n')
  end.

(** Every character is whitespace (true of the empty string). *)
Fixpoint all_space (s : string) : bool :=
  match s with
  | EmptyString => true
  | String c s' => isspace c && all_space s'
  end.

End PyStr.

(** ** [hashlib.md5] *)

Module MD5.

Local Open Scope Z_scope.

Definition mask32 (x : Z) : Z := Z.land x 0xFFFFFFFF.

Definition rotl32 (x : Z) (c : Z) : Z :=
  Z.lor (mask32 (Z.shiftl x c)) (Z.shiftr (mask32 x) (32 - c)).

Definition not32 (x : Z) : Z := Z.lxor (mask32 x) 0xFFFFFFFF.

Definition K : list Z :=
  [ 0xd76aa478; 0xe8c7b756; 0x242070db; 0xc1bdceee;
    0xf57c0faf; 0x4787c62a; 0xa8304613; 0xfd469501;
    0x698098d8; 0x8b44f7af; 0xffff5bb1; 0x895cd7be;
    0x6b901122; 0xfd987193; 0xa679438e; 0x49b40821;
    0xf61e2562; 0xc040b340; 0x265e5a51; 0xe9b6c7aa;
    0xd62f105d; 0x02441453; 0xd8a1e681; 0xe7d3fbc8;
    0x21e1cde6; 0xc33707d6; 0xf4d50d87; 0x455a14ed;
    0xa9e3e905; 0xfcefa3f8; 0x676f02d9; 0x8d2a4c8a;
    0xfffa3942; 0x8771f681; 0x6d9d6122; 0xfde5380c;
    0xa4beea44; 0x4bdecfa9; 0xf6bb4b60; 0xbebfbc70;
    0x289b7ec6; 0xeaa127fa; 0xd4ef3085; 0x04881d05;
    0xd9d4d039; 0xe6db99e5; 0x1fa27cf8; 0xc4ac5665;
    0xf4292244; 0x432aff97; 0xab9423a7; 0xfc93a039;
    0x655b59c3; 0x8f0ccc92; 0xffeff47d; 0x85845dd1;
    0x6fa87e4f; 0xfe2ce6e0; 0xa3014314; 0x4e0811a1;
    0xf7537e82; 0xbd3af235; 0x2ad7d2bb; 0xeb86d391 ].

Definition S : list Z :=
  [ 7; 12; 17; 22; 7; 12; 17; 22; 7; 12; 17; 22; 7; 12; 17; 22;
    5; 9; 14; 20; 5; 9; 14; 20; 5; 9; 14; 20; 5; 9; 14; 20;
    4; 11; 16; 23; 4; 11; 16; 23; 4; 11; 16; 23; 4; 11; 16; 23;
    6; 10; 15; 21; 6; 10; 15; 21; 6; 10; 15; 21; 6; 10; 15; 21 ].

(** Little-endian bytes of the low [8 * n] bits of [x]. *)
Fixpoint le_bytes (n : nat) (x : Z) : list Z :=
  match n with
  | O => []
  | Datatypes.S n' => Z.land x 0xFF :: le_bytes n' (Z.shiftr x 8)
  end.

Definition pad (msg : list Z) : list Z :=
  let len := Z.of_nat (length msg) in
  msg ++ [0x80] ++ repeat 0 (Z.to_nat ((55 - len) mod 64))
      ++ le_bytes 8 (8 * len).

Fixpoint blocks (fuel : nat) (l : list Z) : list (list Z) :=
  match fuel with
  | O => []
  | Datatypes.S fuel' =>
      match l with
      | [] => []
      | _ => firstn 64 l :: blocks fuel' (skipn 64 l)
      end
  end.

Definition word_at (block : list Z) (g : nat) : Z :=
  let b := fun k => nth (4 * g + k) block 0 in
  b 0%nat + Z.shiftl (b 1%nat) 8 + Z.shiftl (b 2%nat) 16
    + Z.shiftl (b 3%nat) 24.

Record state : Type := mkState { sa : Z; sb : Z; sc : Z; sd : Z }.

Definition init_state : state :=
  mkState 0x67452301 0xefcdab89 0x98badcfe 0x10325476.

Definition step (block : list Z) (st : state) (i : nat) : state :=
  let '(mkState a b c d) := st in
  let '(f, g) :=
    if (i <? 16)%nat then
      (Z.lor (Z.land b c) (Z.land (not32 b) d), i)
    else if (i <? 32)%nat then
      (Z.lor (Z.land d b) (Z.land (not32 d) c), ((5 * i + 1) mod 16)%nat)
    else if (i <? 48)%nat then
      (Z.lxor (Z.lxor b c) d, ((3 * i + 5) mod 16)%nat)
    else
      (Z.lxor c (Z.lor b (not32 d)), ((7 * i) mod 16)%nat) in
  let f' := mask32 (f + a + nth i K 0 + word_at block g) in
  mkState d (mask32 (b + rotl32 f' (nth i S 0))) b c.

Definition compress (st : state) (block : list Z) : state :=
  let st' := fold_left (step block) (seq 0 64) st in
  mkState (mask32 (sa st + sa st')) (mask32 (sb st + sb st'))
          (mask32 (sc st + sc st')) (mask32 (sd st + sd st')).

Definition digest (msg : list Z) : list Z :=
  let p := pad msg in
  let st := fold_left compress (blocks (length p) p) init_state in
  le_bytes 4 (sa st) ++ le_bytes 4 (sb st)
    ++ le_bytes 4 (sc st) ++ le_bytes 4 (sd st).

Definition hex_digit (n : Z) : ascii :=
  if n <? 10 then ascii_of_nat (Z.to_nat (48 + n))
  else ascii_of_nat (Z.to_nat (87 + n)).

Fixpoint hex (bytes : list Z) : string :=
  match bytes with
  | [] => EmptyString
  | b :: bytes' =>
      String (hex_digit (Z.shiftr b 4))
        (String (hex_digit (Z.land b 0xF)) (hex bytes'))
  end.

(** [hashlib.md5(data).hexdigest()] *)
Definition hexdigest (data : list Z) : string := hex (digest data).

End MD5.

(** ** Python [str] as a sequence of code points

    [str.lower], [str.isspace], [str.strip] and [str.encode] on arbitrary
    text, after CPython 3.11 (Unicode 14.0.0): the lowercase mapping of
    every code point, the [Final_Sigma] rule for capital sigma, the
    whitespace code points and UTF-8. [PyStr] above is the restriction of
    these functions to ASCII text ([ascii_text_agrees] below); on other
    text the two differ, and this module is the one that follows the
    interpreter. *)

Module Unicode.

Local Open Scope N_scope.

Definition str : Type := list N.

(** Code points [lo, lo + stride, ..., hi] map to [target, target + stride,
    ...]: the simple lowercase mappings. *)
Definition lower_runs : list (N * N * N * N) :=
  [ (0x41, 0x5a, 1, 0x61); (0xc0, 0xd6, 1, 0xe0); (0xd8, 0xde, 1, 0xf8);
    (0x100, 0x12e, 2, 0x101); (0x132, 0x136, 2, 0x133); (0x139, 0x147, 2, 0x13a);
    (0x14a, 0x176, 2, 0x14b); (0x178, 0x178, 1, 0xff); (0x179, 0x17d, 2, 0x17a);
    (0x181, 0x181, 1, 0x253); (0x182, 0x184, 2, 0x183); (0x186, 0x186, 1, 0x254);
    (0x187, 0x187, 1, 0x188); (0x189, 0x18a, 1, 0x256); (0x18b, 0x18b, 1, 0x18c);
    (0x18e, 0x18e, 1, 0x1dd); (0x18f, 0x18f, 1, 0x259); (0x190, 0x190, 1, 0x25b);
    (0x191, 0x191, 1, 0x192); (0x193, 0x193, 1, 0x260); (0x194, 0x194, 1, 0x263);
    (0x196, 0x196, 1, 0x269); (0x197, 0x197, 1, 0x268); (0x198, 0x198, 1, 0x199);
    (0x19c, 0x19c, 1, 0x26f); (0x19d, 0x19d, 1, 0x272); (0x19f, 0x19f, 1, 0x275);
    (0x1a0, 0x1a4, 2, 0x1a1); (0x1a6, 0x1a6, 1, 0x280); (0x1a7, 0x1a7, 1, 0x1a8);
    (0x1a9, 0x1a9, 1, 0x283); (0x1ac, 0x1ac, 1, 0x1ad); (0x1ae, 0x1ae, 1, 0x288);
    (0x1af, 0x1af, 1, 0x1b0); (0x1b1, 0x1b2, 1, 0x28a); (0x1b3, 0x1b5, 2, 0x1b4);
    (0x1b7, 0x1b7, 1, 0x292); (0x1b8, 0x1b8, 1, 0x1b9); (0x1bc, 0x1bc, 1, 0x1bd);
    (0x1c4, 0x1c4, 1, 0x1c6); (0x1c5, 0x1c5, 1, 0x1c6); (0x1c7, 0x1c7, 1, 0x1c9);
    (0x1c8, 0x1c8, 1, 0x1c9); (0x1ca, 0x1ca, 1, 0x1cc); (0x1cb, 0x1db, 2, 0x1cc);
    (0x1de, 0x1ee, 2, 0x1df); (0x1f1, 0x1f1, 1, 0x1f3); (0x1f2, 0x1f4, 2, 0x1f3);
    (0x1f6, 0x1f6, 1, 0x195); (0x1f7, 0x1f7, 1, 0x1bf); (0x1f8, 0x21e, 2, 0x1f9);
    (0x220, 0x220, 1, 0x19e); (0x222, 0x232, 2, 0x223); (0x23a, 0x23a, 1, 0x2c65);
    (0x23b, 0x23b, 1, 0x23c); (0x23d, 0x23d, 1, 0x19a); (0x23e, 0x23e, 1, 0x2c66);
    (0x241, 0x241, 1, 0x242); (0x243, 0x243, 1, 0x180); (0x244, 0x244, 1, 0x289);
    (0x245, 0x245, 1, 0x28c); (0x246, 0x24e, 2, 0x247); (0x370, 0x372, 2, 0x371);
    (0x376, 0x376, 1, 0x377); (0x37f, 0x37f, 1, 0x3f3); (0x386, 0x386, 1, 0x3ac);
    (0x388, 0x38a, 1, 0x3ad); (0x38c, 0x38c, 1, 0x3cc); (0x38e, 0x38f, 1, 0x3cd);
    (0x391, 0x3a1, 1, 0x3b1); (0x3a3, 0x3ab, 1, 0x3c3); (0x3cf, 0x3cf, 1, 0x3d7);
    (0x3d8, 0x3ee, 2, 0x3d9); (0x3f4, 0x3f4, 1, 0x3b8); (0x3f7, 0x3f7, 1, 0x3f8);
    (0x3f9, 0x3f9, 1, 0x3f2); (0x3fa, 0x3fa, 1, 0x3fb); (0x3fd, 0x3ff, 1, 0x37b);
    (0x400, 0x40f, 1, 0x450); (0x410, 0x42f, 1, 0x430); (0x460, 0x480, 2, 0x461);
    (0x48a, 0x4be, 2, 0x48b); (0x4c0, 0x4c0, 1, 0x4cf); (0x4c1, 0x4cd, 2, 0x4c2);
    (0x4d0, 0x52e, 2, 0x4d1); (0x531, 0x556, 1, 0x561); (0x10a0, 0x10c5, 1, 0x2d00);
    (0x10c7, 0x10c7, 1, 0x2d27); (0x10cd, 0x10cd, 1, 0x2d2d); (0x13a0, 0x13ef, 1, 0xab70);
    (0x13f0, 0x13f5, 1, 0x13f8); (0x1c90, 0x1cba, 1, 0x10d0); (0x1cbd, 0x1cbf, 1, 0x10fd);
    (0x1e00, 0x1e94, 2, 0x1e01); (0x1e9e, 0x1e9e, 1, 0xdf); (0x1ea0, 0x1efe, 2, 0x1ea1);
    (0x1f08, 0x1f0f, 1, 0x1f00); (0x1f18, 0x1f1d, 1, 0x1f10); (0x1f28, 0x1f2f, 1, 0x1f20);
    (0x1f38, 0x1f3f, 1, 0x1f30); (0x1f48, 0x1f4d, 1, 0x1f40); (0x1f59, 0x1f5f, 2, 0x1f51);
    (0x1f68, 0x1f6f, 1, 0x1f60); (0x1f88, 0x1f8f, 1, 0x1f80); (0x1f98, 0x1f9f, 1, 0x1f90);
    (0x1fa8, 0x1faf, 1, 0x1fa0); (0x1fb8, 0x1fb9, 1, 0x1fb0); (0x1fba, 0x1fbb, 1, 0x1f70);
    (0x1fbc, 0x1fbc, 1, 0x1fb3); (0x1fc8, 0x1fcb, 1, 0x1f72); (0x1fcc, 0x1fcc, 1, 0x1fc3);
    (0x1fd8, 0x1fd9, 1, 0x1fd0); (0x1fda, 0x1fdb, 1, 0x1f76); (0x1fe8, 0x1fe9, 1, 0x1fe0);
    (0x1fea, 0x1feb, 1, 0x1f7a); (0x1fec, 0x1fec, 1, 0x1fe5); (0x1ff8, 0x1ff9, 1, 0x1f78);
    (0x1ffa, 0x1ffb, 1, 0x1f7c); (0x1ffc, 0x1ffc, 1, 0x1ff3); (0x2126, 0x2126, 1, 0x3c9);
    (0x212a, 0x212a, 1, 0x6b); (0x212b, 0x212b, 1, 0xe5); (0x2132, 0x2132, 1, 0x214e);
    (0x2160, 0x216f, 1, 0x2170); (0x2183, 0x2183, 1, 0x2184); (0x24b6, 0x24cf, 1, 0x24d0);
    (0x2c00, 0x2c2f, 1, 0x2c30); (0x2c60, 0x2c60, 1, 0x2c61); (0x2c62, 0x2c62, 1, 0x26b);
    (0x2c63, 0x2c63, 1, 0x1d7d); (0x2c64, 0x2c64, 1, 0x27d); (0x2c67, 0x2c6b, 2, 0x2c68);
    (0x2c6d, 0x2c6d, 1, 0x251); (0x2c6e, 0x2c6e, 1, 0x271); (0x2c6f, 0x2c6f, 1, 0x250);
    (0x2c70, 0x2c70, 1, 0x252); (0x2c72, 0x2c72, 1, 0x2c73); (0x2c75, 0x2c75, 1, 0x2c76);
    (0x2c7e, 0x2c7f, 1, 0x23f); (0x2c80, 0x2ce2, 2, 0x2c81); (0x2ceb, 0x2ced, 2, 0x2cec);
    (0x2cf2, 0x2cf2, 1, 0x2cf3); (0xa640, 0xa66c, 2, 0xa641); (0xa680, 0xa69a, 2, 0xa681);
    (0xa722, 0xa72e, 2, 0xa723); (0xa732, 0xa76e, 2, 0xa733); (0xa779, 0xa77b, 2, 0xa77a);
    (0xa77d, 0xa77d, 1, 0x1d79); (0xa77e, 0xa786, 2, 0xa77f); (0xa78b, 0xa78b, 1, 0xa78c);
    (0xa78d, 0xa78d, 1, 0x265); (0xa790, 0xa792, 2, 0xa791); (0xa796, 0xa7a8, 2, 0xa797);
    (0xa7aa, 0xa7aa, 1, 0x266); (0xa7ab, 0xa7ab, 1, 0x25c); (0xa7ac, 0xa7ac, 1, 0x261);
    (0xa7ad, 0xa7ad, 1, 0x26c); (0xa7ae, 0xa7ae, 1, 0x26a); (0xa7b0, 0xa7b0, 1, 0x29e);
    (0xa7b1, 0xa7b1, 1, 0x287); (0xa7b2, 0xa7b2, 1, 0x29d); (0xa7b3, 0xa7b3, 1, 0xab53);
    (0xa7b4, 0xa7c2, 2, 0xa7b5); (0xa7c4, 0xa7c4, 1, 0xa794); (0xa7c5, 0xa7c5, 1, 0x282);
    (0xa7c6, 0xa7c6, 1, 0x1d8e); (0xa7c7, 0xa7c9, 2, 0xa7c8); (0xa7d0, 0xa7d0, 1, 0xa7d1);
    (0xa7d6, 0xa7d8, 2, 0xa7d7); (0xa7f5, 0xa7f5, 1, 0xa7f6); (0xff21, 0xff3a, 1, 0xff41);
    (0x10400, 0x10427, 1, 0x10428); (0x104b0, 0x104d3, 1, 0x104d8); (0x10570, 0x1057a, 1, 0x10597);
    (0x1057c, 0x1058a, 1, 0x105a3); (0x1058c, 0x10592, 1, 0x105b3); (0x10594, 0x10595, 1, 0x105bb);
    (0x10c80, 0x10cb2, 1, 0x10cc0); (0x118a0, 0x118bf, 1, 0x118c0); (0x16e40, 0x16e5f, 1, 0x16e60);
    (0x1e900, 0x1e921, 1, 0x1e922) ].

(** Code points with the property [Cased]. *)
Definition cased_ranges : list (N * N) :=
  [ (0x41, 0x5a); (0x61, 0x7a); (0xaa, 0xaa); (0xb5, 0xb5);
    (0xba, 0xba); (0xc0, 0xd6); (0xd8, 0xf6); (0xf8, 0x1ba);
    (0x1bc, 0x1bf); (0x1c4, 0x293); (0x295, 0x2b8); (0x2c0, 0x2c1);
    (0x2e0, 0x2e4); (0x345, 0x345); (0x370, 0x373); (0x376, 0x377);
    (0x37a, 0x37d); (0x37f, 0x37f); (0x386, 0x386); (0x388, 0x38a);
    (0x38c, 0x38c); (0x38e, 0x3a1); (0x3a3, 0x3f5); (0x3f7, 0x481);
    (0x48a, 0x52f); (0x531, 0x556); (0x560, 0x588); (0x10a0, 0x10c5);
    (0x10c7, 0x10c7); (0x10cd, 0x10cd); (0x10d0, 0x10fa); (0x10fd, 0x10ff);
    (0x13a0, 0x13f5); (0x13f8, 0x13fd); (0x1c80, 0x1c88); (0x1c90, 0x1cba);
    (0x1cbd, 0x1cbf); (0x1d00, 0x1dbf); (0x1e00, 0x1f15); (0x1f18, 0x1f1d);
    (0x1f20, 0x1f45); (0x1f48, 0x1f4d); (0x1f50, 0x1f57); (0x1f59, 0x1f59);
    (0x1f5b, 0x1f5b); (0x1f5d, 0x1f5d); (0x1f5f, 0x1f7d); (0x1f80, 0x1fb4);
    (0x1fb6, 0x1fbc); (0x1fbe, 0x1fbe); (0x1fc2, 0x1fc4); (0x1fc6, 0x1fcc);
    (0x1fd0, 0x1fd3); (0x1fd6, 0x1fdb); (0x1fe0, 0x1fec); (0x1ff2, 0x1ff4);
    (0x1ff6, 0x1ffc); (0x2071, 0x2071); (0x207f, 0x207f); (0x2090, 0x209c);
    (0x2102, 0x2102); (0x2107, 0x2107); (0x210a, 0x2113); (0x2115, 0x2115);
    (0x2119, 0x211d); (0x2124, 0x2124); (0x2126, 0x2126); (0x2128, 0x2128);
    (0x212a, 0x212d); (0x212f, 0x2134); (0x2139, 0x2139); (0x213c, 0x213f);
    (0x2145, 0x2149); (0x214e, 0x214e); (0x2160, 0x217f); (0x2183, 0x2184);
    (0x24b6, 0x24e9); (0x2c00, 0x2ce4); (0x2ceb, 0x2cee); (0x2cf2, 0x2cf3);
    (0x2d00, 0x2d25); (0x2d27, 0x2d27); (0x2d2d, 0x2d2d); (0xa640, 0xa66d);
    (0xa680, 0xa69d); (0xa722, 0xa787); (0xa78b, 0xa78e); (0xa790, 0xa7ca);
    (0xa7d0, 0xa7d1); (0xa7d3, 0xa7d3); (0xa7d5, 0xa7d9); (0xa7f5, 0xa7f6);
    (0xa7f8, 0xa7fa); (0xab30, 0xab5a); (0xab5c, 0xab68); (0xab70, 0xabbf);
    (0xfb00, 0xfb06); (0xfb13, 0xfb17); (0xff21, 0xff3a); (0xff41, 0xff5a);
    (0x10400, 0x1044f); (0x104b0, 0x104d3); (0x104d8, 0x104fb); (0x10570, 0x1057a);
    (0x1057c, 0x1058a); (0x1058c, 0x10592); (0x10594, 0x10595); (0x10597, 0x105a1);
    (0x105a3, 0x105b1); (0x105b3, 0x105b9); (0x105bb, 0x105bc); (0x10780, 0x10780);
    (0x10783, 0x10785); (0x10787, 0x107b0); (0x107b2, 0x107ba); (0x10c80, 0x10cb2);
    (0x10cc0, 0x10cf2); (0x118a0, 0x118df); (0x16e40, 0x16e7f); (0x1d400, 0x1d454);
    (0x1d456, 0x1d49c); (0x1d49e, 0x1d49f); (0x1d4a2, 0x1d4a2); (0x1d4a5, 0x1d4a6);
    (0x1d4a9, 0x1d4ac); (0x1d4ae, 0x1d4b9); (0x1d4bb, 0x1d4bb); (0x1d4bd, 0x1d4c3);
    (0x1d4c5, 0x1d505); (0x1d507, 0x1d50a); (0x1d50d, 0x1d514); (0x1d516, 0x1d51c);
    (0x1d51e, 0x1d539); (0x1d53b, 0x1d53e); (0x1d540, 0x1d544); (0x1d546, 0x1d546);
    (0x1d54a, 0x1d550); (0x1d552, 0x1d6a5); (0x1d6a8, 0x1d6c0); (0x1d6c2, 0x1d6da);
    (0x1d6dc, 0x1d6fa); (0x1d6fc, 0x1d714); (0x1d716, 0x1d734); (0x1d736, 0x1d74e);
    (0x1d750, 0x1d76e); (0x1d770, 0x1d788); (0x1d78a, 0x1d7a8); (0x1d7aa, 0x1d7c2);
    (0x1d7c4, 0x1d7cb); (0x1df00, 0x1df09); (0x1df0b, 0x1df1e); (0x1e900, 0x1e943);
    (0x1f130, 0x1f149); (0x1f150, 0x1f169); (0x1f170, 0x1f189) ].

(** Code points with the property [Case_Ignorable]. *)
Definition case_ignorable_ranges : list (N * N) :=
  [ (0x27, 0x27); (0x2e, 0x2e); (0x3a, 0x3a); (0x5e, 0x5e);
    (0x60, 0x60); (0xa8, 0xa8); (0xad, 0xad); (0xaf, 0xaf);
    (0xb4, 0xb4); (0xb7, 0xb8); (0x2b0, 0x36f); (0x374, 0x375);
    (0x37a, 0x37a); (0x384, 0x385); (0x387, 0x387); (0x483, 0x489);
    (0x559, 0x559); (0x55f, 0x55f); (0x591, 0x5bd); (0x5bf, 0x5bf);
    (0x5c1, 0x5c2); (0x5c4, 0x5c5); (0x5c7, 0x5c7); (0x5f4, 0x5f4);
    (0x600, 0x605); (0x610, 0x61a); (0x61c, 0x61c); (0x640, 0x640);
    (0x64b, 0x65f); (0x670, 0x670); (0x6d6, 0x6dd); (0x6df, 0x6e8);
    (0x6ea, 0x6ed); (0x70f, 0x70f); (0x711, 0x711); (0x730, 0x74a);
    (0x7a6, 0x7b0); (0x7eb, 0x7f5); (0x7fa, 0x7fa); (0x7fd, 0x7fd);
    (0x816, 0x82d); (0x859, 0x85b); (0x888, 0x888); (0x890, 0x891);
    (0x898, 0x89f); (0x8c9, 0x902); (0x93a, 0x93a); (0x93c, 0x93c);
    (0x941, 0x948); (0x94d, 0x94d); (0x951, 0x957); (0x962, 0x963);
    (0x971, 0x971); (0x981, 0x981); (0x9bc, 0x9bc); (0x9c1, 0x9c4);
    (0x9cd, 0x9cd); (0x9e2, 0x9e3); (0x9fe, 0x9fe); (0xa01, 0xa02);
    (0xa3c, 0xa3c); (0xa41, 0xa42); (0xa47, 0xa48); (0xa4b, 0xa4d);
    (0xa51, 0xa51); (0xa70, 0xa71); (0xa75, 0xa75); (0xa81, 0xa82);
    (0xabc, 0xabc); (0xac1, 0xac5); (0xac7, 0xac8); (0xacd, 0xacd);
    (0xae2, 0xae3); (0xafa, 0xaff); (0xb01, 0xb01); (0xb3c, 0xb3c);
    (0xb3f, 0xb3f); (0xb41, 0xb44); (0xb4d, 0xb4d); (0xb55, 0xb56);
    (0xb62, 0xb63); (0xb82, 0xb82); (0xbc0, 0xbc0); (0xbcd, 0xbcd);
    (0xc00, 0xc00); (0xc04, 0xc04); (0xc3c, 0xc3c); (0xc3e, 0xc40);
    (0xc46, 0xc48); (0xc4a, 0xc4d); (0xc55, 0xc56); (0xc62, 0xc63);
    (0xc81, 0xc81); (0xcbc, 0xcbc); (0xcbf, 0xcbf); (0xcc6, 0xcc6);
    (0xccc, 0xccd); (0xce2, 0xce3); (0xd00, 0xd01); (0xd3b, 0xd3c);
    (0xd41, 0xd44); (0xd4d, 0xd4d); (0xd62, 0xd63); (0xd81, 0xd81);
    (0xdca, 0xdca); (0xdd2, 0xdd4); (0xdd6, 0xdd6); (0xe31, 0xe31);
    (0xe34, 0xe3a); (0xe46, 0xe4e); (0xeb1, 0xeb1); (0xeb4, 0xebc);
    (0xec6, 0xec6); (0xec8, 0xecd); (0xf18, 0xf19); (0xf35, 0xf35);
    (0xf37, 0xf37); (0xf39, 0xf39); (0xf71, 0xf7e); (0xf80, 0xf84);
    (0xf86, 0xf87); (0xf8d, 0xf97); (0xf99, 0xfbc); (0xfc6, 0xfc6);
    (0x102d, 0x1030); (0x1032, 0x1037); (0x1039, 0x103a); (0x103d, 0x103e);
    (0x1058, 0x1059); (0x105e, 0x1060); (0x1071, 0x1074); (0x1082, 0x1082);
    (0x1085, 0x1086); (0x108d, 0x108d); (0x109d, 0x109d); (0x10fc, 0x10fc);
    (0x135d, 0x135f); (0x1712, 0x1714); (0x1732, 0x1733); (0x1752, 0x1753);
    (0x1772, 0x1773); (0x17b4, 0x17b5); (0x17b7, 0x17bd); (0x17c6, 0x17c6);
    (0x17c9, 0x17d3); (0x17d7, 0x17d7); (0x17dd, 0x17dd); (0x180b, 0x180f);
    (0x1843, 0x1843); (0x1885, 0x1886); (0x18a9, 0x18a9); (0x1920, 0x1922);
    (0x1927, 0x1928); (0x1932, 0x1932); (0x1939, 0x193b); (0x1a17, 0x1a18);
    (0x1a1b, 0x1a1b); (0x1a56, 0x1a56); (0x1a58, 0x1a5e); (0x1a60, 0x1a60);
    (0x1a62, 0x1a62); (0x1a65, 0x1a6c); (0x1a73, 0x1a7c); (0x1a7f, 0x1a7f);
    (0x1aa7, 0x1aa7); (0x1ab0, 0x1ace); (0x1b00, 0x1b03); (0x1b34, 0x1b34);
    (0x1b36, 0x1b3a); (0x1b3c, 0x1b3c); (0x1b42, 0x1b42); (0x1b6b, 0x1b73);
    (0x1b80, 0x1b81); (0x1ba2, 0x1ba5); (0x1ba8, 0x1ba9); (0x1bab, 0x1bad);
    (0x1be6, 0x1be6); (0x1be8, 0x1be9); (0x1bed, 0x1bed); (0x1bef, 0x1bf1);
    (0x1c2c, 0x1c33); (0x1c36, 0x1c37); (0x1c78, 0x1c7d); (0x1cd0, 0x1cd2);
    (0x1cd4, 0x1ce0); (0x1ce2, 0x1ce8); (0x1ced, 0x1ced); (0x1cf4, 0x1cf4);
    (0x1cf8, 0x1cf9); (0x1d2c, 0x1d6a); (0x1d78, 0x1d78); (0x1d9b, 0x1dff);
    (0x1fbd, 0x1fbd); (0x1fbf, 0x1fc1); (0x1fcd, 0x1fcf); (0x1fdd, 0x1fdf);
    (0x1fed, 0x1fef); (0x1ffd, 0x1ffe); (0x200b, 0x200f); (0x2018, 0x2019);
    (0x2024, 0x2024); (0x2027, 0x2027); (0x202a, 0x202e); (0x2060, 0x2064);
    (0x2066, 0x206f); (0x2071, 0x2071); (0x207f, 0x207f); (0x2090, 0x209c);
    (0x20d0, 0x20f0); (0x2c7c, 0x2c7d); (0x2cef, 0x2cf1); (0x2d6f, 0x2d6f);
    (0x2d7f, 0x2d7f); (0x2de0, 0x2dff); (0x2e2f, 0x2e2f); (0x3005, 0x3005);
    (0x302a, 0x302d); (0x3031, 0x3035); (0x303b, 0x303b); (0x3099, 0x309e);
    (0x30fc, 0x30fe); (0xa015, 0xa015); (0xa4f8, 0xa4fd); (0xa60c, 0xa60c);
    (0xa66f, 0xa672); (0xa674, 0xa67d); (0xa67f, 0xa67f); (0xa69c, 0xa69f);
    (0xa6f0, 0xa6f1); (0xa700, 0xa721); (0xa770, 0xa770); (0xa788, 0xa78a);
    (0xa7f2, 0xa7f4); (0xa7f8, 0xa7f9); (0xa802, 0xa802); (0xa806, 0xa806);
    (0xa80b, 0xa80b); (0xa825, 0xa826); (0xa82c, 0xa82c); (0xa8c4, 0xa8c5);
    (0xa8e0, 0xa8f1); (0xa8ff, 0xa8ff); (0xa926, 0xa92d); (0xa947, 0xa951);
    (0xa980, 0xa982); (0xa9b3, 0xa9b3); (0xa9b6, 0xa9b9); (0xa9bc, 0xa9bd);
    (0xa9cf, 0xa9cf); (0xa9e5, 0xa9e6); (0xaa29, 0xaa2e); (0xaa31, 0xaa32);
    (0xaa35, 0xaa36); (0xaa43, 0xaa43); (0xaa4c, 0xaa4c); (0xaa70, 0xaa70);
    (0xaa7c, 0xaa7c); (0xaab0, 0xaab0); (0xaab2, 0xaab4); (0xaab7, 0xaab8);
    (0xaabe, 0xaabf); (0xaac1, 0xaac1); (0xaadd, 0xaadd); (0xaaec, 0xaaed);
    (0xaaf3, 0xaaf4); (0xaaf6, 0xaaf6); (0xab5b, 0xab5f); (0xab69, 0xab6b);
    (0xabe5, 0xabe5); (0xabe8, 0xabe8); (0xabed, 0xabed); (0xfb1e, 0xfb1e);
    (0xfbb2, 0xfbc2); (0xfe00, 0xfe0f); (0xfe13, 0xfe13); (0xfe20, 0xfe2f);
    (0xfe52, 0xfe52); (0xfe55, 0xfe55); (0xfeff, 0xfeff); (0xff07, 0xff07);
    (0xff0e, 0xff0e); (0xff1a, 0xff1a); (0xff3e, 0xff3e); (0xff40, 0xff40);
    (0xff70, 0xff70); (0xff9e, 0xff9f); (0xffe3, 0xffe3); (0xfff9, 0xfffb);
    (0x101fd, 0x101fd); (0x102e0, 0x102e0); (0x10376, 0x1037a); (0x10780, 0x10785);
    (0x10787, 0x107b0); (0x107b2, 0x107ba); (0x10a01, 0x10a03); (0x10a05, 0x10a06);
    (0x10a0c, 0x10a0f); (0x10a38, 0x10a3a); (0x10a3f, 0x10a3f); (0x10ae5, 0x10ae6);
    (0x10d24, 0x10d27); (0x10eab, 0x10eac); (0x10f46, 0x10f50); (0x10f82, 0x10f85);
    (0x11001, 0x11001); (0x11038, 0x11046); (0x11070, 0x11070); (0x11073, 0x11074);
    (0x1107f, 0x11081); (0x110b3, 0x110b6); (0x110b9, 0x110ba); (0x110bd, 0x110bd);
    (0x110c2, 0x110c2); (0x110cd, 0x110cd); (0x11100, 0x11102); (0x11127, 0x1112b);
    (0x1112d, 0x11134); (0x11173, 0x11173); (0x11180, 0x11181); (0x111b6, 0x111be);
    (0x111c9, 0x111cc); (0x111cf, 0x111cf); (0x1122f, 0x11231); (0x11234, 0x11234);
    (0x11236, 0x11237); (0x1123e, 0x1123e); (0x112df, 0x112df); (0x112e3, 0x112ea);
    (0x11300, 0x11301); (0x1133b, 0x1133c); (0x11340, 0x11340); (0x11366, 0x1136c);
    (0x11370, 0x11374); (0x11438, 0x1143f); (0x11442, 0x11444); (0x11446, 0x11446);
    (0x1145e, 0x1145e); (0x114b3, 0x114b8); (0x114ba, 0x114ba); (0x114bf, 0x114c0);
    (0x114c2, 0x114c3); (0x115b2, 0x115b5); (0x115bc, 0x115bd); (0x115bf, 0x115c0);
    (0x115dc, 0x115dd); (0x11633, 0x1163a); (0x1163d, 0x1163d); (0x1163f, 0x11640);
    (0x116ab, 0x116ab); (0x116ad, 0x116ad); (0x116b0, 0x116b5); (0x116b7, 0x116b7);
    (0x1171d, 0x1171f); (0x11722, 0x11725); (0x11727, 0x1172b); (0x1182f, 0x11837);
    (0x11839, 0x1183a); (0x1193b, 0x1193c); (0x1193e, 0x1193e); (0x11943, 0x11943);
    (0x119d4, 0x119d7); (0x119da, 0x119db); (0x119e0, 0x119e0); (0x11a01, 0x11a0a);
    (0x11a33, 0x11a38); (0x11a3b, 0x11a3e); (0x11a47, 0x11a47); (0x11a51, 0x11a56);
    (0x11a59, 0x11a5b); (0x11a8a, 0x11a96); (0x11a98, 0x11a99); (0x11c30, 0x11c36);
    (0x11c38, 0x11c3d); (0x11c3f, 0x11c3f); (0x11c92, 0x11ca7); (0x11caa, 0x11cb0);
    (0x11cb2, 0x11cb3); (0x11cb5, 0x11cb6); (0x11d31, 0x11d36); (0x11d3a, 0x11d3a);
    (0x11d3c, 0x11d3d); (0x11d3f, 0x11d45); (0x11d47, 0x11d47); (0x11d90, 0x11d91);
    (0x11d95, 0x11d95); (0x11d97, 0x11d97); (0x11ef3, 0x11ef4); (0x13430, 0x13438);
    (0x16af0, 0x16af4); (0x16b30, 0x16b36); (0x16b40, 0x16b43); (0x16f4f, 0x16f4f);
    (0x16f8f, 0x16f9f); (0x16fe0, 0x16fe1); (0x16fe3, 0x16fe4); (0x1aff0, 0x1aff3);
    (0x1aff5, 0x1affb); (0x1affd, 0x1affe); (0x1bc9d, 0x1bc9e); (0x1bca0, 0x1bca3);
    (0x1cf00, 0x1cf2d); (0x1cf30, 0x1cf46); (0x1d167, 0x1d169); (0x1d173, 0x1d182);
    (0x1d185, 0x1d18b); (0x1d1aa, 0x1d1ad); (0x1d242, 0x1d244); (0x1da00, 0x1da36);
    (0x1da3b, 0x1da6c); (0x1da75, 0x1da75); (0x1da84, 0x1da84); (0x1da9b, 0x1da9f);
    (0x1daa1, 0x1daaf); (0x1e000, 0x1e006); (0x1e008, 0x1e018); (0x1e01b, 0x1e021);
    (0x1e023, 0x1e024); (0x1e026, 0x1e02a); (0x1e130, 0x1e13d); (0x1e2ae, 0x1e2ae);
    (0x1e2ec, 0x1e2ef); (0x1e8d0, 0x1e8d6); (0x1e944, 0x1e94b); (0x1f3fb, 0x1f3ff);
    (0xe0001, 0xe0001); (0xe0020, 0xe007f); (0xe0100, 0xe01ef) ].

(** Code points for which [str.isspace] holds. *)
Definition space_ranges : list (N * N) :=
  [ (0x9, 0xd); (0x1c, 0x20); (0x85, 0x85); (0xa0, 0xa0);
    (0x1680, 0x1680); (0x2000, 0x200a); (0x2028, 0x2029); (0x202f, 0x202f);
    (0x205f, 0x205f); (0x3000, 0x3000) ].

Fixpoint find_run (runs : list (N * N * N * N)) (c : N) : option N :=
  match runs with
  | [] => None
  | (lo, hi, stride, target) :: runs' =>
      if (lo <=? c) && (c <=? hi) && ((c - lo) mod stride =? 0)
      then Some (target + (c - lo))
      else find_run runs' c
  end.

Fixpoint in_ranges (ranges : list (N * N)) (c : N) : bool :=
  match ranges with
  | [] => false
  | (lo, hi) :: ranges' => ((lo <=? c) && (c <=? hi)) || in_ranges ranges' c
  end.

(** The full lowercase mapping of one code point; U+0130 is the only one
    that maps to two. *)
Definition to_lower_full (c : N) : list N :=
  if c =? 0x130 then [0x69; 0x307]
  else match find_run lower_runs c with
       | Some target => [target]
       | None => [c]
       end.

Definition cased (c : N) : bool := in_ranges cased_ranges c.

Definition case_ignorable (c : N) : bool :=
  in_ranges case_ignorable_ranges c.

Definition isspace (c : N) : bool := in_ranges space_ranges c.

Fixpoint first_not_ignorable (s : list N) : option N :=
  match s with
  | [] => None
  | c :: s' => if case_ignorable c then first_not_ignorable s' else Some c
  end.

(** Capital sigma is in final position when a cased letter comes before
    it and none comes after it, case-ignorable characters apart. [before]
    is the text before it, nearest character first. *)
Definition final_sigma (before after : list N) : bool :=
  match first_not_ignorable before with
  | None => false
  | Some c =>
      cased c
      && match first_not_ignorable after with
         | None => true
         | Some c' => negb (cased c')
         end
  end.

Fixpoint lower_from (before : list N) (s : str) : str :=
  match s with
  | [] => []
  | c :: s' =>
      (if c =? 0x3A3
       then [if final_sigma before s' then 0x3C2 else 0x3C3]
       else to_lower_full c)
        ++ lower_from (c :: before) s'
  end.

(** [s.lower()] *)
Definition lower (s : str) : str := lower_from [] s.

(** [s.lstrip()], [s.rstrip()], [s.strip()] *)
Fixpoint lstrip (s : str) : str :=
  match s with
  | [] => []
  | c :: s' => if isspace c then lstrip s' else s
  end.

Fixpoint rstrip (s : str) : str :=
  match s with
  | [] => []
  | c :: s' =>
      match rstrip s' with
      | [] => if isspace c then [] else [c]
      | r => c :: r
      end
  end.

Definition strip (s : str) : str := rstrip (lstrip s).

(** The UTF-8 bytes of one code point; a surrogate has none. *)
Definition utf8 (c : N) : option (list Z) :=
  let byte := fun n => Z.of_N n in
  if c <? 0x80 then Some [byte c]
  else if c <? 0x800 then
    Some [byte (0xC0 + c / 0x40); byte (0x80 + c mod 0x40)]
  else if (0xD800 <=? c) && (c <=? 0xDFFF) then None
  else if c <? 0x10000 then
    Some [byte (0xE0 + c / 0x1000); byte (0x80 + (c / 0x40) mod 0x40);
          byte (0x80 + c mod 0x40)]
  else
    Some [byte (0xF0 + c / 0x40000); byte (0x80 + (c / 0x1000) mod 0x40);
          byte (0x80 + (c / 0x40) mod 0x40); byte (0x80 + c mod 0x40)].

(** [s.encode()]: [None] stands for the [UnicodeEncodeError] that a
    surrogate raises. *)
Fixpoint encode (s : str) : option (list Z) :=
  match s with
  | [] => Some []
  | c :: s' =>
      match utf8 c, encode s' with
      | Some bytes, Some rest => Some (bytes ++ rest)
      | _, _ => None
      end
  end.

(** [ResponseCache.get_key] on arbitrary text:
    [hashlib.md5(query.lower().strip().encode()).hexdigest()]. *)
Definition get_key (query : str) : option string :=
  match encode (strip (lower query)) with
  | Some bytes => Some (MD5.hexdigest bytes)
  | None => None
  end.

(** The code points of a string of the ASCII model. *)
Fixpoint code_points (s : string) : str :=
  match s with
  | EmptyString => []
  | String c s' => N.of_nat (nat_of_ascii c) :: code_points s'
  end.

(** Every character is in the ASCII range. *)
Fixpoint is_ascii (s : string) : bool :=
  match s with
  | EmptyString => true
  | String c s' => (nat_of_ascii c <? 128)%nat && is_ascii s'
  end.

(** Two characters that are one letter in either case: their lowercase
    mappings are the same. *)
Definition case_variant (c1 c2 : N) : Prop :=
  to_lower_full c1 = to_lower_full c2.

End Unicode.

(** ** Python [dict] with [str] keys, in insertion order *)

Module Dict.

Definition t : Type := list (string * string).

Definition keys (d : t) : list string := map fst d.

(** [d.get(k)]: [None] when the key is absent. *)
Fixpoint get (d : t) (k : string) : option string :=
  match d with
  | [] => None
  | (k', v) :: d' => if String.eqb k' k then Some v else get d' k
  end.

(** [next(iter(d))]: the oldest key; raises [StopIteration] on an empty
    dictionary. *)
Definition first_key (d : t) : result string :=
  match d with
  | [] => Raise (mkExc StopIteration "")
  | (k, _) :: _ => Return k
  end.

Fixpoint remove (d : t) (k : string) : t :=
  match d with
  | [] => []
  | (k', v) :: d' => if String.eqb k' k then d' else (k', v) :: remove d' k
  end.

(** [d.pop(k)]: the value and the dictionary without the key; raises
    [KeyError] when the key is absent. *)
Definition pop (d : t) (k : string) : result (string * t) :=
  match get d k with
  | None => Raise (mkExc KeyError ("'" ++ k ++ "'"))
  | Some v => Return (v, remove d k)
  end.

(** [d[k] = v]: an existing key keeps its position, a new key goes last. *)
Fixpoint setitem (d : t) (k v : string) : t :=
  match d with
  | [] => [(k, v)]
  | (k', v') :: d' =>
      if String.eqb k' k then (k', v) :: d' else (k', v') :: setitem d' k v
  end.

(** A dictionary holds each key once. *)
Definition wf (d : t) : Prop := NoDup (keys d).

End Dict.

(** ** [class ResponseCache] *)

Module ResponseCache.

Record t : Type := mk {
  cache : Dict.t;
  max_size : Z
}.

(** [ResponseCache(max_size)]; the default argument is 50. *)
Definition init (max_size : Z) : t := mk [] max_size.

Definition default_max_size : Z := 50.

Definition get_key (query : string) : string :=
  MD5.hexdigest (PyStr.encode (PyStr.strip (PyStr.lower query))).

Definition get (self : t) (query : string) : option string :=
  let key := get_key query in
  Dict.get (cache self) key.

Definition set (self : t) (query response : string) : result t :=
  let key := get_key query in
  d <- (if (Z.of_nat (length (cache self)) >=? max_size self)%Z
        then (* Remove oldest entry *)
             k <- Dict.first_key (cache self) ;;
             p <- Dict.pop (cache self) k ;;
             Return (snd p)
        else Return (cache self)) ;;
  Return (mk (Dict.setitem d key response) (max_size self)).

Definition clear (self : t) : t := mk [] (max_size self).

(** A client of the cache: a sequence of [get] and [set] calls. A [get]
    returns a value and leaves the object as it is. *)
Inductive op : Type :=
| OpGet (query : string)
| OpSet (query response : string).

Fixpoint run (self : t) (ops : list op) : result t :=
  match ops with
  | [] => Return self
  | OpGet query :: ops' => let _ := get self query in run self ops'
  | OpSet query response :: ops' =>
      self' <- set self query response ;; run self' ops'
  end.

(** The (query, response) pairs a sequence of calls passes to [set]. *)
Fixpoint inserted (ops : list op) : list (string * string) :=
  match ops with
  | [] => []
  | OpGet _ :: ops' => inserted ops'
  | OpSet query response :: ops' => (query, response) :: inserted ops'
  end.

(** The dictionary entries those pairs become, and their keys. *)
Definition stored (ops : list op) : Dict.t :=
  map (fun p => (get_key (fst p), snd p)) (inserted ops).

Definition stored_keys (ops : list op) : list string :=
  map (fun p => get_key (fst p)) (inserted ops).

End ResponseCache.

(** ** Messages and [class InMemoryChatMessageHistory] *)

Inductive BaseMessage : Type :=
| HumanMessage (content : string)
| AIMessage (content : string).

Definition content (m : BaseMessage) : string :=
  match m with
  | HumanMessage c => c
  | AIMessage c => c
  end.

Module InMemoryChatMessageHistory.

Definition t : Type := list BaseMessage.

Definition init : t := [].

Definition add_message (messages : t) (message : BaseMessage) : t :=
  messages ++ [message].

Definition clear (messages : t) : t := [].

End InMemoryChatMessageHistory.

(** The rendering of the history shared by both variants of
    [SpaceExplorationChatbot.get_history]. *)
Module History.

Definition header : string :=
  "Chat History" ++ PyStr.newline ++ PyStr.dashes 40
    ++ PyStr.newline ++ PyStr.newline.

(** The body of [for i in range(0, len(messages), 2)]: [rest] is
    [messages[i:]] and [n] is [i // 2 + 1]; a trailing unpaired message
    fails the test [i + 1 < len(messages)] and is skipped. *)
Fixpoint render_pairs (n : nat) (rest : list BaseMessage) : string :=
  match rest with
  | [] => ""
  | [_] => ""
  | user_msg :: ai_msg :: rest' =>
      "Q" ++ PyStr.str_of_nat n ++ ": " ++ content user_msg
        ++ PyStr.newline
        ++ "A" ++ PyStr.str_of_nat n ++ ": " ++ content ai_msg
        ++ PyStr.newline ++ PyStr.newline
        ++ render_pairs (S n) rest'
  end.

Definition no_history : string := "No conversation history yet.".

Definition get_history (messages : list BaseMessage) : string :=
  match messages with
  | [] => no_history
  | _ => header ++ render_pairs 1 messages
  end.

(** Messages come in user/assistant pairs, in that order. *)
Fixpoint alternates (messages : list BaseMessage) : Prop :=
  match messages with
  | [] => True
  | HumanMessage _ :: AIMessage _ :: rest => alternates rest
  | _ => False
  end.

End History.

(** ** Console output with exceptions

    A computation that prints lines and then returns or raises; what was
    printed before an exception stays printed. *)

Module Console.

Definition io (A : Type) : Type := (list string * result A)%type.

Definition ret {A : Type} (a : A) : io A := ([], Return a).

Definition raise {A : Type} (e : PyException) : io A := ([], Raise e).

Definition print (line : string) : io unit := ([line], Return tt).

Definition lift {A : Type} (r : result A) : io A := ([], r).

Definition seq {A B : Type} (m : io A) (k : A -> io B) : io B :=
  match m with
  | (out, Raise e) => (out, Raise e)
  | (out, Return a) => let '(out', r) := k a in (out ++ out', r)
  end.

(** [try: m  except Exception as e: handler e] *)
Definition try_except {A : Type} (m : io A) (handler : PyException -> io A)
  : io A :=
  match m with
  | (out, Return a) => (out, Return a)
  | (out, Raise e) => let '(out', r) := handler e in (out ++ out', r)
  end.

Definition stdout {A : Type} (m : io A) : list string := fst m.

Definition outcome {A : Type} (m : io A) : result A := snd m.

End Console.

Notation "x <-- m ;;; k" := (Console.seq m (fun x => k))
  (at level 61, m at next level, right associativity).
Notation "m ;;; k" := (Console.seq m (fun _ => k))
  (at level 61, right associativity).

(** ** The Gradio server, as [main] sees it

    What [create_gradio_interface(chatbot)] followed by
    [interface.launch(...)] does: the server returns, the user interrupts
    it ([KeyboardInterrupt], which is not an [Exception]), or it raises. *)

Inductive ServerOutcome : Type :=
| ServerReturned
| ServerInterrupted
| ServerRaised (e : PyException).

(** ** The local-Ollama variant: [SpaceExplorationllama3/space_chatbot.py] *)

Module Llama3.

(** The chatbot object. [chain_log] is ghost state: the arguments of every
    [self.chain.invoke] call made so far, oldest first. *)
Record SpaceExplorationChatbot : Type := mkBot {
  message_history : InMemoryChatMessageHistory.t;
  response_cache : ResponseCache.t;
  chain_log : list string
}.

(** The attributes [__init__] assigns before the build steps. *)
Definition new_chatbot : SpaceExplorationChatbot :=
  mkBot InMemoryChatMessageHistory.init
        (ResponseCache.init ResponseCache.default_max_size)
        [].

Definition record_turn (self : SpaceExplorationChatbot)
    (user_message response : string) : InMemoryChatMessageHistory.t :=
  InMemoryChatMessageHistory.add_message
    (InMemoryChatMessageHistory.add_message (message_history self)
       (HumanMessage user_message))
    (AIMessage response).

Definition error_msg (e : PyException) : string := "Error: " ++ exc_str e.

(** The cache-hit branch of [chat]. *)
Definition chat_cached (self : SpaceExplorationChatbot)
    (user_message cached_response : string)
  : string * SpaceExplorationChatbot :=
  (cached_response,
   mkBot (record_turn self user_message cached_response)
         (response_cache self) (chain_log self)).

(** The rest of the [try] body, under [# Process new query], with the
    handler: an exception from the chain or from [ResponseCache.set]
    leaves the function through [except Exception], after the chain has
    been called and before anything is stored. *)
Definition chat_new_query (self : SpaceExplorationChatbot)
    (user_message : string) (outcome : result string)
  : string * SpaceExplorationChatbot :=
  let invoked :=
    mkBot (message_history self) (response_cache self)
          (chain_log self ++ [user_message]) in
  match outcome with
  | Raise e => (error_msg e, invoked)
  | Return response =>
      match ResponseCache.set (response_cache self) user_message response with
      | Raise e => (error_msg e, invoked)
      | Return cache' =>
          (response,
           mkBot (record_turn self user_message response)
                 cache' (chain_log invoked))
      end
  end.

(** [chat(self, user_message)]. [outcome] is what
    [self.chain.invoke(user_message)] yields if it is called. The function
    is total: its body is one [try] whose handler returns the error text.
    [if cached_response:] holds for a cached non-empty string only. *)
Definition chat (self : SpaceExplorationChatbot) (user_message : string)
    (outcome : result string) : string * SpaceExplorationChatbot :=
  match ResponseCache.get (response_cache self) user_message with
  | Some cached_response =>
      if PyStr.truthy cached_response
      then chat_cached self user_message cached_response
      else chat_new_query self user_message outcome
  | None => chat_new_query self user_message outcome
  end.

(** The test [chat] makes before calling the chain: the cache holds a
    non-empty response for the query. *)
Definition cached (self : SpaceExplorationChatbot) (user_message : string)
  : bool :=
  match ResponseCache.get (response_cache self) user_message with
  | Some cached_response => PyStr.truthy cached_response
  | None => false
  end.

Definition get_history (self : SpaceExplorationChatbot) : string :=
  History.get_history (message_history self).

Definition clear_history (self : SpaceExplorationChatbot)
  : string * SpaceExplorationChatbot :=
  ("Chat history and cache cleared.",
   mkBot (InMemoryChatMessageHistory.clear (message_history self))
         (ResponseCache.clear (response_cache self))
         (chain_log self)).

(** The closures of [create_gradio_interface]. *)
Definition process_query (chatbot : SpaceExplorationChatbot)
    (user_input : string) (outcome : result string)
  : (string * string) * SpaceExplorationChatbot :=
  if negb (PyStr.truthy (PyStr.strip user_input)) then
    (("", get_history chatbot), chatbot)
  else
    let '(response, chatbot') := chat chatbot user_input outcome in
    ((response, get_history chatbot'), chatbot').

Definition clear_chat (chatbot : SpaceExplorationChatbot)
  : (string * string * string) * SpaceExplorationChatbot :=
  let chatbot' := snd (clear_history chatbot) in
  (("", "", get_history chatbot'), chatbot').

(** A run of [chat] calls, each with the outcome the chain has for it. *)
Fixpoint chat_all (self : SpaceExplorationChatbot)
    (calls : list (string * result string)) : SpaceExplorationChatbot :=
  match calls with
  | [] => self
  | (q, outcome) :: calls' => chat_all (snd (chat self q outcome)) calls'
  end.

(** States a session can be in: the object [__init__] makes, and whatever
    [chat] and [clear_history] turn a reachable state into. *)
Inductive reachable : SpaceExplorationChatbot -> Prop :=
| reach_new : reachable new_chatbot
| reach_chat self q outcome :
    reachable self -> reachable (snd (chat self q outcome))
| reach_clear self :
    reachable self -> reachable (snd (clear_history self)).

(** *** Construction

    Everything [__init__] calls outside this repository is a field of
    [Env]: the module-level configuration, the file system and the
    constructors of the PDF loader, the text splitter, the embedding model,
    the vector store, the language model and the prompt template, each with
    the result or the exception it produces. *)

Definition Document : Type := string.

Record Env : Type := mkEnv {
  PDF_FILE : string;
  LANGSMITH_API_KEY : option string;
  LANGSMITH_PROJECT : option string;
  LANGSMITH_TRACING : bool;
  path_exists : bool;
  loader_load : result (list Document);
  split_documents : list Document -> result (list Document);
  HuggingFaceEmbeddings : result unit;
  Chroma_from_documents : list Document -> result unit;
  as_retriever : result unit;
  Ollama : result unit;
  from_template : result unit;
  compose_chain : result unit
}.

Definition truthy_opt (s : option string) : bool :=
  match s with
  | Some v => PyStr.truthy v
  | None => false
  end.

(** [setup_langsmith_tracing()]. Assigning [None] to an [os.environ] entry
    raises [TypeError]. *)
Definition setup_langsmith_tracing (env : Env) : Console.io bool :=
  if truthy_opt (LANGSMITH_API_KEY env) && LANGSMITH_TRACING env then
    match LANGSMITH_PROJECT env with
    | None => Console.raise (mkExc TypeError "str expected, not NoneType")
    | Some project =>
        Console.print
          ("LangSmith tracing enabled (Project: " ++ project ++ ")") ;;;
        Console.ret true
    end
  else Console.ret false.

Definition _load_and_split_pdf (env : Env) : Console.io (list Document) :=
  Console.print ("Loading PDF: " ++ PDF_FILE env) ;;;
  (if negb (path_exists env)
   then Console.raise
          (mkExc FileNotFoundError ("PDF not found: " ++ PDF_FILE env))
   else Console.ret tt) ;;;
  documents <-- Console.lift (loader_load env) ;;;
  Console.print
    ("Loaded " ++ PyStr.str_of_nat (length documents) ++ " pages") ;;;
  chunks <-- Console.lift (split_documents env documents) ;;;
  Console.print
    ("Split into " ++ PyStr.str_of_nat (length chunks) ++ " chunks") ;;;
  Console.ret chunks.

Definition _initialize_vector_store (env : Env) (documents : list Document)
  : Console.io unit :=
  Console.print "Initializing vector store (Chroma)..." ;;;
  Console.lift (HuggingFaceEmbeddings env) ;;;
  Console.print "Creating Chroma vector store..." ;;;
  Console.lift (Chroma_from_documents env documents) ;;;
  Console.print "Vector store created" ;;;
  Console.lift (as_retriever env).

Definition _initialize_llm (env : Env) : Console.io unit :=
  Console.print "Initializing LLM (Local Ollama - Offline Mode)..." ;;;
  Console.try_except
    (Console.lift (Ollama env) ;;;
     Console.print "LLM initialized (Ollama - llama3)")
    (fun _ =>
       Console.raise
         (mkExc ValueError
            "Ollama server not running. Please start it with: ollama serve")).

Definition _create_rag_chain (env : Env) : Console.io unit :=
  Console.print "Creating RAG chain..." ;;;
  Console.lift (from_template env) ;;;
  Console.lift (compose_chain env) ;;;
  Console.print "RAG chain created".

(** The four calls at the top of the [try] block of [__init__]. *)
Definition build (env : Env) : Console.io unit :=
  documents <-- _load_and_split_pdf env ;;;
  _initialize_vector_store env documents ;;;
  _initialize_llm env ;;;
  _create_rag_chain env.

Definition init_failed (e : PyException) : string :=
  "Initialization failed: " ++ exc_str e.

(** [SpaceExplorationChatbot.__init__]: the new object, or the exception
    that leaves the constructor. *)
Definition __init__ (env : Env) : Console.io SpaceExplorationChatbot :=
  setup_langsmith_tracing env ;;;
  Console.print "Space Exploration Chatbot - Initializing" ;;;
  Console.print (PyStr.dashes 60) ;;;
  Console.try_except
    (build env ;;;
     Console.print "Chatbot initialized successfully!" ;;;
     Console.print (PyStr.dashes 60 ++ PyStr.newline) ;;;
     Console.ret new_chatbot)
    (fun e =>
       Console.print (init_failed e) ;;;
       Console.print (PyStr.dashes 60 ++ PyStr.newline) ;;;
       Console.raise e).

(** A run of questions that the chain answers, as [chat_all] takes it, and
    the [set] calls such a run makes when every question is new. *)
Definition answered (calls : list (string * string))
  : list (string * result string) :=
  map (fun p => (fst p, Return (snd p))) calls.

Definition stores (calls : list (string * string)) : list ResponseCache.op :=
  map (fun p => ResponseCache.OpSet (fst p) (snd p)) calls.

(** [main()]: what is printed, and the status passed to [sys.exit]
    ([None] when [main] returns without calling it). The constructor runs
    inside the [try] of [main]: [interrupt = Some n] is a
    [KeyboardInterrupt] that arrives while it runs, after it has printed
    [n] lines (all of them, when it prints fewer). No handler in the
    constructor catches it; [main] prints its notice and exits with
    status 0. *)
Definition main (env : Env) (interrupt : option nat) (server : ServerOutcome)
  : list string * option Z :=
  match interrupt with
  | Some printed =>
      (firstn printed (Console.stdout (__init__ env))
         ++ ["Chatbot stopped by user"],
       Some 0%Z)
  | None =>
      match __init__ env with
      | (out, Raise e) =>
          (out ++ ["Fatal error: " ++ exc_str e]%string, Some 1%Z)
      | (out, Return chatbot) =>
          let out := out ++ ["Launching Gradio interface..."] in
          match server with
          | ServerReturned => (out, None)
          | ServerInterrupted =>
              (out ++ ["Chatbot stopped by user"], Some 0%Z)
          | ServerRaised e =>
              (out ++ ["Fatal error: " ++ exc_str e]%string, Some 1%Z)
          end
      end
  end.

End Llama3.

(** ** The Groq variant: [SpaceExplorationGroqAi/space_chatbot.py]

    It has no response cache: every [chat] calls the chain. *)

Module GroqAi.

Record SpaceExplorationChatbot : Type := mkBot {
  message_history : InMemoryChatMessageHistory.t;
  chain_log : list string
}.

Definition new_chatbot : SpaceExplorationChatbot :=
  mkBot InMemoryChatMessageHistory.init [].

Definition error_msg (e : PyException) : string := "Error: " ++ exc_str e.

Definition chat (self : SpaceExplorationChatbot) (user_message : string)
    (outcome : result string) : string * SpaceExplorationChatbot :=
  let log := chain_log self ++ [user_message] in
  match outcome with
  | Raise e => (error_msg e, mkBot (message_history self) log)
  | Return response =>
      (response,
       mkBot
         (InMemoryChatMessageHistory.add_message
            (InMemoryChatMessageHistory.add_message (message_history self)
               (HumanMessage user_message))
            (AIMessage response))
         log)
  end.

Definition get_history (self : SpaceExplorationChatbot) : string :=
  History.get_history (message_history self).

Definition clear_history (self : SpaceExplorationChatbot)
  : string * SpaceExplorationChatbot :=
  ("Chat history cleared.",
   mkBot (InMemoryChatMessageHistory.clear (message_history self))
         (chain_log self)).

Definition process_query (chatbot : SpaceExplorationChatbot)
    (user_input : string) (outcome : result string)
  : (string * string) * SpaceExplorationChatbot :=
  if negb (PyStr.truthy (PyStr.strip user_input)) then
    (("", get_history chatbot), chatbot)
  else
    let '(response, chatbot') := chat chatbot user_input outcome in
    ((response, get_history chatbot'), chatbot').

Fixpoint chat_all (self : SpaceExplorationChatbot)
    (calls : list (string * result string)) : SpaceExplorationChatbot :=
  match calls with
  | [] => self
  | (q, outcome) :: calls' => chat_all (snd (chat self q outcome)) calls'
  end.

Definition clear_chat (chatbot : SpaceExplorationChatbot)
  : (string * string * string) * SpaceExplorationChatbot :=
  let chatbot' := snd (clear_history chatbot) in
  (("", "", get_history chatbot'), chatbot').

(** *** Construction

    As in the other variant, every call into a library is a field of
    [Env]. Here the language model needs [GROQ_API_KEY], and
    [LANGSMITH_TRACING] is the constant [True]. *)

Definition Document : Type := string.

Record Env : Type := mkEnv {
  PDF_FILE : string;
  GROQ_API_KEY : option string;
  LANGSMITH_API_KEY : option string;
  LANGSMITH_PROJECT : option string;
  path_exists : bool;
  loader_load : result (list Document);
  split_documents : list Document -> result (list Document);
  HuggingFaceEmbeddings : result unit;
  Chroma_from_documents : list Document -> result unit;
  as_retriever : result unit;
  ChatGroq : result unit;
  from_template : result unit;
  compose_chain : result unit
}.

Definition LANGSMITH_TRACING : bool := true.

Definition setup_langsmith_tracing (env : Env) : Console.io bool :=
  if Llama3.truthy_opt (LANGSMITH_API_KEY env) && LANGSMITH_TRACING then
    match LANGSMITH_PROJECT env with
    | None => Console.raise (mkExc TypeError "str expected, not NoneType")
    | Some project =>
        Console.print
          ("LangSmith tracing enabled (Project: " ++ project ++ ")") ;;;
        Console.ret true
    end
  else Console.ret false.

Definition _load_and_split_pdf (env : Env) : Console.io (list Document) :=
  Console.print ("Loading PDF: " ++ PDF_FILE env) ;;;
  (if negb (path_exists env)
   then Console.raise
          (mkExc FileNotFoundError ("PDF not found: " ++ PDF_FILE env))
   else Console.ret tt) ;;;
  documents <-- Console.lift (loader_load env) ;;;
  Console.print
    ("Loaded " ++ PyStr.str_of_nat (length documents) ++ " pages") ;;;
  chunks <-- Console.lift (split_documents env documents) ;;;
  Console.print
    ("Split into " ++ PyStr.str_of_nat (length chunks) ++ " chunks") ;;;
  Console.ret chunks.

Definition _initialize_vector_store (env : Env) (documents : list Document)
  : Console.io unit :=
  Console.print "Initializing vector store (Chroma)..." ;;;
  Console.lift (HuggingFaceEmbeddings env) ;;;
  Console.print "Creating Chroma vector store..." ;;;
  Console.lift (Chroma_from_documents env documents) ;;;
  Console.print "Vector store created" ;;;
  Console.lift (as_retriever env).

(** The three adjacent string literals of the source make one message. *)
Definition missing_key_message : string :=
  "GROQ_API_KEY not found in environment variables."
    ++ "Get a free key at: https://console.groq.com"
    ++ "Set in .env: GROQ_API_KEY=gsk_xxxxx".

Definition _initialize_llm (env : Env) : Console.io unit :=
  Console.print "Initializing LLM (Groq Cloud)..." ;;;
  (if negb (Llama3.truthy_opt (GROQ_API_KEY env))
   then Console.raise (mkExc ValueError missing_key_message)
   else Console.ret tt) ;;;
  Console.lift (ChatGroq env) ;;;
  Console.print "LLM initialized (llama-3.1-8b-instant)".

Definition _create_rag_chain (env : Env) : Console.io unit :=
  Console.print "Creating RAG chain..." ;;;
  Console.lift (from_template env) ;;;
  Console.lift (compose_chain env) ;;;
  Console.print "RAG chain created".

Definition build (env : Env) : Console.io unit :=
  documents <-- _load_and_split_pdf env ;;;
  _initialize_vector_store env documents ;;;
  _initialize_llm env ;;;
  _create_rag_chain env.

Definition init_failed (e : PyException) : string :=
  "Initialization failed: " ++ exc_str e.

Definition __init__ (env : Env) : Console.io SpaceExplorationChatbot :=
  setup_langsmith_tracing env ;;;
  Console.print "Space Exploration Chatbot - Initializing" ;;;
  Console.print (PyStr.dashes 60) ;;;
  Console.try_except
    (build env ;;;
     Console.print "Chatbot initialized successfully!" ;;;
     Console.print (PyStr.dashes 60 ++ PyStr.newline) ;;;
     Console.ret new_chatbot)
    (fun e =>
       Console.print (init_failed e) ;;;
       Console.print (PyStr.dashes 60 ++ PyStr.newline) ;;;
       Console.raise e).

(** [main()], as in the other variant: [interrupt = Some n] is a
    [KeyboardInterrupt] during the constructor, after [n] printed lines. *)
Definition main (env : Env) (interrupt : option nat) (server : ServerOutcome)
  : list string * option Z :=
  match interrupt with
  | Some printed =>
      (firstn printed (Console.stdout (__init__ env))
         ++ ["Chatbot stopped by user"],
       Some 0%Z)
  | None =>
      match __init__ env with
      | (out, Raise e) =>
          (out ++ ["Fatal error: " ++ exc_str e]%string, Some 1%Z)
      | (out, Return chatbot) =>
          let out := out ++ ["Launching Gradio interface..."] in
          match server with
          | ServerReturned => (out, None)
          | ServerInterrupted =>
              (out ++ ["Chatbot stopped by user"], Some 0%Z)
          | ServerRaised e =>
              (out ++ ["Fatal error: " ++ exc_str e]%string, Some 1%Z)
          end
      end
  end.

End GroqAi.

(** ** Vocabulary of the statements *)

Module Query.

(** Two characters that are the same letter in either case, or equal. *)
Definition case_variant (c1 c2 : ascii) : Prop :=
  c1 = c2
  \/ (PyStr.isupper c1 = true /\ nat_of_ascii c2 = nat_of_ascii c1 + 32)
  \/ (PyStr.isupper c2 = true /\ nat_of_ascii c1 = nat_of_ascii c2 + 32).

(** Two strings that differ in letter case only. *)
Inductive same_letters : string -> string -> Prop :=
| same_nil : same_letters "" ""
| same_cons c1 c2 s1 s2 :
    case_variant c1 c2 -> same_letters s1 s2 ->
    same_letters (String c1 s1) (String c2 s2).

(** Two queries that differ only in letter case and in the whitespace
    before and after the text. *)
Definition same_but_case_and_padding (q1 q2 : string) : Prop :=
  exists l1 s1 r1 l2 s2 r2,
    q1 = (l1 ++ s1 ++ r1)%string /\ q2 = (l2 ++ s2 ++ r2)%string
    /\ PyStr.all_space l1 = true /\ PyStr.all_space r1 = true
    /\ PyStr.all_space l2 = true /\ PyStr.all_space r2 = true
    /\ same_letters s1 s2.

(** One exchange as [get_history] prints it: ["Qn: ...\nAn: ...\n\n"]. *)
Definition exchange (n : nat) (user_msg ai_msg : string) : string :=
  "Q" ++ PyStr.str_of_nat n ++ ": " ++ user_msg ++ PyStr.newline
    ++ "A" ++ PyStr.str_of_nat n ++ ": " ++ ai_msg
    ++ PyStr.newline ++ PyStr.newline.

End Query.

(** * Properties *)

Arguments ResponseCache.get_key : simpl never.

(** ** The hash agrees with [hashlib] on known digests *)

Example md5_empty :
  MD5.hexdigest (PyStr.encode "") = "d41d8cd98f00b204e9800998ecf8427e".
Proof. vm_compute. reflexivity. Qed.

Example md5_abc :
  MD5.hexdigest (PyStr.encode "abc") = "900150983cd24fb0d6963f7d28e17f72".
Proof. vm_compute. reflexivity. Qed.

Example get_key_mars :
  ResponseCache.get_key " Mars? " = "3397c26be0f58514fbdea2e37d9282ea".
Proof. vm_compute. reflexivity. Qed.

(** A query that takes two 64-byte blocks. *)
Example get_key_two_blocks :
  ResponseCache.get_key
    "What was the first crewed mission to land on the Moon, and in which year did it fly?"
  = "84b8f99113c964be61c8701fbd8182c0".
Proof. vm_compute. reflexivity. Qed.

(** ** Strings *)

Section StringFacts.

Import PyStr.

Lemma isspace_not_upper c : isspace c = true -> isupper c = false.
Proof.
  unfold isspace, isupper. intros H.
  apply andb_false_iff.
  apply orb_true_iff in H. destruct H as [H | H];
    apply andb_true_iff in H; destruct H as [H1 H2];
    apply Nat.leb_le in H1; apply Nat.leb_le in H2;
    left; apply Nat.leb_gt; lia.
Qed.

Lemma lower_char_space c : isspace c = true -> lower_char c = c.
Proof.
  intros H. unfold lower_char. now rewrite (isspace_not_upper c H).
Qed.

Lemma lower_all_space s : all_space s = true -> lower s = s.
Proof.
  induction s as [| c s IH]; simpl; intros H; [reflexivity |].
  apply andb_true_iff in H. destruct H as [Hc Hs].
  now rewrite (lower_char_space c Hc), (IH Hs).
Qed.

Lemma lower_app s1 s2 : lower (s1 ++ s2) = (lower s1 ++ lower s2)%string.
Proof.
  induction s1 as [| c s1 IH]; simpl; [reflexivity | now rewrite IH].
Qed.

Lemma lstrip_all_space s : all_space s = true -> lstrip s = "".
Proof.
  induction s as [| c s IH]; simpl; intros H; [reflexivity |].
  apply andb_true_iff in H. destruct H as [Hc Hs].
  rewrite Hc. exact (IH Hs).
Qed.

Lemma rstrip_all_space s : all_space s = true -> rstrip s = "".
Proof.
  induction s as [| c s IH]; simpl; intros H; [reflexivity |].
  apply andb_true_iff in H. destruct H as [Hc Hs].
  now rewrite (IH Hs), Hc.
Qed.

Lemma strip_all_space s : all_space s = true -> strip s = "".
Proof.
  intros H. unfold strip. now rewrite (lstrip_all_space s H).
Qed.

Lemma lstrip_app_space w s :
  all_space w = true -> lstrip (w ++ s) = lstrip s.
Proof.
  induction w as [| c w IH]; simpl; intros H; [reflexivity |].
  apply andb_true_iff in H. destruct H as [Hc Hw].
  rewrite Hc. exact (IH Hw).
Qed.

Lemma rstrip_app_space s w :
  all_space w = true -> rstrip (s ++ w) = rstrip s.
Proof.
  intros Hw. induction s as [| c s IH]; simpl.
  - exact (rstrip_all_space w Hw).
  - now rewrite IH.
Qed.

Lemma strip_app_space_r s w :
  all_space w = true -> strip (s ++ w) = strip s.
Proof.
  intros Hw. unfold strip. induction s as [| c s IH]; simpl.
  - now rewrite (lstrip_all_space w Hw).
  - destruct (isspace c); [exact IH |].
    exact (rstrip_app_space (String c s) w Hw).
Qed.

(** Surrounding whitespace does not survive [strip]. *)
Lemma strip_padding l s r :
  all_space l = true -> all_space r = true ->
  strip (l ++ s ++ r) = strip s.
Proof.
  intros Hl Hr. unfold strip at 1. rewrite (lstrip_app_space l _ Hl).
  exact (strip_app_space_r s r Hr).
Qed.

(** A whitespace-only string is one that [strip] empties. *)
Lemma strip_empty_iff s : strip s = "" <-> all_space s = true.
Proof.
  split; [| apply strip_all_space].
  unfold strip. induction s as [| c s IH]; simpl; [reflexivity |].
  destruct (isspace c) eqn:Hc; simpl.
  - exact IH.
  - rewrite Hc. destruct (rstrip s); discriminate.
Qed.

End StringFacts.

Section CaseFacts.

Import PyStr Query.

Lemma lower_char_variant c1 c2 :
  case_variant c1 c2 -> lower_char c1 = lower_char c2.
Proof.
  assert (up : forall a b, isupper a = true ->
                 nat_of_ascii b = nat_of_ascii a + 32 ->
                 lower_char a = lower_char b).
  { intros a b Ha Hb. unfold lower_char. rewrite Ha.
    assert (Hb' : isupper b = false).
    { unfold isupper in *. rewrite Hb.
      apply andb_true_iff in Ha. destruct Ha as [H1 H2].
      apply Nat.leb_le in H1. apply Nat.leb_le in H2.
      apply andb_false_iff. right. apply Nat.leb_gt. lia. }
    rewrite Hb', <- Hb. apply ascii_nat_embedding. }
  intros [H | [[H1 H2] | [H1 H2]]].
  - now subst.
  - exact (up c1 c2 H1 H2).
  - symmetry. exact (up c2 c1 H1 H2).
Qed.

Lemma lower_same_letters s1 s2 : same_letters s1 s2 -> lower s1 = lower s2.
Proof.
  induction 1 as [| c1 c2 s1 s2 Hc _ IH]; simpl; [reflexivity |].
  now rewrite (lower_char_variant c1 c2 Hc), IH.
Qed.

Lemma all_space_lower s : all_space s = true -> all_space (lower s) = true.
Proof. intros H. now rewrite (lower_all_space s H). Qed.

(** [query.lower().strip()] forgets case and surrounding whitespace. *)
Lemma normalize_same q1 q2 :
  same_but_case_and_padding q1 q2 ->
  strip (lower q1) = strip (lower q2).
Proof.
  intros (l1 & s1 & r1 & l2 & s2 & r2 & -> & -> & Hl1 & Hr1 & Hl2 & Hr2 & Hs).
  rewrite !lower_app.
  rewrite !strip_padding by now apply all_space_lower.
  now rewrite (lower_same_letters s1 s2 Hs).
Qed.

End CaseFacts.

(** ** Dictionaries *)

Section DictFacts.

Import Dict.

Lemma get_setitem_same d k v : get (setitem d k v) k = Some v.
Proof.
  induction d as [| [k' v'] d IH]; simpl.
  - now rewrite String.eqb_refl.
  - destruct (String.eqb k' k) eqn:E; simpl; rewrite E; [reflexivity | exact IH].
Qed.

Lemma get_setitem_other d k v k' :
  k <> k' -> get (setitem d k v) k' = get d k'.
Proof.
  intros Hne. induction d as [| [k0 v0] d IH]; simpl.
  - apply String.eqb_neq in Hne. now rewrite Hne.
  - destruct (String.eqb k0 k) eqn:E; simpl.
    + apply String.eqb_eq in E. subst k0.
      apply String.eqb_neq in Hne. now rewrite Hne.
    + now rewrite IH.
Qed.

Lemma get_None_iff d k : get d k = None <-> ~ In k (keys d).
Proof.
  induction d as [| [k' v'] d IH]; simpl.
  - tauto.
  - destruct (String.eqb k' k) eqn:E.
    + apply String.eqb_eq in E. split; [discriminate | intros H; tauto].
    + apply String.eqb_neq in E. rewrite IH. tauto.
Qed.

Lemma get_In d k v : wf d -> In (k, v) d -> get d k = Some v.
Proof.
  unfold wf. induction d as [| [k' v'] d IH]; simpl; intros Hwf Hin.
  - contradiction.
  - inversion Hwf as [| ? ? Hnotin Hwf']; subst.
    destruct Hin as [Heq | Hin].
    + inversion Heq; subst. now rewrite String.eqb_refl.
    + destruct (String.eqb k' k) eqn:E.
      * apply String.eqb_eq in E. subst k'.
        exfalso. apply Hnotin. change k with (fst (k, v)).
        now apply in_map.
      * now apply IH.
Qed.

Lemma setitem_absent d k v :
  ~ In k (keys d) -> setitem d k v = d ++ [(k, v)].
Proof.
  induction d as [| [k' v'] d IH]; simpl; intros Hnotin; [reflexivity |].
  destruct (String.eqb k' k) eqn:E.
  - apply String.eqb_eq in E. tauto.
  - rewrite IH by tauto. reflexivity.
Qed.

Lemma keys_setitem_present d k v :
  In k (keys d) -> keys (setitem d k v) = keys d.
Proof.
  induction d as [| [k' v'] d IH]; simpl; intros Hin; [contradiction |].
  destruct (String.eqb k' k) eqn:E; simpl; [reflexivity |].
  apply String.eqb_neq in E. rewrite IH; [reflexivity | tauto].
Qed.

Lemma length_setitem_present d k v :
  In k (keys d) -> length (setitem d k v) = length d.
Proof.
  intros Hin. rewrite <- (length_map fst (setitem d k v)).
  fold (keys (setitem d k v)). rewrite (keys_setitem_present d k v Hin).
  apply length_map.
Qed.

Lemma keys_setitem_absent d k v :
  ~ In k (keys d) -> keys (setitem d k v) = keys d ++ [k].
Proof.
  intros H. rewrite (setitem_absent d k v H). unfold keys.
  now rewrite map_app.
Qed.

Lemma wf_setitem d k v : wf d -> wf (setitem d k v).
Proof.
  unfold wf. intros Hwf.
  destruct (in_dec string_dec k (keys d)) as [Hin | Hnotin].
  - now rewrite keys_setitem_present.
  - rewrite keys_setitem_absent by assumption.
    apply NoDup_rev in Hwf. rewrite <- (rev_involutive (keys d ++ [k])).
    apply NoDup_rev. rewrite rev_app_distr. simpl. constructor; [| exact Hwf].
    now rewrite <- in_rev.
Qed.

(** Popping the key that iteration yields first drops the head entry. *)
Lemma pop_first_key d k :
  first_key d = Return k ->
  exists v, pop d k = Return (v, tl d) /\ hd_error d = Some (k, v).
Proof.
  destruct d as [| [k' v'] d]; simpl; intros H; [discriminate |].
  inversion H; subst. exists v'. unfold pop. simpl.
  now rewrite String.eqb_refl.
Qed.

End DictFacts.

(** ** The response cache *)

Section CacheFacts.

Import ResponseCache.

(** [set] below the bound stores and evicts nothing. *)
Lemma set_below self query response :
  (Z.of_nat (length (cache self)) < max_size self)%Z ->
  set self query response =
  Return (mk (Dict.setitem (cache self) (get_key query) response)
             (max_size self)).
Proof.
  intros H. unfold set.
  destruct (Z.geb_spec (Z.of_nat (length (cache self))) (max_size self));
    [lia | reflexivity].
Qed.

(** [set] at the bound drops the head entry before storing. *)
Lemma set_full self query response k v d :
  (Z.of_nat (length (cache self)) >= max_size self)%Z ->
  cache self = (k, v) :: d ->
  set self query response =
  Return (mk (Dict.setitem d (get_key query) response) (max_size self)).
Proof.
  intros H Hc. unfold set.
  destruct (Z.geb_spec (Z.of_nat (length (cache self))) (max_size self));
    [| lia].
  rewrite Hc. unfold Dict.pop. simpl. now rewrite String.eqb_refl.
Qed.

(** [set] on an empty cache whose bound is not positive raises. *)
Lemma set_empty_raises self query response :
  cache self = [] -> (max_size self <= 0)%Z ->
  set self query response = Raise (mkExc StopIteration "").
Proof.
  intros Hc H. unfold set. rewrite Hc. simpl.
  destruct (Z.geb_spec 0 (max_size self)); [reflexivity | lia].
Qed.

(** [set] raises only in the case above. *)
Lemma set_returns self query response :
  (0 < max_size self)%Z \/ cache self <> [] ->
  exists self', set self query response = Return self'.
Proof.
  intros H.
  destruct (Z.geb_spec (Z.of_nat (length (cache self))) (max_size self))
    as [Hge | Hlt].
  - destruct (cache self) as [| [k v] d] eqn:Hc.
    + simpl in Hge. destruct H as [H | H]; [lia | contradiction].
    + eexists. eapply set_full; [rewrite Hc; lia | exact Hc].
  - eexists. apply set_below. lia.
Qed.

(** What has just been stored is found under the same query. *)
Lemma get_set_same self query response self' :
  set self query response = Return self' ->
  get self' query = Some response.
Proof.
  unfold set, get, bind. intros H.
  destruct (Z.of_nat (length (cache self)) >=? max_size self)%Z.
  - destruct (Dict.first_key (cache self)); [| discriminate].
    destruct (Dict.pop (cache self) a); [| discriminate].
    inversion H; subst; simpl. apply get_setitem_same.
  - inversion H; subst; simpl. apply get_setitem_same.
Qed.

Lemma set_max_size self query response self' :
  set self query response = Return self' -> max_size self' = max_size self.
Proof.
  unfold set, bind. intros H.
  destruct (Z.of_nat (length (cache self)) >=? max_size self)%Z.
  - destruct (Dict.first_key (cache self)); [| discriminate].
    destruct (Dict.pop (cache self) a); [| discriminate].
    now inversion H.
  - now inversion H.
Qed.

(** [set] raises before it changes anything and otherwise yields a cache:
    in both cases lookups use the key of the query only. *)
Lemma get_same_key self q1 q2 :
  get_key q1 = get_key q2 -> get self q1 = get self q2.
Proof. unfold get. now intros ->. Qed.

End CacheFacts.

(** ** ASCII text in the Unicode model *)

Section UnicodeFacts.

(** On one ASCII character the interpreter's tables and the ASCII model
    agree. *)
Lemma ascii_char_agrees (c : ascii) :
  (nat_of_ascii c <? 128)%nat = true ->
  Unicode.to_lower_full (N.of_nat (nat_of_ascii c))
  = [N.of_nat (nat_of_ascii (PyStr.lower_char c))]
  /\ (N.of_nat (nat_of_ascii c) =? 0x3A3)%N = false
  /\ Unicode.isspace (N.of_nat (nat_of_ascii c)) = PyStr.isspace c
  /\ Unicode.utf8 (N.of_nat (nat_of_ascii c))
     = Some [Z.of_nat (nat_of_ascii c)]
  /\ (nat_of_ascii (PyStr.lower_char c) <? 128)%nat = true.
Proof.
  destruct c as [b0 b1 b2 b3 b4 b5 b6 b7].
  destruct b0, b1, b2, b3, b4, b5, b6, b7; intros H;
    vm_compute in H; try discriminate H; vm_compute; repeat split.
Qed.

Lemma lower_ascii s : forall before,
  Unicode.is_ascii s = true ->
  Unicode.lower_from before (Unicode.code_points s)
  = Unicode.code_points (PyStr.lower s)
  /\ Unicode.is_ascii (PyStr.lower s) = true.
Proof.
  induction s as [| c s IH]; intros before H; simpl in *.
  - now split.
  - apply andb_true_iff in H. destruct H as [Hc Hs].
    destruct (ascii_char_agrees c Hc) as (Hlow & Hsigma & _ & _ & Hc').
    destruct (IH (N.of_nat (nat_of_ascii c) :: before) Hs) as [IH1 IH2].
    rewrite Hsigma, Hlow, IH1, Hc', IH2. now split.
Qed.

Lemma lstrip_ascii s :
  Unicode.is_ascii s = true ->
  Unicode.lstrip (Unicode.code_points s)
  = Unicode.code_points (PyStr.lstrip s)
  /\ Unicode.is_ascii (PyStr.lstrip s) = true.
Proof.
  induction s as [| c s IH]; intros H; simpl in *.
  - now split.
  - pose proof H as H'. apply andb_true_iff in H. destruct H as [Hc Hs].
    destruct (ascii_char_agrees c Hc) as (_ & _ & Hsp & _).
    rewrite Hsp. destruct (PyStr.isspace c).
    + exact (IH Hs).
    + split; [reflexivity | exact H'].
Qed.

Lemma rstrip_ascii s :
  Unicode.is_ascii s = true ->
  Unicode.rstrip (Unicode.code_points s)
  = Unicode.code_points (PyStr.rstrip s)
  /\ Unicode.is_ascii (PyStr.rstrip s) = true.
Proof.
  induction s as [| c s IH]; intros H; simpl in *.
  - now split.
  - apply andb_true_iff in H. destruct H as [Hc Hs].
    destruct (ascii_char_agrees c Hc) as (_ & _ & Hsp & _).
    destruct (IH Hs) as [IH1 IH2]. rewrite IH1.
    destruct (PyStr.rstrip s) as [| c' r]; simpl in *.
    + rewrite Hsp. destruct (PyStr.isspace c); simpl; [now split |].
      now rewrite Hc.
    + now rewrite Hc, IH2.
Qed.

Lemma encode_ascii s :
  Unicode.is_ascii s = true ->
  Unicode.encode (Unicode.code_points s) = Some (PyStr.encode s).
Proof.
  induction s as [| c s IH]; intros H; simpl in *; [reflexivity |].
  apply andb_true_iff in H. destruct H as [Hc Hs].
  destruct (ascii_char_agrees c Hc) as (_ & _ & _ & Hutf & _).
  now rewrite Hutf, (IH Hs).
Qed.

(** On ASCII text the key of the ASCII model is the key the interpreter
    computes. *)
Lemma ascii_text_agrees s :
  Unicode.is_ascii s = true ->
  Unicode.get_key (Unicode.code_points s)
  = Some (ResponseCache.get_key s).
Proof.
  intros H. unfold Unicode.get_key, Unicode.lower, Unicode.strip,
    ResponseCache.get_key, PyStr.strip.
  destruct (lower_ascii s [] H) as [H1 H1'].
  destruct (lstrip_ascii _ H1') as [H2 H2'].
  destruct (rstrip_ascii _ H2') as [H3 H3'].
  now rewrite H1, H2, H3, (encode_ascii _ H3').
Qed.

End UnicodeFacts.

(** The Unicode model agrees with the interpreter on these queries. *)
Example unicode_get_key_padded :
  Unicode.get_key [0xA0; 0x4D; 0x61; 0x72; 0x73; 0x3F; 0x2003]%N
  = Some "3397c26be0f58514fbdea2e37d9282ea".
Proof. vm_compute. reflexivity. Qed.

Example unicode_get_key_dotted_i :
  Unicode.get_key [0x130; 0x73; 0x74; 0x61; 0x6E; 0x62; 0x75; 0x6C]%N
  = Some "d7078dc8185192b9aa3d4dcf8b057a8e".
Proof. vm_compute. reflexivity. Qed.

Example unicode_get_key_latin1 :
  Unicode.get_key [0xDC; 0x6E; 0xEF; 0x63; 0xF6; 0x64; 0xE9; 0x20; 0xDF]%N
  = Some "90f9ceb44f7c9511ee7382db08c68b6d".
Proof. vm_compute. reflexivity. Qed.

Example unicode_get_key_astral :
  Unicode.get_key [0x1F680; 0x20; 0x4D; 0x61; 0x72; 0x73]%N
  = Some "e5fba8e952cf03b7dbf6173473eda1d6".
Proof. vm_compute. reflexivity. Qed.

Example unicode_get_key_surrogate :
  Unicode.get_key [0x4D; 0xD800]%N = None.
Proof. vm_compute. reflexivity. Qed.


Lemma mars_forms : Query.same_but_case_and_padding "Mars?" " mars? ".
Proof.
  exists "", "Mars?", "", " ", "mars?", " ".
  repeat split.
  repeat first
    [ apply Query.same_nil
    | apply Query.same_cons;
      [ first [ left; reflexivity
              | right; left; split; reflexivity ] | ] ].
Qed.




(** C10. When the cache holds [max_size] entries and the key of [query] is
    already one of them, [set] still drops the oldest entry. If that entry
    belongs to another key, its response is lost and the cache is left with
    [max_size - 1] entries. *)
Theorem set_overwrite_at_capacity_evicts
    (self : ResponseCache.t) (query response oldest : string) :
  Dict.wf (ResponseCache.cache self) ->
  Z.of_nat (length (ResponseCache.cache self)) = ResponseCache.max_size self ->
  In (ResponseCache.get_key query) (Dict.keys (ResponseCache.cache self)) ->
  Dict.first_key (ResponseCache.cache self) = Return oldest ->
  oldest <> ResponseCache.get_key query ->
  exists self',
    ResponseCache.set self query response = Return self'
    /\ (Z.of_nat (length (ResponseCache.cache self'))
        = ResponseCache.max_size self - 1)%Z
    /\ (Z.of_nat (length (ResponseCache.cache self'))
        < ResponseCache.max_size self')%Z
    /\ Dict.get (ResponseCache.cache self) oldest <> None
    /\ Dict.get (ResponseCache.cache self') oldest = None
    /\ ResponseCache.get self' query = Some response.
Proof.
  intros Hwf Hlen Hin Hfirst Hne.
  destruct (ResponseCache.cache self) as [| [k v] d] eqn:Hc;
    [discriminate |].
  simpl in Hfirst. inversion Hfirst; subst k. clear Hfirst.
  assert (Hind : In (ResponseCache.get_key query) (Dict.keys d)).
  { simpl in Hin. destruct Hin as [Heq | Hin]; [contradiction | exact Hin]. }
  unfold Dict.wf in Hwf. simpl in Hwf.
  inversion Hwf as [| ? ? Hnotin Hwf']; subst.
  exists (ResponseCache.mk
            (Dict.setitem d (ResponseCache.get_key query) response)
            (ResponseCache.max_size self)).
  split.
  { apply (set_full self query response oldest v d); [| exact Hc].
    rewrite Hc. lia. }
  simpl (ResponseCache.cache (ResponseCache.mk _ _)).
  simpl (ResponseCache.max_size (ResponseCache.mk _ _)).
  rewrite (length_setitem_present d _ response Hind).
  simpl length in Hlen.
  repeat split.
  - lia.
  - lia.
  - simpl. now rewrite String.eqb_refl.
  - apply get_None_iff. now rewrite keys_setitem_present.
  - unfold ResponseCache.get. simpl. apply get_setitem_same.
Qed.

Lemma set_overwrite_at_capacity_evicts_witness :
  exists self',
    ResponseCache.set
      (ResponseCache.mk
         [(ResponseCache.get_key "moon", "A"); (ResponseCache.get_key "mars", "B")]
         2)
      "Mars" "C" = Return self'
    /\ length (ResponseCache.cache self') = 1
    /\ ResponseCache.get self' "moon" = None.
Proof.
  destruct
    (set_overwrite_at_capacity_evicts
       (ResponseCache.mk
          [(ResponseCache.get_key "moon", "A");
           (ResponseCache.get_key "mars", "B")] 2)
       "Mars" "C" (ResponseCache.get_key "moon"))
    as (self' & Hset & Hlen & _ & _ & Hgone & _).
  - vm_compute. repeat constructor; simpl; intuition discriminate.
  - reflexivity.
  - vm_compute. right. left. reflexivity.
  - reflexivity.
  - vm_compute. discriminate.
  - exists self'. split; [exact Hset |]. split.
    + simpl in Hlen. lia.
    + exact Hgone.
Defined.

(** ** First in, first out *)

Section Fifo.

Import ResponseCache.

Lemma keys_stored ops : Dict.keys (stored ops) = stored_keys ops.
Proof.
  unfold Dict.keys, stored, stored_keys. rewrite map_map. reflexivity.
Qed.

Lemma skipn_cons_over {A : Type} (x : A) (l : list A) (n : nat) :
  n <= length l ->
  skipn (length (x :: l) - n) (x :: l) = skipn (length l - n) l.
Proof.
  intros H. simpl length. replace (S (length l) - n) with (S (length l - n))
    by lia. reflexivity.
Qed.

(** From any cache within its bound, a run of calls that stores fresh,
    pairwise distinct keys ends with the newest [max_size] entries of the
    old content followed by the stored ones, oldest first. Interleaved
    [get] calls change nothing. *)
Lemma run_fifo ops : forall self,
  (1 <= max_size self)%Z ->
  (Z.of_nat (length (cache self)) <= max_size self)%Z ->
  NoDup (stored_keys ops) ->
  (forall k, In k (Dict.keys (cache self)) -> ~ In k (stored_keys ops)) ->
  exists self',
    run self ops = Return self'
    /\ max_size self' = max_size self
    /\ cache self' =
       skipn (length (cache self ++ stored ops) - Z.to_nat (max_size self))
             (cache self ++ stored ops).
Proof.
  induction ops as [| [q | q r] ops IH]; intros self Hmax Hlen Hnd Hfresh.
  - exists self. repeat split. unfold stored. simpl. rewrite app_nil_r.
    replace (length (cache self) - Z.to_nat (max_size self)) with 0 by lia.
    reflexivity.
  - simpl. exact (IH self Hmax Hlen Hnd Hfresh).
  - unfold stored_keys in Hnd, Hfresh. simpl in Hnd, Hfresh.
    fold (stored_keys ops) in Hnd, Hfresh.
    inversion Hnd as [| ? ? Hq Hnd']; subst.
    assert (Habs : ~ In (get_key q) (Dict.keys (cache self))).
    { intros Hin. apply (Hfresh _ Hin). now left. }
    simpl run.
    destruct (Z_lt_ge_dec (Z.of_nat (length (cache self))) (max_size self))
      as [Hlt | Hge].
    + rewrite (set_below self q r Hlt). simpl bind.
      rewrite (setitem_absent _ _ r Habs).
      destruct (IH (mk (cache self ++ [(get_key q, r)]) (max_size self)))
        as (self' & Hrun & Hm & Hc); simpl.
      * exact Hmax.
      * rewrite length_app. simpl. lia.
      * exact Hnd'.
      * intros k Hk. unfold Dict.keys in Hk. rewrite map_app in Hk.
        apply in_app_or in Hk. destruct Hk as [Hk | Hk].
        -- intros Hin. apply (Hfresh k Hk). now right.
        -- simpl in Hk. destruct Hk as [<- | []]. exact Hq.
      * exists self'. split; [exact Hrun |]. split; [exact Hm |].
        rewrite Hc. simpl. unfold stored. simpl.
        now rewrite <- !app_assoc.
    + destruct (cache self) as [| [k0 v0] d] eqn:Hcache.
      { simpl in Hge. lia. }
      rewrite (set_full self q r k0 v0 d); [| rewrite Hcache; lia | exact Hcache].
      simpl bind.
      assert (Habs' : ~ In (get_key q) (Dict.keys d)).
      { intros Hin. apply Habs. now right. }
      rewrite (setitem_absent _ _ r Habs').
      simpl length in Hlen, Hge.
      destruct (IH (mk (d ++ [(get_key q, r)]) (max_size self)))
        as (self' & Hrun & Hm & Hc); simpl.
      * exact Hmax.
      * rewrite length_app. simpl. lia.
      * exact Hnd'.
      * intros k Hk. unfold Dict.keys in Hk. rewrite map_app in Hk.
        apply in_app_or in Hk. destruct Hk as [Hk | Hk].
        -- intros Hin. apply (Hfresh k); [now right | now right].
        -- simpl in Hk. destruct Hk as [<- | []]. exact Hq.
      * exists self'. split; [exact Hrun |]. split; [exact Hm |].
        rewrite Hc. simpl max_size. simpl cache.
        rewrite <- app_assoc. simpl app.
        symmetry.
        apply (skipn_cons_over (k0, v0) (d ++ (get_key q, r) :: stored ops)
                 (Z.to_nat (max_size self))).
        rewrite length_app. simpl. lia.
Qed.

End Fifo.

(** C4. Starting from an empty cache of bound [max_size], any sequence of
    calls whose [set] calls store [max_size + 1] queries with pairwise
    distinct keys leaves exactly [max_size] entries: the first query stored
    is gone and every later one is still there. The [get] calls mixed into
    the sequence, on the first query or any other, make no difference. *)
Theorem fifo_eviction_after_overflow
    (max_size : Z) (ops : list ResponseCache.op)
    (first : string * string) (later : list (string * string)) :
  (1 <= max_size)%Z ->
  ResponseCache.inserted ops = first :: later ->
  Z.of_nat (length (ResponseCache.inserted ops)) = (max_size + 1)%Z ->
  NoDup (ResponseCache.stored_keys ops) ->
  exists self',
    ResponseCache.run (ResponseCache.init max_size) ops = Return self'
    /\ Z.of_nat (length (ResponseCache.cache self')) = max_size
    /\ ResponseCache.get self' (fst first) = None
    /\ (forall query response,
          In (query, response) later ->
          ResponseCache.get self' query = Some response).
Proof.
  intros Hmax Hins Hlen Hnd.
  destruct (run_fifo ops (ResponseCache.init max_size))
    as (self' & Hrun & _ & Hc); simpl; try lia; try tauto.
  exists self'. split; [exact Hrun |].
  unfold ResponseCache.stored in Hc.
  unfold ResponseCache.stored_keys in Hnd.
  rewrite Hins in Hlen, Hc, Hnd. simpl in Hlen, Hnd.
  unfold ResponseCache.init in Hc.
  cbn [ResponseCache.cache ResponseCache.max_size app map length] in Hc.
  rewrite length_map in Hc.
  replace (S (length later) - Z.to_nat max_size) with 1 in Hc by lia.
  simpl in Hc.
  inversion Hnd as [| ? ? Hfirst Hnd']; subst.
  assert (Hkeys : Dict.keys (ResponseCache.cache self')
                  = map (fun p => ResponseCache.get_key (fst p)) later).
  { rewrite Hc. unfold Dict.keys. now rewrite map_map. }
  repeat split.
  - rewrite Hc, length_map. lia.
  - unfold ResponseCache.get. apply get_None_iff. now rewrite Hkeys.
  - intros query response Hin. unfold ResponseCache.get.
    apply get_In.
    + unfold Dict.wf. now rewrite Hkeys.
    + rewrite Hc.
      exact (in_map (fun p => (ResponseCache.get_key (fst p), snd p))
               later (query, response) Hin).
Qed.

Lemma fifo_eviction_after_overflow_witness :
  exists self',
    ResponseCache.run (ResponseCache.init 2)
      [ResponseCache.OpSet "Moon?" "A"; ResponseCache.OpGet "Moon?";
       ResponseCache.OpSet "Mars?" "B"; ResponseCache.OpGet "moon?";
       ResponseCache.OpSet "Venus?" "C"; ResponseCache.OpGet "Moon?"]
    = Return self'
    /\ Z.of_nat (length (ResponseCache.cache self')) = 2%Z
    /\ ResponseCache.get self' "Moon?" = None
    /\ ResponseCache.get self' "Venus?" = Some "C".
Proof.
  destruct
    (fifo_eviction_after_overflow 2
       [ResponseCache.OpSet "Moon?" "A"; ResponseCache.OpGet "Moon?";
        ResponseCache.OpSet "Mars?" "B"; ResponseCache.OpGet "moon?";
        ResponseCache.OpSet "Venus?" "C"; ResponseCache.OpGet "Moon?"]
       ("Moon?", "A") [("Mars?", "B"); ("Venus?", "C")])
    as (self' & Hrun & Hlen & Hfirst & Hlater).
  - lia.
  - reflexivity.
  - reflexivity.
  - vm_compute. repeat constructor; simpl; intuition discriminate.
  - exists self'. repeat split; try assumption.
    apply Hlater. right. left. reflexivity.
Defined.

(** ** Conversation history *)

Section HistoryFacts.

Import History.

Lemma alternates_app h1 h2 :
  alternates h1 -> alternates h2 -> alternates (h1 ++ h2).
Proof.
  revert h1. fix IH 1.
  intros [| [u | a] [| [u' | a'] rest]]; simpl; try tauto.
  intros H1 H2. exact (IH rest H1 H2).
Qed.

Lemma alternates_turn h user_message response :
  alternates h ->
  alternates (h ++ [HumanMessage user_message; AIMessage response]).
Proof. intros H. apply alternates_app; simpl; tauto. Qed.

Lemma alternates_even h : alternates h -> Nat.even (length h) = true.
Proof.
  revert h. fix IH 1.
  intros [| [u | a] [| [u' | a'] rest]]; simpl; try tauto.
  exact (IH rest).
Qed.

End HistoryFacts.

(** ** [chat] in the local-Ollama variant *)

Section ChatFacts.

Import Llama3.

(** When the cache has no non-empty response for the query, [chat] is the
    new-query path. *)
Lemma chat_not_cached self q outcome :
  cached self q = false -> chat self q outcome = chat_new_query self q outcome.
Proof.
  unfold cached, chat. destruct (ResponseCache.get (response_cache self) q).
  - now intros ->.
  - reflexivity.
Qed.

Lemma chat_cached_response self q outcome :
  cached self q = true ->
  exists r, ResponseCache.get (response_cache self) q = Some r
            /\ r <> "" /\ chat self q outcome = chat_cached self q r.
Proof.
  unfold cached, chat. destruct (ResponseCache.get (response_cache self) q) as [r |].
  - intros H. exists r. rewrite H. repeat split. intros ->. discriminate.
  - discriminate.
Qed.

(** A call appends nothing, or one user message followed by one assistant
    message that carries what the call returned. *)
Lemma chat_history_step self q outcome :
  message_history (snd (chat self q outcome)) = message_history self
  \/ message_history (snd (chat self q outcome))
     = message_history self
         ++ [HumanMessage q; AIMessage (fst (chat self q outcome))].
Proof.
  destruct (cached self q) eqn:Hc.
  - destruct (chat_cached_response self q outcome Hc) as (r & _ & _ & ->).
    right. simpl. unfold record_turn, InMemoryChatMessageHistory.add_message.
    now rewrite <- app_assoc.
  - rewrite (chat_not_cached self q outcome Hc). unfold chat_new_query.
    destruct outcome as [response | e]; [| now left].
    destruct (ResponseCache.set (response_cache self) q response);
      [| now left].
    right. simpl. unfold record_turn, InMemoryChatMessageHistory.add_message.
    now rewrite <- app_assoc.
Qed.

Lemma chat_alternates self q outcome :
  History.alternates (message_history self) ->
  History.alternates (message_history (snd (chat self q outcome))).
Proof.
  intros H. destruct (chat_history_step self q outcome) as [-> | ->].
  - exact H.
  - now apply alternates_turn.
Qed.

Lemma chat_all_alternates calls : forall self,
  History.alternates (message_history self) ->
  History.alternates (message_history (chat_all self calls)).
Proof.
  induction calls as [| [q outcome] calls IH]; intros self H; simpl.
  - exact H.
  - apply IH. now apply chat_alternates.
Qed.

Lemma chat_max_size self q outcome :
  ResponseCache.max_size (response_cache (snd (chat self q outcome)))
  = ResponseCache.max_size (response_cache self).
Proof.
  destruct (cached self q) eqn:Hc.
  - now destruct (chat_cached_response self q outcome Hc) as (r & _ & _ & ->).
  - rewrite (chat_not_cached self q outcome Hc). unfold chat_new_query.
    destruct outcome as [response | e]; [| reflexivity].
    destruct (ResponseCache.set (response_cache self) q response) eqn:Hs;
      [| reflexivity].
    simpl. exact (set_max_size _ _ _ _ Hs).
Qed.

(** Every session keeps the bound its constructor chose. *)
Lemma reachable_max_size self :
  reachable self ->
  ResponseCache.max_size (response_cache self)
  = ResponseCache.default_max_size.
Proof.
  induction 1 as [| self q outcome _ IH | self _ IH].
  - reflexivity.
  - now rewrite chat_max_size.
  - exact IH.
Qed.

Lemma reachable_alternates self :
  reachable self -> History.alternates (message_history self).
Proof.
  induction 1 as [| self q outcome _ IH | self _ IH].
  - exact I.
  - now apply chat_alternates.
  - exact I.
Qed.

End ChatFacts.

(** ** [chat] in the Groq variant *)

Section GroqFacts.

Import GroqAi.

Lemma groq_chat_history_step self q outcome :
  message_history (snd (chat self q outcome)) = message_history self
  \/ message_history (snd (chat self q outcome))
     = message_history self
         ++ [HumanMessage q; AIMessage (fst (chat self q outcome))].
Proof.
  unfold chat. destruct outcome as [response | e]; [| now left].
  right. simpl. unfold InMemoryChatMessageHistory.add_message.
  now rewrite <- app_assoc.
Qed.

Lemma groq_chat_all_alternates calls : forall self,
  History.alternates (message_history self) ->
  History.alternates (message_history (chat_all self calls)).
Proof.
  induction calls as [| [q outcome] calls IH]; intros self H; simpl.
  - exact H.
  - apply IH.
    destruct (groq_chat_history_step self q outcome) as [-> | ->].
    + exact H.
    + now apply alternates_turn.
Qed.

End GroqFacts.

(** ** Failures of the chain *)

(** C1, as the code has it. When the chain raises, [chat] returns the error
    text and appends nothing to the history: the failed exchange is not
    recorded, in either variant. Every call keeps the messages it found
    and appends to them nothing, or one user message with the query
    followed by one assistant message with the returned text; so after any
    run of calls, successes and failures mixed, the history is in call
    order, a history that alternated user/assistant still does, and it is
    then of even length. *)
Theorem chat_failure_leaves_history
    (q : string) (e : PyException) :
  (forall self,
     Llama3.cached self q = false ->
     Llama3.chat self q (Raise e)
     = (Llama3.error_msg e,
        Llama3.mkBot (Llama3.message_history self)
          (Llama3.response_cache self) (Llama3.chain_log self ++ [q])))
  /\ (forall self,
        GroqAi.chat self q (Raise e)
        = (GroqAi.error_msg e,
           GroqAi.mkBot (GroqAi.message_history self)
             (GroqAi.chain_log self ++ [q])))
  /\ (forall self calls,
        History.alternates (Llama3.message_history self) ->
        History.alternates
          (Llama3.message_history (Llama3.chat_all self calls))
        /\ Nat.even
             (length (Llama3.message_history (Llama3.chat_all self calls)))
           = true)
  /\ (forall self calls,
        History.alternates (GroqAi.message_history self) ->
        History.alternates
          (GroqAi.message_history (GroqAi.chat_all self calls))
        /\ Nat.even
             (length (GroqAi.message_history (GroqAi.chat_all self calls)))
           = true)
  /\ (forall self user_message outcome,
        Llama3.message_history (snd (Llama3.chat self user_message outcome))
        = Llama3.message_history self
        \/ Llama3.message_history
             (snd (Llama3.chat self user_message outcome))
           = Llama3.message_history self
               ++ [HumanMessage user_message;
                   AIMessage (fst (Llama3.chat self user_message outcome))])
  /\ (forall self user_message outcome,
        GroqAi.message_history (snd (GroqAi.chat self user_message outcome))
        = GroqAi.message_history self
        \/ GroqAi.message_history
             (snd (GroqAi.chat self user_message outcome))
           = GroqAi.message_history self
               ++ [HumanMessage user_message;
                   AIMessage (fst (GroqAi.chat self user_message outcome))]).
Proof.
  split; [| split; [| split; [| split; [| split]]]].
  - intros self Hc. now rewrite (chat_not_cached self q (Raise e) Hc).
  - reflexivity.
  - intros self calls H. split.
    + now apply chat_all_alternates.
    + apply alternates_even. now apply chat_all_alternates.
  - intros self calls H. split.
    + now apply groq_chat_all_alternates.
    + apply alternates_even. now apply groq_chat_all_alternates.
  - exact chat_history_step.
  - exact groq_chat_history_step.
Qed.

Lemma chat_failure_leaves_history_witness :
  Llama3.message_history
    (snd (Llama3.chat Llama3.new_chatbot "Mars?"
            (Raise (mkExc (OtherException "TimeoutError") "timed out"))))
  = []
  /\ History.alternates
       (Llama3.message_history
          (Llama3.chat_all Llama3.new_chatbot
             [("Mars?", Raise (mkExc (OtherException "TimeoutError") "timed out"));
              ("Mars?", Return "The fourth planet.")])).
Proof.
  destruct
    (chat_failure_leaves_history "Mars?"
       (mkExc (OtherException "TimeoutError") "timed out"))
    as (Hfail & _ & Hall & _).
  split.
  - rewrite (Hfail Llama3.new_chatbot); reflexivity.
  - apply (Hall Llama3.new_chatbot). exact I.
Defined.

(** C1 as stated fails: after a call on which the chain raises, the history
    has not grown by the user message and the error text. *)
Lemma chat_failure_not_recorded :
  Llama3.message_history
    (snd (Llama3.chat Llama3.new_chatbot "Mars?"
            (Raise (mkExc (OtherException "TimeoutError") "timed out"))))
  <> Llama3.message_history Llama3.new_chatbot
       ++ [HumanMessage "Mars?"; AIMessage "Error: timed out"]
  /\ GroqAi.message_history
       (snd (GroqAi.chat GroqAi.new_chatbot "Mars?"
               (Raise (mkExc (OtherException "TimeoutError") "timed out"))))
     <> GroqAi.message_history GroqAi.new_chatbot
          ++ [HumanMessage "Mars?"; AIMessage "Error: timed out"].
Proof. split; vm_compute; discriminate. Qed.

(** C2. When the chain raises, [chat] leaves the response cache as it was
    and returns ["Error: "] followed by the text of the exception, as an
    ordinary string. *)
Theorem chat_failure_not_cached
    (self : Llama3.SpaceExplorationChatbot) (q : string) (e : PyException) :
  Llama3.cached self q = false ->
  fst (Llama3.chat self q (Raise e)) = ("Error: " ++ exc_str e)%string
  /\ Llama3.response_cache (snd (Llama3.chat self q (Raise e)))
     = Llama3.response_cache self
  /\ ResponseCache.get
       (Llama3.response_cache (snd (Llama3.chat self q (Raise e)))) q
     = ResponseCache.get (Llama3.response_cache self) q
  /\ Llama3.chain_log (snd (Llama3.chat self q (Raise e)))
     = Llama3.chain_log self ++ [q].
Proof.
  intros Hc. rewrite (chat_not_cached self q (Raise e) Hc). simpl.
  repeat split.
Qed.

Lemma chat_failure_not_cached_witness :
  fst (Llama3.chat Llama3.new_chatbot "Mars?"
         (Raise (mkExc (OtherException "TimeoutError") "timed out")))
  = "Error: timed out"
  /\ ResponseCache.cache
       (Llama3.response_cache
          (snd (Llama3.chat Llama3.new_chatbot "Mars?"
                  (Raise (mkExc (OtherException "TimeoutError") "timed out")))))
     = [].
Proof.
  destruct
    (chat_failure_not_cached Llama3.new_chatbot "Mars?"
       (mkExc (OtherException "TimeoutError") "timed out"))
    as (Hr & Hc & _).
  - reflexivity.
  - split; [exact Hr |]. rewrite Hc. reflexivity.
Defined.

(** ** Repeated queries *)

(** C3, as the code has it. Take a query for which the cache has no
    non-empty response, a chain that answers it with a non-empty response,
    and a cache with a positive bound. The first [chat] stores the response
    under the query. A second [chat] with the same query, whatever the
    chain would answer now, does not call the chain: the chain has been
    invoked exactly once, the second response equals the first, the cache
    is as the first call left it and the history has grown by the two
    exchanges. *)
Theorem chat_twice_invokes_chain_once
    (self : Llama3.SpaceExplorationChatbot) (q response : string)
    (second : result string) :
  Llama3.cached self q = false ->
  response <> "" ->
  (0 < ResponseCache.max_size (Llama3.response_cache self))%Z ->
  let first_call := Llama3.chat self q (Return response) in
  let second_call := Llama3.chat (snd first_call) q second in
  fst first_call = response
  /\ ResponseCache.get (Llama3.response_cache (snd first_call)) q
     = Some response
  /\ Llama3.chain_log (snd first_call) = Llama3.chain_log self ++ [q]
  /\ fst second_call = fst first_call
  /\ Llama3.chain_log (snd second_call) = Llama3.chain_log self ++ [q]
  /\ Llama3.response_cache (snd second_call)
     = Llama3.response_cache (snd first_call)
  /\ Llama3.message_history (snd second_call)
     = Llama3.message_history self
         ++ [HumanMessage q; AIMessage response;
             HumanMessage q; AIMessage response].
Proof.
  intros Hmiss Hne Hmax first_call second_call.
  destruct (set_returns (Llama3.response_cache self) q response
              (or_introl Hmax)) as (cache' & Hset).
  assert (Hfirst : first_call
                   = (response,
                      Llama3.mkBot (Llama3.record_turn self q response) cache'
                        (Llama3.chain_log self ++ [q]))).
  { unfold first_call. rewrite (chat_not_cached self q _ Hmiss).
    unfold Llama3.chat_new_query. now rewrite Hset. }
  assert (Hget : ResponseCache.get cache' q = Some response)
    by exact (get_set_same _ _ _ _ Hset).
  assert (Hsecond : second_call
                    = Llama3.chat_cached (snd first_call) q response).
  { unfold second_call. rewrite Hfirst. unfold Llama3.chat. simpl.
    rewrite Hget. destruct response; [contradiction | reflexivity]. }
  rewrite Hsecond, Hfirst. simpl. repeat split; try assumption.
  unfold Llama3.record_turn, InMemoryChatMessageHistory.add_message. simpl.
  now rewrite <- !app_assoc.
Qed.

Lemma chat_twice_invokes_chain_once_witness :
  fst (Llama3.chat
         (snd (Llama3.chat Llama3.new_chatbot "Mars?"
                 (Return "The fourth planet.")))
         " mars? " (Return "Another answer."))
  = "The fourth planet."
  /\ Llama3.chain_log
       (snd (Llama3.chat
               (snd (Llama3.chat Llama3.new_chatbot "Mars?"
                       (Return "The fourth planet.")))
               "Mars?" (Return "Another answer.")))
     = ["Mars?"].
Proof.
  destruct
    (chat_twice_invokes_chain_once Llama3.new_chatbot "Mars?"
       "The fourth planet." (Return "Another answer."))
    as (_ & _ & _ & _ & Hlog & _).
  - reflexivity.
  - discriminate.
  - reflexivity.
  - split; [vm_compute; reflexivity | exact Hlog].
Defined.

(** C3 as stated fails: a chain that answers with the empty string is
    called again by the second [chat] with the same query, so it has been
    invoked twice, not once. *)
Lemma chat_twice_empty_response_invokes_twice :
  let first_call := Llama3.chat Llama3.new_chatbot "Q" (Return "") in
  let second_call := Llama3.chat (snd first_call) "Q" (Return "") in
  Llama3.chain_log (snd second_call) = ["Q"; "Q"]
  /\ length (Llama3.chain_log (snd second_call)) <> 1.
Proof. vm_compute. split; [reflexivity | discriminate]. Qed.

(** C9. When the response cached for a query is the empty string, [chat]
    takes the new-query path: it calls the chain again, and when the chain
    answers it returns and caches that answer instead of the cached empty
    response. Such a cache arises when the chain answers a new query with
    the empty string. *)
Theorem chat_empty_cached_response_is_miss
    (self : Llama3.SpaceExplorationChatbot) (q : string)
    (outcome : result string) :
  ResponseCache.get (Llama3.response_cache self) q = Some "" ->
  Llama3.chat self q outcome = Llama3.chat_new_query self q outcome
  /\ Llama3.chain_log (snd (Llama3.chat self q outcome))
     = Llama3.chain_log self ++ [q]
  /\ (forall response,
        outcome = Return response ->
        fst (Llama3.chat self q outcome) = response
        /\ ResponseCache.get
             (Llama3.response_cache (snd (Llama3.chat self q outcome))) q
           = Some response)
  /\ (forall e,
        outcome = Raise e ->
        fst (Llama3.chat self q outcome) = Llama3.error_msg e).
Proof.
  intros Hget.
  assert (Hmiss : Llama3.cached self q = false).
  { unfold Llama3.cached. now rewrite Hget. }
  assert (Hnonempty : ResponseCache.cache (Llama3.response_cache self) <> []).
  { unfold ResponseCache.get in Hget. intros Hnil. rewrite Hnil in Hget.
    discriminate. }
  rewrite (chat_not_cached self q outcome Hmiss).
  split; [reflexivity |]. unfold Llama3.chat_new_query.
  repeat split.
  - destruct outcome as [response | e]; [| reflexivity].
    now destruct (ResponseCache.set (Llama3.response_cache self) q response).
  - subst outcome.
    destruct (set_returns (Llama3.response_cache self) q response
                (or_intror Hnonempty)) as (cache' & Hset).
    now rewrite Hset.
  - subst outcome.
    destruct (set_returns (Llama3.response_cache self) q response
                (or_intror Hnonempty)) as (cache' & Hset).
    rewrite Hset. simpl. exact (get_set_same _ _ _ _ Hset).
  - intros e ->. reflexivity.
Qed.

Lemma chat_empty_cached_response_is_miss_witness :
  ResponseCache.get
    (Llama3.response_cache
       (snd (Llama3.chat Llama3.new_chatbot "Q" (Return "")))) "Q"
  = Some ""
  /\ Llama3.chain_log
       (snd (Llama3.chat
               (snd (Llama3.chat Llama3.new_chatbot "Q" (Return "")))
               "Q" (Return "An answer.")))
     = ["Q"; "Q"].
Proof.
  assert (Hget :
    ResponseCache.get
      (Llama3.response_cache
         (snd (Llama3.chat Llama3.new_chatbot "Q" (Return "")))) "Q"
    = Some "") by (vm_compute; reflexivity).
  split; [exact Hget |].
  destruct
    (chat_empty_cached_response_is_miss
       (snd (Llama3.chat Llama3.new_chatbot "Q" (Return "")))
       "Q" (Return "An answer.") Hget)
    as (_ & Hlog & _).
  rewrite Hlog. vm_compute. reflexivity.
Defined.

(** ** Empty input and clearing *)

(** C6. For an empty or whitespace-only input, [process_query] returns at
    once with an empty response and the current transcript: the chain is
    not called, and the cache and the history stay as they are. Both
    variants behave so. *)
Theorem process_query_rejects_blank_input (user_input : string) :
  PyStr.all_space user_input = true ->
  (forall chatbot outcome,
     Llama3.process_query chatbot user_input outcome
     = (("", Llama3.get_history chatbot), chatbot))
  /\ (forall chatbot outcome,
        GroqAi.process_query chatbot user_input outcome
        = (("", GroqAi.get_history chatbot), chatbot)).
Proof.
  intros H. split; intros chatbot outcome.
  - unfold Llama3.process_query. now rewrite (strip_all_space user_input H).
  - unfold GroqAi.process_query. now rewrite (strip_all_space user_input H).
Qed.

Lemma process_query_rejects_blank_input_witness :
  Llama3.process_query
    (snd (Llama3.chat Llama3.new_chatbot "Mars?" (Return "The fourth planet.")))
    (String " " PyStr.newline) (Return "unused")
  = (("",
      Llama3.get_history
        (snd (Llama3.chat Llama3.new_chatbot "Mars?"
                (Return "The fourth planet.")))),
     snd (Llama3.chat Llama3.new_chatbot "Mars?" (Return "The fourth planet."))).
Proof.
  apply (process_query_rejects_blank_input (String " " PyStr.newline)).
  reflexivity.
Defined.

(** Any other input reaches [chat]. *)
Lemma process_query_calls_chat chatbot user_input outcome :
  PyStr.all_space user_input = false ->
  snd (Llama3.process_query chatbot user_input outcome)
  = snd (Llama3.chat chatbot user_input outcome).
Proof.
  intros H. unfold Llama3.process_query.
  destruct (PyStr.strip user_input) eqn:Hs.
  - apply strip_empty_iff in Hs. congruence.
  - simpl. now destruct (Llama3.chat chatbot user_input outcome).
Qed.

(** C7. In any state, after [clear_history] the history and the response
    cache are empty and [get_history] returns the no-history text. In a
    session, the state is then the one a new session starts in, except for
    the record of past chain calls: a following [chat] returns the same
    response and leaves the same history and the same cache as in a new
    session, and makes the same call to the chain. *)
Theorem clear_history_resets_session
    (self : Llama3.SpaceExplorationChatbot) :
  Llama3.get_history (snd (Llama3.clear_history self))
  = "No conversation history yet."
  /\ Llama3.message_history (snd (Llama3.clear_history self)) = []
  /\ ResponseCache.cache
       (Llama3.response_cache (snd (Llama3.clear_history self))) = []
  /\ (Llama3.reachable self ->
      Llama3.message_history (snd (Llama3.clear_history self))
      = Llama3.message_history Llama3.new_chatbot
      /\ Llama3.response_cache (snd (Llama3.clear_history self))
         = Llama3.response_cache Llama3.new_chatbot
      /\ forall q outcome,
           let cleared := Llama3.chat (snd (Llama3.clear_history self)) q outcome in
           let fresh := Llama3.chat Llama3.new_chatbot q outcome in
           fst cleared = fst fresh
           /\ Llama3.message_history (snd cleared)
              = Llama3.message_history (snd fresh)
           /\ Llama3.response_cache (snd cleared)
              = Llama3.response_cache (snd fresh)
           /\ Llama3.chain_log (snd cleared)
              = Llama3.chain_log self ++ Llama3.chain_log (snd fresh)).
Proof.
  split; [reflexivity |]. split; [reflexivity |]. split; [reflexivity |].
  intros Hreach.
  assert (Hstate : snd (Llama3.clear_history self)
                   = Llama3.mkBot []
                       (ResponseCache.init ResponseCache.default_max_size)
                       (Llama3.chain_log self)).
  { unfold Llama3.clear_history, ResponseCache.clear, ResponseCache.init.
    simpl. now rewrite (reachable_max_size self Hreach). }
  rewrite Hstate. split; [reflexivity |]. split; [reflexivity |].
  intros q outcome. unfold Llama3.chat, Llama3.chat_new_query. simpl.
  destruct outcome as [response | e]; simpl; repeat split.
Qed.

Lemma clear_history_resets_session_witness :
  fst (Llama3.chat
         (snd (Llama3.clear_history
                 (snd (Llama3.chat Llama3.new_chatbot "Mars?"
                         (Return "The fourth planet.")))))
         "Mars?" (Return "Another answer."))
  = "Another answer.".
Proof.
  destruct
    (clear_history_resets_session
       (snd (Llama3.chat Llama3.new_chatbot "Mars?"
               (Return "The fourth planet."))))
    as (_ & _ & _ & Hfresh).
  destruct Hfresh as (_ & _ & Hchat).
  - apply Llama3.reach_chat. apply Llama3.reach_new.
  - destruct (Hchat "Mars?" (Return "Another answer.")) as (Hr & _).
    rewrite Hr. vm_compute. reflexivity.
Defined.

(** ** Construction *)

Section InitFacts.

Import Llama3.

(** The build succeeds exactly when the source file exists and every
    external step returns. *)
Lemma build_returns env :
  Console.outcome (build env) = Return tt ->
  path_exists env = true
  /\ exists documents chunks,
       loader_load env = Return documents
       /\ split_documents env documents = Return chunks
       /\ HuggingFaceEmbeddings env = Return tt
       /\ Chroma_from_documents env chunks = Return tt
       /\ as_retriever env = Return tt
       /\ Ollama env = Return tt
       /\ from_template env = Return tt
       /\ compose_chain env = Return tt.
Proof.
  unfold build, _load_and_split_pdf, _initialize_vector_store,
    _initialize_llm, _create_rag_chain, Console.outcome.
  destruct (path_exists env); simpl; [| discriminate].
  destruct (loader_load env) as [documents | e]; simpl; [| discriminate].
  destruct (split_documents env documents) as [chunks | e] eqn:Hsplit;
    simpl; [| discriminate].
  destruct (HuggingFaceEmbeddings env) as [[] | e]; simpl; [| discriminate].
  destruct (Chroma_from_documents env chunks) as [[] | e] eqn:Hchroma;
    simpl; [| discriminate].
  destruct (as_retriever env) as [[] | e]; simpl; [| discriminate].
  destruct (Ollama env) as [[] | e]; simpl; [| discriminate].
  destruct (from_template env) as [[] | e]; simpl; [| discriminate].
  destruct (compose_chain env) as [[] | e]; simpl; [| discriminate].
  intros _. split; [reflexivity |].
  exists documents, chunks. now repeat split.
Qed.

(** A missing source file stops the build at its first step. *)
Lemma build_missing_file env :
  path_exists env = false ->
  build env
  = (["Loading PDF: " ++ PDF_FILE env]%string,
     Raise (mkExc FileNotFoundError ("PDF not found: " ++ PDF_FILE env))).
Proof.
  intros H. unfold build, _load_and_split_pdf. rewrite H. reflexivity.
Qed.

Lemma init_build_raises env e traced :
  Console.outcome (setup_langsmith_tracing env) = Return traced ->
  Console.outcome (build env) = Raise e ->
  __init__ env
  = (Console.stdout (setup_langsmith_tracing env)
       ++ ["Space Exploration Chatbot - Initializing"; PyStr.dashes 60]
       ++ Console.stdout (build env)
       ++ [init_failed e; (PyStr.dashes 60 ++ PyStr.newline)%string],
     Raise e).
Proof.
  unfold __init__, Console.outcome, Console.stdout.
  destruct (setup_langsmith_tracing env) as [tout [b | t]]; simpl;
    [| discriminate].
  destruct (build env) as [bout [[] | e']]; simpl; [discriminate |].
  intros _ H. inversion H; subst. reflexivity.
Qed.

Lemma init_returns env bot :
  Console.outcome (__init__ env) = Return bot ->
  bot = new_chatbot /\ Console.outcome (build env) = Return tt.
Proof.
  unfold __init__, Console.outcome.
  destruct (setup_langsmith_tracing env) as [tout [b | t]]; simpl;
    [| discriminate].
  destruct (build env) as [bout [[] | e']]; simpl; [| discriminate].
  intros H. inversion H. now split.
Qed.

End InitFacts.

(** C8. A failure of any build step of [__init__] (loading and splitting
    the source, the vector store, the language model, the chain) leaves the
    constructor as the exception the step raised, after the line
    ["Initialization failed: ..."] has been printed; no chatbot object is
    returned. A missing source file is such a failure: the build raises
    [FileNotFoundError]. The constructor returns an object only when every
    build step has returned. *)
Theorem init_failure_propagates (env : Llama3.Env) :
  (Llama3.path_exists env = false ->
   Console.outcome (Llama3.build env)
   = Raise (mkExc FileNotFoundError
              ("PDF not found: " ++ Llama3.PDF_FILE env)))
  /\ (forall e traced,
        Console.outcome (Llama3.setup_langsmith_tracing env) = Return traced ->
        Console.outcome (Llama3.build env) = Raise e ->
        Console.outcome (Llama3.__init__ env) = Raise e
        /\ Console.stdout (Llama3.__init__ env)
           = Console.stdout (Llama3.setup_langsmith_tracing env)
               ++ ["Space Exploration Chatbot - Initializing";
                   PyStr.dashes 60]
               ++ Console.stdout (Llama3.build env)
               ++ [("Initialization failed: " ++ exc_str e)%string;
                   (PyStr.dashes 60 ++ PyStr.newline)%string])
  /\ (forall bot,
        Console.outcome (Llama3.__init__ env) = Return bot ->
        bot = Llama3.new_chatbot
        /\ Llama3.path_exists env = true
        /\ exists documents chunks,
             Llama3.loader_load env = Return documents
             /\ Llama3.split_documents env documents = Return chunks
             /\ Llama3.HuggingFaceEmbeddings env = Return tt
             /\ Llama3.Chroma_from_documents env chunks = Return tt
             /\ Llama3.as_retriever env = Return tt
             /\ Llama3.Ollama env = Return tt
             /\ Llama3.from_template env = Return tt
             /\ Llama3.compose_chain env = Return tt).
Proof.
  split; [| split].
  - intros H. now rewrite (build_missing_file env H).
  - intros e traced Ht Hb.
    now rewrite (init_build_raises env e traced Ht Hb).
  - intros bot H. destruct (init_returns env bot H) as [Hbot Hbuild].
    split; [exact Hbot |]. exact (build_returns env Hbuild).
Qed.

Lemma init_failure_propagates_witness :
  Llama3.__init__
    (Llama3.mkEnv "space_exploration.pdf" None None true false
       (Return []) (fun documents => Return documents) (Return tt)
       (fun _ => Return tt) (Return tt) (Return tt) (Return tt) (Return tt))
  = (["Space Exploration Chatbot - Initializing"; PyStr.dashes 60;
      "Loading PDF: space_exploration.pdf";
      "Initialization failed: PDF not found: space_exploration.pdf";
      (PyStr.dashes 60 ++ PyStr.newline)%string],
     Raise (mkExc FileNotFoundError "PDF not found: space_exploration.pdf")).
Proof.
  destruct
    (init_failure_propagates
       (Llama3.mkEnv "space_exploration.pdf" None None true false
          (Return []) (fun documents => Return documents) (Return tt)
          (fun _ => Return tt) (Return tt) (Return tt) (Return tt)
          (Return tt)))
    as (Hmissing & Hraise & _).
  destruct
    (Hraise (mkExc FileNotFoundError "PDF not found: space_exploration.pdf")
       false)
    as (Hout & Hprinted).
  - reflexivity.
  - apply Hmissing. reflexivity.
  - apply injective_projections.
    + exact Hprinted.
    + exact Hout.
Defined.

(** ** The model at work *)

Example transcript_after_one_exchange :
  snd (fst (Llama3.process_query Llama3.new_chatbot "Mars?"
              (Return "The fourth planet.")))
  = ("Chat History" ++ PyStr.newline ++ PyStr.dashes 40
       ++ PyStr.newline ++ PyStr.newline
       ++ "Q1: Mars?" ++ PyStr.newline
       ++ "A1: The fourth planet." ++ PyStr.newline ++ PyStr.newline)%string.
Proof. vm_compute. reflexivity. Qed.

Example transcript_after_failure :
  Llama3.process_query Llama3.new_chatbot "Mars?"
    (Raise (mkExc (OtherException "ConnectionError") "connection refused"))
  = (("Error: connection refused", "No conversation history yet."),
     Llama3.mkBot [] (ResponseCache.init 50) ["Mars?"]).
Proof. vm_compute. reflexivity. Qed.

Example set_on_zero_bound_raises :
  fst (Llama3.chat
         (Llama3.mkBot [] (ResponseCache.init 0) []) "Mars?"
         (Return "The fourth planet."))
  = "Error: ".
Proof. vm_compute. reflexivity. Qed.

(** * Further properties of the code *)

(** ** [ResponseCache.set] *)

Section SetFacts.

Import ResponseCache.

Lemma length_setitem_le d k v :
  length (Dict.setitem d k v) <= S (length d).
Proof.
  induction d as [| [k' v'] d IH]; simpl; [lia |].
  destruct (String.eqb k' k); simpl; lia.
Qed.

Lemma wf_tail x d : Dict.wf (x :: d) -> Dict.wf d.
Proof. unfold Dict.wf. simpl. intros H. now inversion H. Qed.

Lemma get_tail_other k0 v0 d k :
  k0 <> k -> Dict.get ((k0, v0) :: d) k = Dict.get d k.
Proof. intros H. simpl. apply String.eqb_neq in H. now rewrite H. Qed.

(** The three shapes of a [set] call. *)
Lemma set_cases self query response :
  (exists e, set self query response = Raise e
             /\ e = mkExc StopIteration ""
             /\ cache self = [] /\ (max_size self <= 0)%Z)
  \/ ((Z.of_nat (length (cache self)) < max_size self)%Z
      /\ set self query response
         = Return (mk (Dict.setitem (cache self) (get_key query) response)
                      (max_size self)))
  \/ (exists k v d,
        cache self = (k, v) :: d
        /\ (Z.of_nat (length (cache self)) >= max_size self)%Z
        /\ set self query response
           = Return (mk (Dict.setitem d (get_key query) response)
                        (max_size self))).
Proof.
  destruct (Z_lt_ge_dec (Z.of_nat (length (cache self))) (max_size self))
    as [Hlt | Hge].
  - right. left. split; [exact Hlt | now apply set_below].
  - destruct (cache self) as [| [k v] d] eqn:Hc.
    + left. exists (mkExc StopIteration ""). simpl in Hge.
      repeat split; try lia.
      apply set_empty_raises; [exact Hc | lia].
    + right. right. exists k, v, d. repeat split; [lia |].
      apply (set_full self query response k v d); [rewrite Hc; lia | exact Hc].
Qed.

End SetFacts.

(** X1. [set] raises in one situation only: the cache is empty and its
    bound is zero or negative, and then the exception is the
    [StopIteration] of [next(iter(self.cache))]; in particular it never
    raises [KeyError]. With a positive bound or a non-empty cache it
    returns. *)
Theorem set_raises_only_when_empty_and_unbounded
    (self : ResponseCache.t) (query response : string) :
  (forall e,
     ResponseCache.set self query response = Raise e ->
     e = mkExc StopIteration ""
     /\ ResponseCache.cache self = []
     /\ (ResponseCache.max_size self <= 0)%Z)
  /\ ((0 < ResponseCache.max_size self)%Z
      \/ ResponseCache.cache self <> [] ->
      exists self', ResponseCache.set self query response = Return self').
Proof.
  split.
  - intros e He.
    destruct (set_cases self query response)
      as [(e' & Hr & He' & Hc & Hm) | [(_ & Hr) | (k & v & d & _ & _ & Hr)]];
      rewrite Hr in He; inversion He; subst; now repeat split.
  - apply set_returns.
Qed.

Lemma set_raises_only_when_empty_and_unbounded_witness :
  ResponseCache.set (ResponseCache.init 0) "Mars?" "The fourth planet."
  = Raise (mkExc StopIteration "")
  /\ exists self',
       ResponseCache.set (ResponseCache.init 1) "Mars?" "The fourth planet."
       = Return self'.
Proof.
  destruct (set_raises_only_when_empty_and_unbounded
              (ResponseCache.init 1) "Mars?" "The fourth planet.")
    as (_ & Hret).
  split; [vm_compute; reflexivity |].
  apply Hret. left. reflexivity.
Defined.

(** X2. A cache with distinct keys, at most [max_size] entries and a
    positive bound stays so under any sequence of [get] and [set] calls,
    whatever the queries, and no call of the sequence raises. *)
Theorem cache_bound_is_invariant
    (ops : list ResponseCache.op) (self : ResponseCache.t) :
  Dict.wf (ResponseCache.cache self) ->
  (Z.of_nat (length (ResponseCache.cache self))
   <= ResponseCache.max_size self)%Z ->
  (1 <= ResponseCache.max_size self)%Z ->
  exists self',
    ResponseCache.run self ops = Return self'
    /\ Dict.wf (ResponseCache.cache self')
    /\ (Z.of_nat (length (ResponseCache.cache self'))
        <= ResponseCache.max_size self')%Z
    /\ ResponseCache.max_size self' = ResponseCache.max_size self.
Proof.
  revert self. induction ops as [| [q | q r] ops IH]; intros self Hwf Hlen Hmax.
  - exists self. now repeat split.
  - simpl. now apply IH.
  - simpl.
    destruct (set_cases self q r)
      as [(e & _ & _ & _ & Hm) | [(Hlt & Hr) | (k & v & d & Hc & Hge & Hr)]].
    + lia.
    + rewrite Hr. simpl bind.
      destruct (IH (ResponseCache.mk
                      (Dict.setitem (ResponseCache.cache self)
                         (ResponseCache.get_key q) r)
                      (ResponseCache.max_size self)))
        as (self' & Hrun & Hwf' & Hlen' & Hmax'); simpl.
      * now apply wf_setitem.
      * pose proof (length_setitem_le (ResponseCache.cache self)
                      (ResponseCache.get_key q) r). lia.
      * exact Hmax.
      * exists self'. now repeat split.
    + rewrite Hr. simpl bind. rewrite Hc in Hwf, Hlen. simpl length in Hlen.
      destruct (IH (ResponseCache.mk
                      (Dict.setitem d (ResponseCache.get_key q) r)
                      (ResponseCache.max_size self)))
        as (self' & Hrun & Hwf' & Hlen' & Hmax'); simpl.
      * apply wf_setitem. exact (wf_tail _ _ Hwf).
      * pose proof (length_setitem_le d (ResponseCache.get_key q) r). lia.
      * exact Hmax.
      * exists self'. now repeat split.
Qed.

Lemma cache_bound_is_invariant_witness :
  exists self',
    ResponseCache.run (ResponseCache.init 2)
      [ResponseCache.OpSet "Moon?" "A"; ResponseCache.OpSet "moon?" "B";
       ResponseCache.OpSet "Mars?" "C"; ResponseCache.OpSet "Venus?" "D"]
    = Return self'
    /\ (Z.of_nat (length (ResponseCache.cache self')) <= 2)%Z.
Proof.
  destruct
    (cache_bound_is_invariant
       [ResponseCache.OpSet "Moon?" "A"; ResponseCache.OpSet "moon?" "B";
        ResponseCache.OpSet "Mars?" "C"; ResponseCache.OpSet "Venus?" "D"]
       (ResponseCache.init 2))
    as (self' & Hrun & _ & Hlen & Hmax).
  - constructor.
  - simpl. lia.
  - simpl. lia.
  - exists self'. split; [exact Hrun |]. rewrite Hmax in Hlen. exact Hlen.
Defined.

(** X3. Besides the key of its query, [set] touches one entry at most: the
    oldest one, and only when the cache is at its bound. Every other key
    keeps its response; the oldest key of a full cache is gone. *)
Theorem set_leaves_other_entries
    (self self' : ResponseCache.t) (query response k : string) :
  Dict.wf (ResponseCache.cache self) ->
  ResponseCache.set self query response = Return self' ->
  k <> ResponseCache.get_key query ->
  ((Z.of_nat (length (ResponseCache.cache self))
    < ResponseCache.max_size self)%Z
   \/ Dict.first_key (ResponseCache.cache self) <> Return k ->
   Dict.get (ResponseCache.cache self') k
   = Dict.get (ResponseCache.cache self) k)
  /\ ((Z.of_nat (length (ResponseCache.cache self))
       >= ResponseCache.max_size self)%Z ->
      Dict.first_key (ResponseCache.cache self) = Return k ->
      Dict.get (ResponseCache.cache self') k = None).
Proof.
  intros Hwf Hset Hk.
  assert (Hk' : ResponseCache.get_key query <> k) by congruence.
  destruct (set_cases self query response)
    as [(e & Hr & _) | [(Hlt & Hr) | (k0 & v0 & d & Hc & Hge & Hr)]];
    rewrite Hr in Hset; inversion Hset; subst self'; simpl; clear Hset.
  - split.
    + intros _. now apply get_setitem_other.
    + intros Hge. lia.
  - rewrite Hc in *. split.
    + intros [Hlt | Hfirst]; [lia |].
      rewrite (get_setitem_other d _ response k Hk').
      symmetry. apply get_tail_other. simpl in Hfirst. congruence.
    + intros _ Hfirst. simpl in Hfirst. inversion Hfirst; subst k0.
      rewrite (get_setitem_other d _ response k Hk').
      apply get_None_iff. unfold Dict.wf in Hwf. simpl in Hwf.
      now inversion Hwf.
Qed.

Lemma moon_mars_wf :
  Dict.wf [(ResponseCache.get_key "moon", "A");
           (ResponseCache.get_key "mars", "B")].
Proof. vm_compute. repeat constructor; simpl; intuition discriminate. Qed.

Lemma set_leaves_other_entries_witness :
  Dict.get
    [(ResponseCache.get_key "mars", "B"); (ResponseCache.get_key "venus", "C")]
    (ResponseCache.get_key "mars")
  = Some "B"
  /\ Dict.get
       [(ResponseCache.get_key "mars", "B");
        (ResponseCache.get_key "venus", "C")]
       (ResponseCache.get_key "moon")
     = None.
Proof.
  destruct
    (set_leaves_other_entries
       (ResponseCache.mk
          [(ResponseCache.get_key "moon", "A");
           (ResponseCache.get_key "mars", "B")] 2)
       (ResponseCache.mk
          [(ResponseCache.get_key "mars", "B");
           (ResponseCache.get_key "venus", "C")] 2)
       "Venus" "C" (ResponseCache.get_key "mars"))
    as (Hkeep & _).
  { exact moon_mars_wf. }
  { vm_compute. reflexivity. }
  { vm_compute. discriminate. }
  destruct
    (set_leaves_other_entries
       (ResponseCache.mk
          [(ResponseCache.get_key "moon", "A");
           (ResponseCache.get_key "mars", "B")] 2)
       (ResponseCache.mk
          [(ResponseCache.get_key "mars", "B");
           (ResponseCache.get_key "venus", "C")] 2)
       "Venus" "C" (ResponseCache.get_key "moon"))
    as (_ & Hgone).
  { exact moon_mars_wf. }
  { vm_compute. reflexivity. }
  { vm_compute. discriminate. }
  split.
  - simpl ResponseCache.cache in Hkeep. rewrite Hkeep.
    + vm_compute. reflexivity.
    + right. vm_compute. discriminate.
  - apply Hgone.
    + simpl. lia.
    + reflexivity.
Defined.

(** X4. Storing a response under a key the cache already holds leaves the
    entry where it is, with one exception. Below the bound the keys stay
    in the same order; at the bound, when the key is not the oldest, they
    are the old keys without the oldest: an overwritten entry is evicted
    as early as before. The exception is the oldest key of a cache at its
    bound: it is dropped and stored again, which makes it the newest. *)
Theorem set_overwrite_keeps_position
    (self self' : ResponseCache.t) (query response : string) :
  Dict.wf (ResponseCache.cache self) ->
  In (ResponseCache.get_key query) (Dict.keys (ResponseCache.cache self)) ->
  ResponseCache.set self query response = Return self' ->
  (Dict.first_key (ResponseCache.cache self)
   <> Return (ResponseCache.get_key query)
   \/ (Z.of_nat (length (ResponseCache.cache self))
       < ResponseCache.max_size self)%Z ->
   Dict.keys (ResponseCache.cache self')
   = if (Z.of_nat (length (ResponseCache.cache self))
         >=? ResponseCache.max_size self)%Z
     then tl (Dict.keys (ResponseCache.cache self))
     else Dict.keys (ResponseCache.cache self))
  /\ (Dict.first_key (ResponseCache.cache self)
      = Return (ResponseCache.get_key query) ->
      (Z.of_nat (length (ResponseCache.cache self))
       >= ResponseCache.max_size self)%Z ->
      Dict.keys (ResponseCache.cache self')
      = tl (Dict.keys (ResponseCache.cache self))
          ++ [ResponseCache.get_key query]).
Proof.
  intros Hwf Hin Hset.
  destruct (set_cases self query response)
    as [(e & Hr & _) | [(Hlt & Hr) | (k0 & v0 & d & Hc & Hge & Hr)]];
    rewrite Hr in Hset; inversion Hset; subst self'; simpl; clear Hset.
  - split.
    + intros _.
      destruct (Z.geb_spec (Z.of_nat (length (ResponseCache.cache self)))
                  (ResponseCache.max_size self)); [lia |].
      now apply keys_setitem_present.
    + intros _ Hge. lia.
  - rewrite Hc in *. split.
    + intros Hpos.
      destruct (Z.geb_spec (Z.of_nat (length ((k0, v0) :: d)))
                  (ResponseCache.max_size self)); [| lia].
      simpl. apply keys_setitem_present.
      simpl in Hin. destruct Hin as [Heq | Hin]; [| exact Hin].
      destruct Hpos as [Hfirst | Hlt]; [| lia].
      simpl in Hfirst. congruence.
    + intros Hfirst _. simpl in Hfirst. inversion Hfirst; subst k0.
      simpl. apply keys_setitem_absent.
      unfold Dict.wf in Hwf. simpl in Hwf. now inversion Hwf.
Qed.

Lemma set_overwrite_keeps_position_witness :
  Dict.keys
    [(ResponseCache.get_key "moon", "C"); (ResponseCache.get_key "mars", "B")]
  = Dict.keys
      [(ResponseCache.get_key "moon", "A");
       (ResponseCache.get_key "mars", "B")]
  /\ Dict.keys
       [(ResponseCache.get_key "mars", "B");
        (ResponseCache.get_key "moon", "C")]
     = [ResponseCache.get_key "mars"; ResponseCache.get_key "moon"].
Proof.
  split.
  - destruct
      (set_overwrite_keeps_position
         (ResponseCache.mk
            [(ResponseCache.get_key "moon", "A");
             (ResponseCache.get_key "mars", "B")] 3)
         (ResponseCache.mk
            [(ResponseCache.get_key "moon", "C");
             (ResponseCache.get_key "mars", "B")] 3)
         " MOON " "C")
      as (Hstay & _).
    + exact moon_mars_wf.
    + vm_compute. left. reflexivity.
    + vm_compute. reflexivity.
    + apply Hstay. right. simpl. lia.
  - destruct
      (set_overwrite_keeps_position
         (ResponseCache.mk
            [(ResponseCache.get_key "moon", "A");
             (ResponseCache.get_key "mars", "B")] 2)
         (ResponseCache.mk
            [(ResponseCache.get_key "mars", "B");
             (ResponseCache.get_key "moon", "C")] 2)
         " MOON " "C")
      as (_ & Hmoves).
    + exact moon_mars_wf.
    + vm_compute. left. reflexivity.
    + vm_compute. reflexivity.
    + apply Hmoves.
      * vm_compute. reflexivity.
      * simpl. lia.
Defined.

(** X5. A key that is not among the entries [set] keeps (the whole cache
    below the bound, all but the oldest at the bound) becomes the newest
    entry. This is the case of a new key, and also of the oldest key of a
    full cache stored again: it is dropped and put back last, so the size
    stays at the bound. *)
Theorem set_new_key_is_newest
    (self self' : ResponseCache.t) (query response : string) :
  let kept :=
    if (Z.of_nat (length (ResponseCache.cache self))
        >=? ResponseCache.max_size self)%Z
    then tl (ResponseCache.cache self)
    else ResponseCache.cache self in
  ~ In (ResponseCache.get_key query) (Dict.keys kept) ->
  ResponseCache.set self query response = Return self' ->
  ResponseCache.cache self'
  = kept ++ [(ResponseCache.get_key query, response)].
Proof.
  intros kept Hnew Hset. unfold kept in *. clear kept.
  destruct (set_cases self query response)
    as [(e & Hr & _) | [(Hlt & Hr) | (k0 & v0 & d & Hc & Hge & Hr)]];
    rewrite Hr in Hset; inversion Hset; subst self'; simpl; clear Hset.
  - destruct (Z.geb_spec (Z.of_nat (length (ResponseCache.cache self)))
                (ResponseCache.max_size self)); [lia |].
    now apply setitem_absent.
  - destruct (Z.geb_spec (Z.of_nat (length (ResponseCache.cache self)))
                (ResponseCache.max_size self)); [| lia].
    rewrite Hc in *. simpl in *. now apply setitem_absent.
Qed.

Lemma set_new_key_is_newest_witness :
  ResponseCache.cache
    (ResponseCache.mk
       [(ResponseCache.get_key "mars", "B");
        (ResponseCache.get_key "moon", "C")] 2)
  = [(ResponseCache.get_key "mars", "B")]
    ++ [(ResponseCache.get_key "Moon", "C")].
Proof.
  apply
    (set_new_key_is_newest
       (ResponseCache.mk
          [(ResponseCache.get_key "moon", "A");
           (ResponseCache.get_key "mars", "B")] 2)
       (ResponseCache.mk
          [(ResponseCache.get_key "mars", "B");
           (ResponseCache.get_key "moon", "C")] 2)
       "Moon" "C").
  - vm_compute. intros [H | []]. discriminate.
  - vm_compute. reflexivity.
Defined.

(** ** Sessions of the local-Ollama variant *)

Section SessionFacts.

Import Llama3.

Lemma set_keeps_bound rc q r rc' :
  Dict.wf (ResponseCache.cache rc) ->
  (Z.of_nat (length (ResponseCache.cache rc)) <= ResponseCache.max_size rc)%Z ->
  ResponseCache.set rc q r = Return rc' ->
  Dict.wf (ResponseCache.cache rc')
  /\ (Z.of_nat (length (ResponseCache.cache rc'))
      <= ResponseCache.max_size rc')%Z.
Proof.
  intros Hwf Hlen Hset.
  destruct (set_cases rc q r)
    as [(e & Hr & _) | [(Hlt & Hr) | (k0 & v0 & d & Hc & Hge & Hr)]];
    rewrite Hr in Hset; inversion Hset; subst rc'; simpl; clear Hset.
  - split; [now apply wf_setitem |].
    pose proof (length_setitem_le (ResponseCache.cache rc)
                  (ResponseCache.get_key q) r). lia.
  - rewrite Hc in Hwf, Hlen. simpl length in Hlen.
    split; [apply wf_setitem; exact (wf_tail _ _ Hwf) |].
    pose proof (length_setitem_le d (ResponseCache.get_key q) r). lia.
Qed.

Lemma set_keys_incl rc q r rc' k :
  ResponseCache.set rc q r = Return rc' ->
  In k (Dict.keys (ResponseCache.cache rc')) ->
  k = ResponseCache.get_key q \/ In k (Dict.keys (ResponseCache.cache rc)).
Proof.
  assert (Hitem : forall d k0 v, In k (Dict.keys (Dict.setitem d k0 v)) ->
                                 k = k0 \/ In k (Dict.keys d)).
  { intros d k0 v. induction d as [| [k1 v1] d IH]; simpl.
    - intros [H | []]. now left.
    - destruct (String.eqb k1 k0) eqn:E; simpl.
      + intros [H | H]; right; [now left | now right].
      + intros [H | H]; [right; now left |].
        destruct (IH H) as [? | ?]; [now left | right; now right]. }
  intros Hset Hin.
  destruct (set_cases rc q r)
    as [(e & Hr & _) | [(Hlt & Hr) | (k0 & v0 & d & Hc & Hge & Hr)]];
    rewrite Hr in Hset; inversion Hset; subst rc'; simpl in Hin; clear Hset.
  - exact (Hitem _ _ _ Hin).
  - destruct (Hitem _ _ _ Hin) as [? | ?]; [now left |].
    right. rewrite Hc. now right.
Qed.

(** The cache after a call is the old one, or the result of one [set]. *)
Lemma chat_cache_step self q outcome :
  response_cache (snd (chat self q outcome)) = response_cache self
  \/ exists r,
       ResponseCache.set (response_cache self) q r
       = Return (response_cache (snd (chat self q outcome))).
Proof.
  destruct (cached self q) eqn:Hc.
  - destruct (chat_cached_response self q outcome Hc) as (r & _ & _ & ->).
    now left.
  - rewrite (chat_not_cached self q outcome Hc). unfold chat_new_query.
    destruct outcome as [response | e]; [| now left].
    destruct (ResponseCache.set (response_cache self) q response) eqn:Hs;
      [| now left].
    right. exists response. exact Hs.
Qed.

Lemma reachable_cache_bound self :
  reachable self ->
  Dict.wf (ResponseCache.cache (response_cache self))
  /\ (Z.of_nat (length (ResponseCache.cache (response_cache self)))
      <= ResponseCache.max_size (response_cache self))%Z.
Proof.
  induction 1 as [| self q outcome _ IH | self Hreach IH].
  - split; [constructor | simpl; unfold ResponseCache.default_max_size; lia].
  - destruct IH as [Hwf Hlen].
    destruct (chat_cache_step self q outcome) as [-> | (r & Hset)].
    + now split.
    + exact (set_keeps_bound _ _ _ _ Hwf Hlen Hset).
  - simpl. split; [constructor |].
    unfold ResponseCache.default_max_size.
    pose proof (reachable_max_size self Hreach) as Hm.
    unfold ResponseCache.default_max_size in Hm. simpl. lia.
Qed.

(** On a miss with a cache that can store, [chat] returns the answer of
    the chain, stores it and records the exchange. *)
Lemma chat_miss_returns self q response :
  cached self q = false ->
  (0 < ResponseCache.max_size (response_cache self))%Z ->
  exists cache',
    ResponseCache.set (response_cache self) q response = Return cache'
    /\ chat self q (Return response)
       = (response,
          mkBot (message_history self
                   ++ [HumanMessage q; AIMessage response])
                cache' (chain_log self ++ [q])).
Proof.
  intros Hmiss Hmax.
  destruct (set_returns (response_cache self) q response (or_introl Hmax))
    as (cache' & Hset).
  exists cache'. split; [exact Hset |].
  rewrite (chat_not_cached self q _ Hmiss). unfold chat_new_query.
  rewrite Hset. unfold record_turn, InMemoryChatMessageHistory.add_message.
  simpl. now rewrite <- app_assoc.
Qed.

End SessionFacts.

(** X6. In every state a session can reach from the constructor through
    [chat] and [clear_history], the history is a sequence of
    user/assistant pairs, of even length, and the response cache holds
    distinct keys, at most 50 of them, under the bound 50 it was created
    with. *)
Theorem session_invariant (self : Llama3.SpaceExplorationChatbot) :
  Llama3.reachable self ->
  History.alternates (Llama3.message_history self)
  /\ Nat.even (length (Llama3.message_history self)) = true
  /\ Dict.wf (ResponseCache.cache (Llama3.response_cache self))
  /\ length (ResponseCache.cache (Llama3.response_cache self)) <= 50
  /\ ResponseCache.max_size (Llama3.response_cache self) = 50%Z.
Proof.
  intros H.
  pose proof (reachable_alternates self H) as Halt.
  pose proof (reachable_max_size self H) as Hmax.
  destruct (reachable_cache_bound self H) as [Hwf Hlen].
  unfold ResponseCache.default_max_size in Hmax.
  repeat split; try assumption.
  - now apply alternates_even.
  - lia.
Qed.

Lemma session_invariant_witness :
  length
    (ResponseCache.cache
       (Llama3.response_cache
          (snd (Llama3.chat
                  (snd (Llama3.clear_history
                          (snd (Llama3.chat Llama3.new_chatbot "Mars?"
                                  (Return "The fourth planet.")))))
                  "Moon?" (Return "Our satellite.")))))
  <= 50.
Proof.
  apply session_invariant.
  apply Llama3.reach_chat, Llama3.reach_clear, Llama3.reach_chat,
    Llama3.reach_new.
Defined.

(** X7. In a session, when the cache has no non-empty response for the
    query and the chain answers, [chat] returns the answer unchanged, calls
    the chain once, appends the user message as typed and the answer to the
    history, and stores the answer under the query: storing cannot fail. *)
Theorem session_chat_success
    (self : Llama3.SpaceExplorationChatbot) (q response : string) :
  Llama3.reachable self ->
  Llama3.cached self q = false ->
  let after := Llama3.chat self q (Return response) in
  fst after = response
  /\ Llama3.message_history (snd after)
     = Llama3.message_history self ++ [HumanMessage q; AIMessage response]
  /\ Llama3.chain_log (snd after) = Llama3.chain_log self ++ [q]
  /\ ResponseCache.get (Llama3.response_cache (snd after)) q = Some response.
Proof.
  intros Hreach Hmiss after. unfold after.
  destruct (chat_miss_returns self q response Hmiss) as (cache' & Hset & ->).
  - rewrite (reachable_max_size self Hreach). reflexivity.
  - simpl. repeat split. exact (get_set_same _ _ _ _ Hset).
Qed.

Lemma session_chat_success_witness :
  fst (Llama3.chat
         (snd (Llama3.chat Llama3.new_chatbot "Mars?"
                 (Raise (mkExc (OtherException "TimeoutError") "timed out"))))
         "Mars?" (Return "The fourth planet."))
  = "The fourth planet.".
Proof.
  destruct
    (session_chat_success
       (snd (Llama3.chat Llama3.new_chatbot "Mars?"
               (Raise (mkExc (OtherException "TimeoutError") "timed out"))))
       "Mars?" "The fourth planet.")
    as (Hr & _).
  - apply Llama3.reach_chat, Llama3.reach_new.
  - vm_compute. reflexivity.
  - exact Hr.
Defined.

(** X8. A question of ASCII text asked again with the letters A to Z in
    another case or with other surrounding whitespace is answered from the
    cache: the chain is not called for it, the response is the one stored
    for the first form, and the history records the second question as it
    was typed. (Outside ASCII this fails, as for the key itself.) *)
Theorem chat_hits_cache_across_forms
    (self : Llama3.SpaceExplorationChatbot) (q1 q2 response : string)
    (second : result string) :
  Unicode.is_ascii q1 = true ->
  Unicode.is_ascii q2 = true ->
  Query.same_but_case_and_padding q1 q2 ->
  Llama3.cached self q1 = false ->
  response <> "" ->
  (0 < ResponseCache.max_size (Llama3.response_cache self))%Z ->
  let first_call := Llama3.chat self q1 (Return response) in
  let second_call := Llama3.chat (snd first_call) q2 second in
  fst second_call = response
  /\ Llama3.chain_log (snd second_call) = Llama3.chain_log self ++ [q1]
  /\ Llama3.response_cache (snd second_call)
     = Llama3.response_cache (snd first_call)
  /\ Llama3.message_history (snd second_call)
     = Llama3.message_history self
         ++ [HumanMessage q1; AIMessage response;
             HumanMessage q2; AIMessage response]
  /\ Unicode.get_key (Unicode.code_points q2)
     = Unicode.get_key (Unicode.code_points q1).
Proof.
  intros Ha1 Ha2 Hsame Hmiss Hne Hmax first_call second_call.
  assert (Hkey : ResponseCache.get_key q1 = ResponseCache.get_key q2).
  { unfold ResponseCache.get_key. now rewrite (normalize_same q1 q2 Hsame). }
  destruct (chat_miss_returns self q1 response Hmiss Hmax)
    as (cache' & Hset & Hfirst).
  assert (Hget : ResponseCache.get cache' q2 = Some response).
  { rewrite <- (get_same_key cache' q1 q2).
    - exact (get_set_same _ _ _ _ Hset).
    - unfold ResponseCache.get_key. now rewrite (normalize_same q1 q2 Hsame). }
  unfold second_call, first_call. rewrite Hfirst. unfold Llama3.chat. simpl.
  rewrite Hget. destruct response; [contradiction |]. simpl.
  repeat split.
  - unfold Llama3.record_turn, InMemoryChatMessageHistory.add_message. simpl.
    now rewrite <- !app_assoc.
  - now rewrite (ascii_text_agrees q1 Ha1), (ascii_text_agrees q2 Ha2), Hkey.
Qed.

Lemma chat_hits_cache_across_forms_witness :
  Llama3.chain_log
    (snd (Llama3.chat
            (snd (Llama3.chat Llama3.new_chatbot "Mars?"
                    (Return "The fourth planet.")))
            " mars? " (Return "Another answer.")))
  = ["Mars?"].
Proof.
  destruct
    (chat_hits_cache_across_forms Llama3.new_chatbot "Mars?" " mars? "
       "The fourth planet." (Return "Another answer."))
    as (_ & Hlog & _).
  - reflexivity.
  - reflexivity.
  - exact mars_forms.
  - reflexivity.
  - discriminate.
  - reflexivity.
  - exact Hlog.
Defined.

Section EvictionFacts.

Import Llama3.

Lemma inserted_stores calls : ResponseCache.inserted (stores calls) = calls.
Proof.
  induction calls as [| [q r] calls IH]; simpl; [reflexivity | now rewrite IH].
Qed.

(** A run of answered questions with new, pairwise distinct keys: every
    call reaches the chain, and the cache goes through the same [set]
    calls. *)
Lemma chat_all_new_keys calls : forall self,
  (0 < ResponseCache.max_size (response_cache self))%Z ->
  NoDup (map (fun p => ResponseCache.get_key (fst p)) calls) ->
  (forall k, In k (Dict.keys (ResponseCache.cache (response_cache self))) ->
             ~ In k (map (fun p => ResponseCache.get_key (fst p)) calls)) ->
  ResponseCache.run (response_cache self) (stores calls)
  = Return (response_cache (chat_all self (answered calls)))
  /\ chain_log (chat_all self (answered calls))
     = chain_log self ++ map fst calls.
Proof.
  induction calls as [| [q r] calls IH]; intros self Hmax Hnd Hfresh.
  - simpl. now rewrite app_nil_r.
  - simpl in Hnd, Hfresh. inversion Hnd as [| ? ? Hq Hnd']; subst.
    assert (Hmiss : cached self q = false).
    { unfold cached, ResponseCache.get.
      replace (Dict.get (ResponseCache.cache (response_cache self))
                 (ResponseCache.get_key q)) with (@None string);
        [reflexivity |].
      symmetry. apply get_None_iff. intros Hin.
      apply (Hfresh _ Hin). now left. }
    destruct (chat_miss_returns self q r Hmiss Hmax)
      as (cache' & Hset & Hchat).
    simpl. rewrite Hchat, Hset. simpl.
    destruct (IH (mkBot (message_history self
                           ++ [HumanMessage q; AIMessage r])
                        cache' (chain_log self ++ [q])))
      as (Hrun & Hlog); simpl.
    + now rewrite (set_max_size _ _ _ _ Hset).
    + exact Hnd'.
    + intros k Hk.
      destruct (set_keys_incl _ _ _ _ k Hset Hk) as [-> | Hin].
      * exact Hq.
      * intros Hin'. apply (Hfresh _ Hin). now right.
    + split; [exact Hrun |]. simpl in Hlog. rewrite Hlog.
      now rewrite <- app_assoc.
Qed.

End EvictionFacts.

(** X9. Eviction reaches the session. Start with an empty cache of bound
    [max_size] (50 in [new_chatbot]) and ask [max_size + 1] questions with
    pairwise distinct keys, all answered by the chain. Every one of them
    calls the chain; afterwards the cache is full, the first question is no
    longer cached, so asking it again calls the chain again, and every
    later question with a non-empty answer is still cached. *)
Theorem session_evicts_first_question
    (max_size : Z) (calls : list (string * string))
    (first : string * string) (later : list (string * string)) :
  (1 <= max_size)%Z ->
  calls = first :: later ->
  Z.of_nat (length calls) = (max_size + 1)%Z ->
  NoDup (map (fun p => ResponseCache.get_key (fst p)) calls) ->
  let start := Llama3.mkBot [] (ResponseCache.init max_size) [] in
  let final := Llama3.chat_all start (Llama3.answered calls) in
  Llama3.chain_log final = map fst calls
  /\ Z.of_nat (length (ResponseCache.cache (Llama3.response_cache final)))
     = max_size
  /\ Llama3.cached final (fst first) = false
  /\ (forall outcome,
        Llama3.chain_log (snd (Llama3.chat final (fst first) outcome))
        = map fst calls ++ [fst first])
  /\ (forall q r, In (q, r) later -> r <> "" -> Llama3.cached final q = true).
Proof.
  intros Hmax Hcalls Hlen Hnd start final.
  destruct (chat_all_new_keys calls start) as (Hrun & Hlog);
    [simpl; lia | exact Hnd | intros k [] |].
  fold final in Hrun, Hlog. simpl in Hrun, Hlog.
  destruct (run_fifo (Llama3.stores calls) (ResponseCache.init max_size))
    as (rc & Hrun' & _ & Hc).
  { simpl. lia. }
  { simpl. lia. }
  { unfold ResponseCache.stored_keys. now rewrite inserted_stores. }
  { intros k []. }
  rewrite Hrun in Hrun'. inversion Hrun'; subst rc. clear Hrun'.
  unfold ResponseCache.stored, ResponseCache.init in Hc.
  rewrite inserted_stores in Hc. subst calls.
  cbn [ResponseCache.cache ResponseCache.max_size app map length] in Hc.
  rewrite length_map in Hc. simpl length in Hlen.
  replace (S (length later) - Z.to_nat max_size) with 1 in Hc by lia.
  simpl skipn in Hc. simpl in Hnd.
  inversion Hnd as [| ? ? Hfirst Hnd']; subst.
  assert (Hkeys : Dict.keys (ResponseCache.cache (Llama3.response_cache final))
                  = map (fun p => ResponseCache.get_key (fst p)) later).
  { rewrite Hc. unfold Dict.keys. now rewrite map_map. }
  assert (Hmiss : Llama3.cached final (fst first) = false).
  { unfold Llama3.cached, ResponseCache.get.
    replace (Dict.get (ResponseCache.cache (Llama3.response_cache final))
               (ResponseCache.get_key (fst first))) with (@None string);
      [reflexivity |].
    symmetry. apply get_None_iff. now rewrite Hkeys. }
  split; [exact Hlog |]. split; [| split; [exact Hmiss | split]].
  - rewrite Hc, length_map. lia.
  - intros outcome. rewrite (chat_not_cached final _ outcome Hmiss).
    unfold Llama3.chat_new_query.
    destruct outcome as [response | e]; [| simpl; now rewrite Hlog].
    destruct (ResponseCache.set (Llama3.response_cache final) (fst first)
                response); simpl; now rewrite Hlog.
  - intros q r Hin Hr. unfold Llama3.cached, ResponseCache.get.
    rewrite (get_In (ResponseCache.cache (Llama3.response_cache final))
               (ResponseCache.get_key q) r).
    + destruct r; [contradiction | reflexivity].
    + unfold Dict.wf. now rewrite Hkeys.
    + rewrite Hc.
      exact (in_map (fun p => (ResponseCache.get_key (fst p), snd p))
               later (q, r) Hin).
Qed.

Lemma three_questions_distinct :
  NoDup (map (fun p => ResponseCache.get_key (fst p))
           [("Moon?", "A"); ("Mars?", "B"); ("Venus?", "C")]).
Proof. vm_compute. repeat constructor; simpl; intuition discriminate. Qed.

Lemma session_evicts_first_question_witness :
  Llama3.cached
    (Llama3.chat_all (Llama3.mkBot [] (ResponseCache.init 2) [])
       (Llama3.answered [("Moon?", "A"); ("Mars?", "B"); ("Venus?", "C")]))
    "Moon?"
  = false.
Proof.
  destruct
    (session_evicts_first_question 2
       [("Moon?", "A"); ("Mars?", "B"); ("Venus?", "C")]
       ("Moon?", "A") [("Mars?", "B"); ("Venus?", "C")])
    as (_ & _ & Hmiss & _).
  - lia.
  - reflexivity.
  - reflexivity.
  - exact three_questions_distinct.
  - exact Hmiss.
Defined.

(** ** The transcript *)

Section TranscriptFacts.

Import History.

Lemma string_app_assoc (a b c : string) :
  ((a ++ b) ++ c = a ++ (b ++ c))%string.
Proof. induction a as [| x a IH]; simpl; [reflexivity | now rewrite IH]. Qed.

Lemma string_app_nil_r (a : string) : (a ++ "")%string = a.
Proof. induction a as [| x a IH]; simpl; [reflexivity | now rewrite IH]. Qed.

Lemma render_pairs_cons n u a rest :
  render_pairs n (u :: a :: rest)
  = (Query.exchange n (content u) (content a)
       ++ render_pairs (S n) rest)%string.
Proof.
  unfold Query.exchange. cbn [render_pairs].
  now rewrite !string_app_assoc.
Qed.

Lemma half_SS m : S (S m) / 2 = S (m / 2).
Proof.
  change (S (S m)) with (2 + m). replace (2 + m) with (m + 1 * 2) by lia.
  rewrite Nat.div_add by lia. lia.
Qed.

(** The transcript of a paired history followed by more messages is the
    transcript of the pairs followed by that of the rest, numbered on. *)
Lemma render_pairs_app h1 : forall n h2,
  alternates h1 ->
  render_pairs n (h1 ++ h2)
  = (render_pairs n h1 ++ render_pairs (n + length h1 / 2) h2)%string.
Proof.
  revert h1. fix IH 1.
  intros [| u [| a rest]] n h2 Halt.
  - simpl. now rewrite Nat.add_0_r.
  - destruct u; contradiction.
  - assert (Hrest : alternates rest).
    { destruct u, a; simpl in Halt; try contradiction; exact Halt. }
    change ((u :: a :: rest) ++ h2) with (u :: a :: (rest ++ h2)).
    rewrite !render_pairs_cons, (IH rest (S n) h2 Hrest).
    rewrite string_app_assoc.
    replace (n + length (u :: a :: rest) / 2) with (S n + length rest / 2).
    + reflexivity.
    + simpl length. rewrite half_SS. lia.
Qed.

Lemma get_history_nonempty m h :
  get_history (m :: h) = (header ++ render_pairs 1 (m :: h))%string.
Proof. reflexivity. Qed.

End TranscriptFacts.

(** X10. In a session, a non-blank input that is not cached and that the
    chain answers makes [process_query] return the answer together with
    the transcript extended by one exchange: the first one follows the
    header, a later one follows the previous transcript, and it is numbered
    one more than the exchanges before it, with the input as typed. *)
Theorem process_query_extends_transcript
    (chatbot : Llama3.SpaceExplorationChatbot)
    (user_input response : string) :
  Llama3.reachable chatbot ->
  PyStr.all_space user_input = false ->
  Llama3.cached chatbot user_input = false ->
  fst (Llama3.process_query chatbot user_input (Return response))
  = (response,
     ((match Llama3.message_history chatbot with
       | [] => History.header
       | _ => Llama3.get_history chatbot
       end)
      ++ Query.exchange
           (length (Llama3.message_history chatbot) / 2 + 1)
           user_input response)%string).
Proof.
  intros Hreach Hblank Hmiss.
  assert (Hstrip : PyStr.truthy (PyStr.strip user_input) = true).
  { destruct (PyStr.strip user_input) eqn:Hs; [| reflexivity].
    apply strip_empty_iff in Hs. congruence. }
  unfold Llama3.process_query. rewrite Hstrip. simpl negb. cbv iota.
  destruct (chat_miss_returns chatbot user_input response Hmiss)
    as (cache' & _ & ->).
  { rewrite (reachable_max_size chatbot Hreach). reflexivity. }
  cbn [fst snd]. f_equal. unfold Llama3.get_history. simpl Llama3.message_history.
  pose proof (reachable_alternates chatbot Hreach) as Halt.
  assert (Hrender :
    History.render_pairs 1
      (Llama3.message_history chatbot
         ++ [HumanMessage user_input; AIMessage response])
    = (History.render_pairs 1 (Llama3.message_history chatbot)
         ++ Query.exchange
              (length (Llama3.message_history chatbot) / 2 + 1)
              user_input response)%string).
  { rewrite (render_pairs_app _ 1 _ Halt), render_pairs_cons.
    cbn [History.render_pairs content]. rewrite string_app_nil_r.
    now rewrite Nat.add_comm. }
  destruct (Llama3.message_history chatbot) as [| m h] eqn:Hh.
  - simpl app. rewrite get_history_nonempty.
    change [HumanMessage user_input; AIMessage response]
      with ([] ++ [HumanMessage user_input; AIMessage response]).
    now rewrite Hrender.
  - change ((m :: h) ++ [HumanMessage user_input; AIMessage response])
      with (m :: (h ++ [HumanMessage user_input; AIMessage response])).
    rewrite !get_history_nonempty.
    change (m :: (h ++ [HumanMessage user_input; AIMessage response]))
      with ((m :: h) ++ [HumanMessage user_input; AIMessage response]).
    rewrite Hrender. now rewrite string_app_assoc.
Qed.

Lemma process_query_extends_transcript_witness :
  snd (fst (Llama3.process_query
              (snd (Llama3.chat Llama3.new_chatbot "Mars?"
                      (Return "The fourth planet.")))
              " Moon? " (Return "Our satellite.")))
  = (Llama3.get_history
       (snd (Llama3.chat Llama3.new_chatbot "Mars?"
               (Return "The fourth planet.")))
     ++ "Q2:  Moon? " ++ PyStr.newline
     ++ "A2: Our satellite." ++ PyStr.newline ++ PyStr.newline)%string.
Proof.
  rewrite
    (process_query_extends_transcript
       (snd (Llama3.chat Llama3.new_chatbot "Mars?"
               (Return "The fourth planet.")))
       " Moon? " "Our satellite.").
  - vm_compute. reflexivity.
  - apply Llama3.reach_chat, Llama3.reach_new.
  - reflexivity.
  - vm_compute. reflexivity.
Defined.

(** X11. [get_history] returns the no-history text exactly when there is no
    message, and it prints pairs only: a last message without a partner is
    left out, so a single unpaired message gives the bare header. *)
Theorem get_history_skips_unpaired_message
    (messages : list BaseMessage) (last_message : BaseMessage) :
  History.alternates messages ->
  History.get_history (messages ++ [last_message])
  = (History.header ++ History.render_pairs 1 messages)%string
  /\ (messages <> [] ->
      History.get_history (messages ++ [last_message])
      = History.get_history messages)
  /\ (History.get_history messages = History.no_history <-> messages = []).
Proof.
  intros Halt.
  assert (Hfirst : History.get_history (messages ++ [last_message])
                   = (History.header
                        ++ History.render_pairs 1 messages)%string).
  { destruct messages as [| m h] eqn:Hm.
    - reflexivity.
    - change ((m :: h) ++ [last_message]) with (m :: (h ++ [last_message])).
      rewrite get_history_nonempty.
      change (m :: (h ++ [last_message])) with ((m :: h) ++ [last_message]).
      rewrite (render_pairs_app _ 1 _ Halt).
      cbn [History.render_pairs]. now rewrite string_app_nil_r. }
  split; [exact Hfirst |]. split.
  - intros Hne. rewrite Hfirst.
    destruct messages as [| m h]; [contradiction | reflexivity].
  - split.
    + destruct messages as [| m h]; [reflexivity |].
      rewrite get_history_nonempty. discriminate.
    + now intros ->.
Qed.

Lemma get_history_skips_unpaired_message_witness :
  History.get_history
    [HumanMessage "Mars?"; AIMessage "The fourth planet.";
     HumanMessage "Moon?"]
  = History.get_history
      [HumanMessage "Mars?"; AIMessage "The fourth planet."].
Proof.
  destruct
    (get_history_skips_unpaired_message
       [HumanMessage "Mars?"; AIMessage "The fourth planet."]
       (HumanMessage "Moon?"))
    as (_ & Hskip & _).
  - exact I.
  - apply Hskip. discriminate.
Defined.

(** ** Clearing through the interface *)

(** X12. [clear_chat] empties both text boxes and shows the no-history
    text, in both variants. In the local-Ollama variant it also forgets
    every cached answer: whatever was cached before, the next [chat] with
    any question calls the chain. *)
Theorem clear_chat_forgets_answers
    (chatbot : Llama3.SpaceExplorationChatbot)
    (groq : GroqAi.SpaceExplorationChatbot) :
  fst (Llama3.clear_chat chatbot) = ("", "", "No conversation history yet.")
  /\ fst (GroqAi.clear_chat groq) = ("", "", "No conversation history yet.")
  /\ GroqAi.chain_log (snd (GroqAi.clear_chat groq)) = GroqAi.chain_log groq
  /\ (forall q, Llama3.cached (snd (Llama3.clear_chat chatbot)) q = false)
  /\ (forall q outcome,
        Llama3.chain_log
          (snd (Llama3.chat (snd (Llama3.clear_chat chatbot)) q outcome))
        = Llama3.chain_log chatbot ++ [q]).
Proof.
  split; [reflexivity |]. split; [reflexivity |]. split; [reflexivity |].
  assert (Hmiss : forall q,
            Llama3.cached (snd (Llama3.clear_chat chatbot)) q = false)
    by reflexivity.
  split; [exact Hmiss |].
  intros q outcome. rewrite (chat_not_cached _ q outcome (Hmiss q)).
  unfold Llama3.chat_new_query.
  destruct outcome as [response | e]; [| reflexivity].
  now destruct (ResponseCache.set _ q response).
Qed.

(** ** The Groq variant calls the chain every time *)

(** X13. Without a cache, every [chat] of the Groq variant calls the chain,
    repeated questions included: after a run of calls the chain has been
    invoked once per call, in order, and the history holds one pair for
    each call the chain answered and nothing for the others. *)
Theorem groq_chat_always_invokes_chain
    (calls : list (string * result string))
    (self : GroqAi.SpaceExplorationChatbot) :
  GroqAi.chain_log (GroqAi.chat_all self calls)
  = GroqAi.chain_log self ++ map fst calls
  /\ GroqAi.message_history (GroqAi.chat_all self calls)
     = GroqAi.message_history self
         ++ flat_map
              (fun call =>
                 match snd call with
                 | Return response =>
                     [HumanMessage (fst call); AIMessage response]
                 | Raise _ => []
                 end)
              calls.
Proof.
  revert self. induction calls as [| [q outcome] calls IH]; intros self.
  - simpl. now rewrite !app_nil_r.
  - simpl GroqAi.chat_all. destruct (IH (snd (GroqAi.chat self q outcome)))
      as [Hlog Hhist].
    rewrite Hlog, Hhist. unfold GroqAi.chat.
    destruct outcome as [response | e]; simpl;
      unfold InMemoryChatMessageHistory.add_message;
      now rewrite <- !app_assoc.
Qed.

(** ** Construction and [main] *)

Section MoreInitFacts.

Lemma groq_build_returns env :
  Console.outcome (GroqAi.build env) = Return tt ->
  GroqAi.path_exists env = true
  /\ Llama3.truthy_opt (GroqAi.GROQ_API_KEY env) = true
  /\ GroqAi.ChatGroq env = Return tt.
Proof.
  unfold GroqAi.build, GroqAi._load_and_split_pdf,
    GroqAi._initialize_vector_store, GroqAi._initialize_llm,
    GroqAi._create_rag_chain, Console.outcome.
  destruct (GroqAi.path_exists env); simpl; [| discriminate].
  destruct (GroqAi.loader_load env) as [documents | e]; simpl;
    [| discriminate].
  destruct (GroqAi.split_documents env documents) as [chunks | e];
    simpl; [| discriminate].
  destruct (GroqAi.HuggingFaceEmbeddings env) as [[] | e]; simpl;
    [| discriminate].
  destruct (GroqAi.Chroma_from_documents env chunks) as [[] | e];
    simpl; [| discriminate].
  destruct (GroqAi.as_retriever env) as [[] | e]; simpl; [| discriminate].
  destruct (Llama3.truthy_opt (GroqAi.GROQ_API_KEY env)); simpl;
    [| discriminate].
  destruct (GroqAi.ChatGroq env) as [[] | e]; simpl; [| discriminate].
  intros _. now repeat split.
Qed.

Lemma groq_init_returns env bot :
  Console.outcome (GroqAi.__init__ env) = Return bot ->
  Console.outcome (GroqAi.build env) = Return tt.
Proof.
  unfold GroqAi.__init__, Console.outcome.
  destruct (GroqAi.setup_langsmith_tracing env) as [tout [b | t]]; simpl;
    [| discriminate].
  destruct (GroqAi.build env) as [bout [[] | e']]; simpl; [| discriminate].
  reflexivity.
Qed.

End MoreInitFacts.

(** X14. When the steps before it succeed and the constructor of the
    Ollama client raises, whatever the exception, [__init__] raises a
    [ValueError] with the fixed text about the Ollama server: the text of
    the original exception is in nothing that is printed or raised. *)
Theorem init_ollama_failure_is_value_error
    (env : Llama3.Env) (e : PyException) (traced : bool)
    (documents chunks : list Llama3.Document) :
  Console.outcome (Llama3.setup_langsmith_tracing env) = Return traced ->
  Llama3.path_exists env = true ->
  Llama3.loader_load env = Return documents ->
  Llama3.split_documents env documents = Return chunks ->
  Llama3.HuggingFaceEmbeddings env = Return tt ->
  Llama3.Chroma_from_documents env chunks = Return tt ->
  Llama3.as_retriever env = Return tt ->
  Llama3.Ollama env = Raise e ->
  Llama3.__init__ env
  = (Console.stdout (Llama3.setup_langsmith_tracing env)
       ++ ["Space Exploration Chatbot - Initializing"; PyStr.dashes 60;
           ("Loading PDF: " ++ Llama3.PDF_FILE env)%string;
           ("Loaded " ++ PyStr.str_of_nat (length documents)
              ++ " pages")%string;
           ("Split into " ++ PyStr.str_of_nat (length chunks)
              ++ " chunks")%string;
           "Initializing vector store (Chroma)...";
           "Creating Chroma vector store...";
           "Vector store created";
           "Initializing LLM (Local Ollama - Offline Mode)...";
           "Initialization failed: Ollama server not running. Please start it with: ollama serve";
           (PyStr.dashes 60 ++ PyStr.newline)%string],
     Raise (mkExc ValueError
              "Ollama server not running. Please start it with: ollama serve")).
Proof.
  intros Ht Hp Hl Hs Hh Hc Hr Ho.
  assert (Hbuild :
    Llama3.build env
    = ([("Loading PDF: " ++ Llama3.PDF_FILE env)%string;
        ("Loaded " ++ PyStr.str_of_nat (length documents) ++ " pages")%string;
        ("Split into " ++ PyStr.str_of_nat (length chunks) ++ " chunks")%string;
        "Initializing vector store (Chroma)...";
        "Creating Chroma vector store...";
        "Vector store created";
        "Initializing LLM (Local Ollama - Offline Mode)..."],
       Raise (mkExc ValueError
                "Ollama server not running. Please start it with: ollama serve"))).
  { unfold Llama3.build, Llama3._load_and_split_pdf,
      Llama3._initialize_vector_store, Llama3._initialize_llm.
    rewrite Hp, Hl. simpl. rewrite Hs. simpl. rewrite Hh. simpl.
    rewrite Hc. simpl. rewrite Hr. simpl. rewrite Ho. reflexivity. }
  rewrite (init_build_raises env _ traced Ht (f_equal snd Hbuild)).
  rewrite Hbuild. reflexivity.
Qed.

Lemma init_ollama_failure_is_value_error_witness :
  Console.outcome
    (Llama3.__init__
       (Llama3.mkEnv "space_exploration.pdf" None None true true
          (Return ["page one"]) (fun documents => Return documents)
          (Return tt) (fun _ => Return tt) (Return tt)
          (Raise (mkExc (OtherException "ConnectionError") "refused"))
          (Return tt) (Return tt)))
  = Raise (mkExc ValueError
             "Ollama server not running. Please start it with: ollama serve").
Proof.
  rewrite
    (init_ollama_failure_is_value_error
       (Llama3.mkEnv "space_exploration.pdf" None None true true
          (Return ["page one"]) (fun documents => Return documents)
          (Return tt) (fun _ => Return tt) (Return tt)
          (Raise (mkExc (OtherException "ConnectionError") "refused"))
          (Return tt) (Return tt))
       (mkExc (OtherException "ConnectionError") "refused") false
       ["page one"] ["page one"]); reflexivity.
Defined.

(** X15. With a LangSmith API key, tracing on and no project configured,
    [setup_langsmith_tracing] raises [TypeError] when it assigns the
    project to the environment. This happens before the [try] block of
    [__init__]: the constructor raises without printing anything, whatever
    the state of the source file and the services, and [main], when no
    interrupt arrives, prints only its own ["Fatal error: ..."] line and
    exits with status 1. Both variants behave so. *)
Theorem init_tracing_without_project_raises
    (env : Llama3.Env) (groq : GroqAi.Env) (server : ServerOutcome) :
  Llama3.truthy_opt (Llama3.LANGSMITH_API_KEY env) = true ->
  Llama3.LANGSMITH_TRACING env = true ->
  Llama3.LANGSMITH_PROJECT env = None ->
  Llama3.truthy_opt (GroqAi.LANGSMITH_API_KEY groq) = true ->
  GroqAi.LANGSMITH_PROJECT groq = None ->
  Llama3.__init__ env
  = ([], Raise (mkExc TypeError "str expected, not NoneType"))
  /\ Llama3.main env None server
     = (["Fatal error: str expected, not NoneType"], Some 1%Z)
  /\ GroqAi.__init__ groq
     = ([], Raise (mkExc TypeError "str expected, not NoneType"))
  /\ GroqAi.main groq None server
     = (["Fatal error: str expected, not NoneType"], Some 1%Z).
Proof.
  intros Hk Ht Hp Hgk Hgp.
  assert (H1 : Llama3.__init__ env
               = ([], Raise (mkExc TypeError "str expected, not NoneType"))).
  { unfold Llama3.__init__, Llama3.setup_langsmith_tracing.
    now rewrite Hk, Ht, Hp. }
  assert (H2 : GroqAi.__init__ groq
               = ([], Raise (mkExc TypeError "str expected, not NoneType"))).
  { unfold GroqAi.__init__, GroqAi.setup_langsmith_tracing.
    now rewrite Hgk, Hgp. }
  repeat split; try assumption.
  - unfold Llama3.main. now rewrite H1.
  - unfold GroqAi.main. now rewrite H2.
Qed.

Lemma init_tracing_without_project_raises_witness :
  Llama3.main
    (Llama3.mkEnv "space_exploration.pdf" (Some "lsv2_key") None true true
       (Return ["page one"]) (fun documents => Return documents)
       (Return tt) (fun _ => Return tt) (Return tt) (Return tt)
       (Return tt) (Return tt))
    None ServerReturned
  = (["Fatal error: str expected, not NoneType"], Some 1%Z).
Proof.
  destruct
    (init_tracing_without_project_raises
       (Llama3.mkEnv "space_exploration.pdf" (Some "lsv2_key") None true true
          (Return ["page one"]) (fun documents => Return documents)
          (Return tt) (fun _ => Return tt) (Return tt) (Return tt)
          (Return tt) (Return tt))
       (GroqAi.mkEnv "space_exploration.pdf" (Some "gsk_key")
          (Some "lsv2_key") None true
          (Return ["page one"]) (fun documents => Return documents)
          (Return tt) (fun _ => Return tt) (Return tt) (Return tt)
          (Return tt) (Return tt))
       ServerReturned)
    as (_ & Hmain & _).
  - reflexivity.
  - reflexivity.
  - reflexivity.
  - reflexivity.
  - reflexivity.
  - exact Hmain.
Defined.

(** X16. Without a Groq API key (unset or empty) the Groq variant never
    constructs a chatbot. The key is looked at only after the source has
    been loaded and the vector store built: when those steps succeed the
    build raises [ValueError] with the message about the key, and a missing
    source file is still reported as [FileNotFoundError]. *)
Theorem groq_init_requires_api_key (env : GroqAi.Env) :
  Llama3.truthy_opt (GroqAi.GROQ_API_KEY env) = false ->
  (forall bot, Console.outcome (GroqAi.__init__ env) <> Return bot)
  /\ (GroqAi.path_exists env = false ->
      Console.outcome (GroqAi.build env)
      = Raise (mkExc FileNotFoundError
                 ("PDF not found: " ++ GroqAi.PDF_FILE env)))
  /\ (forall documents chunks,
        GroqAi.path_exists env = true ->
        GroqAi.loader_load env = Return documents ->
        GroqAi.split_documents env documents = Return chunks ->
        GroqAi.HuggingFaceEmbeddings env = Return tt ->
        GroqAi.Chroma_from_documents env chunks = Return tt ->
        GroqAi.as_retriever env = Return tt ->
        Console.outcome (GroqAi.build env)
        = Raise (mkExc ValueError GroqAi.missing_key_message)).
Proof.
  intros Hkey. split; [| split].
  - intros bot Hret.
    destruct (groq_build_returns env (groq_init_returns env bot Hret))
      as (_ & Hk & _).
    congruence.
  - intros Hp. unfold GroqAi.build, GroqAi._load_and_split_pdf.
    now rewrite Hp.
  - intros documents chunks Hp Hl Hs Hh Hc Hr.
    unfold GroqAi.build, GroqAi._load_and_split_pdf,
      GroqAi._initialize_vector_store, GroqAi._initialize_llm.
    rewrite Hp, Hl. simpl. rewrite Hs. simpl. rewrite Hh. simpl.
    rewrite Hc. simpl. rewrite Hr. simpl. rewrite Hkey. reflexivity.
Qed.

Lemma groq_init_requires_api_key_witness :
  Console.outcome
    (GroqAi.build
       (GroqAi.mkEnv "space_exploration.pdf" (Some "") None None true
          (Return ["page one"]) (fun documents => Return documents)
          (Return tt) (fun _ => Return tt) (Return tt) (Return tt)
          (Return tt) (Return tt)))
  = Raise (mkExc ValueError GroqAi.missing_key_message).
Proof.
  destruct
    (groq_init_requires_api_key
       (GroqAi.mkEnv "space_exploration.pdf" (Some "") None None true
          (Return ["page one"]) (fun documents => Return documents)
          (Return tt) (fun _ => Return tt) (Return tt) (Return tt)
          (Return tt) (Return tt)))
    as (_ & _ & Hkey).
  - reflexivity.
  - apply (Hkey ["page one"] ["page one"]); reflexivity.
Defined.

(** X17. When no interrupt arrives during construction and a build step
    fails, [main] exits with status 1 after the constructor's
    ["Initialization failed: ..."] line and its own ["Fatal error: ..."]
    line, and the server is never started: the result does not depend on
    what the server would do. When [main] does not exit with status 1,
    either the constructor was interrupted, and [main] printed its notice
    after what the constructor had printed and exited with status 0, or
    the constructor returned, the launch line was printed and the server
    returned or was interrupted. *)
Theorem main_exit_status
    (env : Llama3.Env) (interrupt : option nat) (server : ServerOutcome) :
  (forall e traced,
     Console.outcome (Llama3.setup_langsmith_tracing env) = Return traced ->
     Console.outcome (Llama3.build env) = Raise e ->
     Llama3.main env None server
     = (Console.stdout (Llama3.setup_langsmith_tracing env)
          ++ ["Space Exploration Chatbot - Initializing"; PyStr.dashes 60]
          ++ Console.stdout (Llama3.build env)
          ++ [("Initialization failed: " ++ exc_str e)%string;
              (PyStr.dashes 60 ++ PyStr.newline)%string;
              ("Fatal error: " ++ exc_str e)%string],
        Some 1%Z))
  /\ (snd (Llama3.main env interrupt server) <> Some 1%Z ->
      (exists printed,
         interrupt = Some printed
         /\ Llama3.main env interrupt server
            = (firstn printed (Console.stdout (Llama3.__init__ env))
                 ++ ["Chatbot stopped by user"],
               Some 0%Z))
      \/ (interrupt = None
          /\ Console.outcome (Llama3.__init__ env)
             = Return Llama3.new_chatbot
          /\ Console.outcome (Llama3.build env) = Return tt
          /\ In "Launching Gradio interface..."
               (fst (Llama3.main env interrupt server))
          /\ match server with
             | ServerReturned =>
                 snd (Llama3.main env interrupt server) = None
             | ServerInterrupted =>
                 snd (Llama3.main env interrupt server) = Some 0%Z
             | ServerRaised _ => False
             end)).
Proof.
  split.
  - intros e traced Ht Hb. unfold Llama3.main.
    rewrite (init_build_raises env e traced Ht Hb).
    unfold Llama3.init_failed. now rewrite <- !app_assoc.
  - destruct interrupt as [printed |].
    { intros _. left. exists printed. split; reflexivity. }
    unfold Llama3.main.
    destruct (Llama3.__init__ env) as [out [bot | e]] eqn:Hinit;
      [| intros H; now contradiction H].
    destruct (init_returns env bot) as [-> Hbuild].
    { unfold Console.outcome. now rewrite Hinit. }
    intros Hexit. right. split; [reflexivity |].
    split; [reflexivity |]. split; [exact Hbuild |].
    destruct server as [| | e]; simpl in *.
    + split; [| reflexivity]. apply in_or_app. right. now left.
    + split; [| reflexivity]. apply in_or_app. left.
      apply in_or_app. right. now left.
    + now contradiction Hexit.
Qed.

Lemma main_exit_status_witness :
  Llama3.main
    (Llama3.mkEnv "space_exploration.pdf" None None true false
       (Return []) (fun documents => Return documents) (Return tt)
       (fun _ => Return tt) (Return tt) (Return tt) (Return tt) (Return tt))
    None ServerReturned
  = (["Space Exploration Chatbot - Initializing"; PyStr.dashes 60;
      "Loading PDF: space_exploration.pdf";
      "Initialization failed: PDF not found: space_exploration.pdf";
      (PyStr.dashes 60 ++ PyStr.newline)%string;
      "Fatal error: PDF not found: space_exploration.pdf"],
     Some 1%Z).
Proof.
  destruct
    (main_exit_status
       (Llama3.mkEnv "space_exploration.pdf" None None true false
          (Return []) (fun documents => Return documents) (Return tt)
          (fun _ => Return tt) (Return tt) (Return tt) (Return tt)
          (Return tt))
       None ServerReturned)
    as (Hfail & _).
  rewrite
    (Hfail (mkExc FileNotFoundError "PDF not found: space_exploration.pdf")
       false); reflexivity.
Defined.

(** X18. When tracing is set up without error, the source file exists and
    every external step returns, [__init__] returns a chatbot with an empty
    history and an empty cache of bound 50, after printing the success
    line, and [main], when no interrupt arrives during construction, goes
    on to launch the server: it exits with status 1 only if the server
    raises. *)
Theorem init_succeeds_when_all_steps_return
    (env : Llama3.Env) (traced : bool)
    (documents chunks : list Llama3.Document) :
  Console.outcome (Llama3.setup_langsmith_tracing env) = Return traced ->
  Llama3.path_exists env = true ->
  Llama3.loader_load env = Return documents ->
  Llama3.split_documents env documents = Return chunks ->
  Llama3.HuggingFaceEmbeddings env = Return tt ->
  Llama3.Chroma_from_documents env chunks = Return tt ->
  Llama3.as_retriever env = Return tt ->
  Llama3.Ollama env = Return tt ->
  Llama3.from_template env = Return tt ->
  Llama3.compose_chain env = Return tt ->
  Console.outcome (Llama3.__init__ env)
  = Return (Llama3.mkBot [] (ResponseCache.mk [] 50) [])
  /\ In "Chatbot initialized successfully!"
       (Console.stdout (Llama3.__init__ env))
  /\ snd (Llama3.main env None ServerReturned) = None
  /\ snd (Llama3.main env None ServerInterrupted) = Some 0%Z
  /\ (forall e, snd (Llama3.main env None (ServerRaised e)) = Some 1%Z).
Proof.
  intros Ht Hp Hl Hs Hh Hc Hr Ho Hf Hk.
  assert (Hbuild :
    Llama3.build env
    = ([("Loading PDF: " ++ Llama3.PDF_FILE env)%string;
        ("Loaded " ++ PyStr.str_of_nat (length documents) ++ " pages")%string;
        ("Split into " ++ PyStr.str_of_nat (length chunks) ++ " chunks")%string;
        "Initializing vector store (Chroma)...";
        "Creating Chroma vector store...";
        "Vector store created";
        "Initializing LLM (Local Ollama - Offline Mode)...";
        "LLM initialized (Ollama - llama3)";
        "Creating RAG chain...";
        "RAG chain created"],
       Return tt)).
  { unfold Llama3.build, Llama3._load_and_split_pdf,
      Llama3._initialize_vector_store, Llama3._initialize_llm,
      Llama3._create_rag_chain.
    rewrite Hp, Hl. simpl. rewrite Hs. simpl. rewrite Hh. simpl.
    rewrite Hc. simpl. rewrite Hr. simpl. rewrite Ho. simpl.
    rewrite Hf. simpl. rewrite Hk. reflexivity. }
  assert (Hinit :
    Llama3.__init__ env
    = (Console.stdout (Llama3.setup_langsmith_tracing env)
         ++ ["Space Exploration Chatbot - Initializing"; PyStr.dashes 60]
         ++ fst (Llama3.build env)
         ++ ["Chatbot initialized successfully!";
             (PyStr.dashes 60 ++ PyStr.newline)%string],
       Return Llama3.new_chatbot)).
  { unfold Llama3.__init__, Console.outcome, Console.stdout in *.
    destruct (Llama3.setup_langsmith_tracing env) as [tout [b | t]];
      simpl in Ht; [| discriminate].
    rewrite Hbuild. reflexivity. }
  split; [now rewrite Hinit |]. split.
  - rewrite Hinit. unfold Console.stdout at 1. cbn [fst].
    apply in_or_app. right. apply in_or_app. right.
    apply in_or_app. right. now left.
  - unfold Llama3.main. rewrite Hinit. repeat split.
Qed.

Lemma init_succeeds_when_all_steps_return_witness :
  Console.outcome
    (Llama3.__init__
       (Llama3.mkEnv "space_exploration.pdf" None None true true
          (Return ["page one"]) (fun documents => Return documents)
          (Return tt) (fun _ => Return tt) (Return tt) (Return tt)
          (Return tt) (Return tt)))
  = Return Llama3.new_chatbot.
Proof.
  destruct
    (init_succeeds_when_all_steps_return
       (Llama3.mkEnv "space_exploration.pdf" None None true true
          (Return ["page one"]) (fun documents => Return documents)
          (Return tt) (fun _ => Return tt) (Return tt) (Return tt)
          (Return tt) (Return tt))
       false ["page one"] ["page one"])
    as (Hret & _).
  - reflexivity.
  - reflexivity.
  - reflexivity.
  - reflexivity.
  - reflexivity.
  - reflexivity.
  - reflexivity.
  - reflexivity.
  - reflexivity.
  - reflexivity.
  - exact Hret.
Defined.

(** X19. [chat] only ever appends: after any run of calls the old history
    is the beginning of the new one, what was added is a sequence of
    user/assistant pairs with at most one pair per call, and the chain has
    been called at most once per call. Nothing but [clear_history]
    removes a message. *)
Theorem chat_history_is_append_only
    (calls : list (string * result string))
    (self : Llama3.SpaceExplorationChatbot) :
  exists added invoked,
    Llama3.message_history (Llama3.chat_all self calls)
    = Llama3.message_history self ++ added
    /\ History.alternates added
    /\ length added <= 2 * length calls
    /\ Llama3.chain_log (Llama3.chat_all self calls)
       = Llama3.chain_log self ++ invoked
    /\ length invoked <= length calls.
Proof.
  revert self. induction calls as [| [q outcome] calls IH]; intros self.
  - exists [], []. simpl. rewrite !app_nil_r. repeat split; lia.
  - simpl Llama3.chat_all.
    destruct (IH (snd (Llama3.chat self q outcome)))
      as (added & invoked & Hh & Halt & Hlen & Hl & Hlen').
    assert (Hlog : exists one,
              Llama3.chain_log (snd (Llama3.chat self q outcome))
              = Llama3.chain_log self ++ one /\ length one <= 1).
    { destruct (Llama3.cached self q) eqn:Hc.
      - destruct (chat_cached_response self q outcome Hc) as (r & _ & _ & ->).
        exists []. simpl. rewrite app_nil_r. split; [reflexivity | lia].
      - rewrite (chat_not_cached self q outcome Hc).
        unfold Llama3.chat_new_query. exists [q].
        destruct outcome as [response | e];
          [| split; [reflexivity | simpl; lia]].
        destruct (ResponseCache.set (Llama3.response_cache self) q response);
          split; try reflexivity; simpl; lia. }
    destruct Hlog as (one & Hone & Hone_len).
    destruct (chat_history_step self q outcome) as [Hsame | Hturn].
    + exists added, (one ++ invoked).
      rewrite Hh, Hl, Hsame, Hone, <- app_assoc, length_app.
      repeat split; try assumption; simpl length; lia.
    + exists ([HumanMessage q; AIMessage (fst (Llama3.chat self q outcome))]
                ++ added), (one ++ invoked).
      rewrite Hh, Hl, Hturn, Hone, <- !app_assoc, !length_app.
      repeat split.
      * simpl. exact Halt.
      * simpl length. lia.
      * simpl length. lia.
Qed.
